(** * Verification of backend/server.py (prayer-time and qibla service)

    The development embeds these parts of [backend/server.py]:

    - the bearing calculation [calculate_qibla_direction], written once over
      an interface of the [math] operations it calls and then read over the
      real numbers;
    - the settings endpoints [create_or_update_settings] and [get_settings],
      over a document collection with MongoDB's [find_one], [update_one]
      and [insert_one];
    - the request handlers with the query-parameter declarations of their
      signatures, and the static calculation-method table;
    - the shape of the upstream provider's answers that the prayer-time
      handlers read, and the two city tables with their routes;
    - the two encodings around the settings handler, BSON towards the
      store and JSON towards the client, and the validation of the query
      string against the declared parameters. *)

From Stdlib Require Import Reals Lra Lia ZArith Zfloor.
From stdpp Require Import gmap strings list fin_maps pretty.

(** ** The [math] operations used by the bearing calculation *)

(** The operations of Python's [float] and [math] that the code calls.
    [dec m e] is the decimal literal [m * 10^-e]. *)
Class PyFloat (F : Type) := {
  dec : Z -> nat -> F;
  fadd : F -> F -> F;
  fsub : F -> F -> F;
  fmul : F -> F -> F;
  fltb : F -> F -> bool;
  math_radians : F -> F;
  math_degrees : F -> F;
  math_sin : F -> F;
  math_cos : F -> F;
  math_tan : F -> F;
  math_atan2 : F -> F -> F;
  py_round : F -> nat -> F
}.

Module Qibla.
Section Generic.
Context {F : Type} `{PyFloat F}.

(** Kaaba coordinates *)
Definition KAABA_LAT : F := dec 214225 4.
Definition KAABA_LNG : F := dec 398262 4.

Definition calculate_qibla_direction (lat lng : F) : F :=
  let lat_rad := math_radians lat in
  let lng_rad := math_radians lng in
  let kaaba_lat_rad := math_radians KAABA_LAT in
  let kaaba_lng_rad := math_radians KAABA_LNG in
  let delta_lng := fsub kaaba_lng_rad lng_rad in
  let x := math_sin delta_lng in
  let y := fsub (fmul (math_cos lat_rad) (math_tan kaaba_lat_rad))
                (fmul (math_sin lat_rad) (math_cos delta_lng)) in
  let qibla := math_degrees (math_atan2 x y) in
  let qibla := if fltb qibla (dec 0 0) then fadd qibla (dec 360 0) else qibla in
  py_round qibla 2.

(** The forward-azimuth computation as the specification words it, step
    by step, over a reference point given as data. *)
Record GeoCoordinate := { geo_latitude : F; geo_longitude : F }.

Definition ReferencePoint : GeoCoordinate :=
  {| geo_latitude := dec 214225 4; geo_longitude := dec 398262 4 |}.

Definition spec_deltaLng (origin : GeoCoordinate) : F :=
  fsub (math_radians (geo_longitude ReferencePoint))
       (math_radians (geo_longitude origin)).

Definition spec_x (origin : GeoCoordinate) : F :=
  math_sin (spec_deltaLng origin).

Definition spec_y (origin : GeoCoordinate) : F :=
  fsub (fmul (math_cos (math_radians (geo_latitude origin)))
             (math_tan (math_radians (geo_latitude ReferencePoint))))
       (fmul (math_sin (math_radians (geo_latitude origin)))
             (math_cos (spec_deltaLng origin))).

Definition spec_bearing (origin : GeoCoordinate) : F :=
  math_degrees (math_atan2 (spec_x origin) (spec_y origin)).

Definition spec_normalize (bearing : F) : F :=
  if fltb bearing (dec 0 0) then fadd bearing (dec 360 0) else bearing.

Definition computeBearing (origin : GeoCoordinate) : F :=
  py_round (spec_normalize (spec_bearing origin)) 2.
End Generic.
End Qibla.

(** ** Real-number reading of the [math] operations *)

Module RealMath.
Local Open Scope R_scope.

(** [math.atan2 a b], the angle of the point [(b, a)], in [(-PI, PI]];
    [atan2 0 0 = 0] as in C. *)
Definition atan2 (a b : R) : R :=
  if Rlt_dec 0 b then atan (a / b)
  else if Rlt_dec b 0 then
    (if Rle_dec 0 a then atan (a / b) + PI else atan (a / b) - PI)
  else if Rlt_dec 0 a then PI / 2
  else if Rlt_dec a 0 then - (PI / 2)
  else 0.

(** Round-half-to-even to the nearest integer. *)
Definition round_half_even (r : R) : Z :=
  let f := Zfloor r in
  if Rlt_dec (r - IZR f) (1 / 2) then f
  else if Rlt_dec (1 / 2) (r - IZR f) then (f + 1)%Z
  else if Z.even f then f else (f + 1)%Z.

(** [round(r, n)]: round-half-to-even at [n] decimal places. *)
Definition round_nd (r : R) (n : nat) : R :=
  IZR (round_half_even (r * IZR (10 ^ Z.of_nat n))) / IZR (10 ^ Z.of_nat n).

#[export] Instance real_float : PyFloat R := {|
  dec m e := IZR m / IZR (10 ^ Z.of_nat e);
  fadd := Rplus;
  fsub := Rminus;
  fmul := Rmult;
  fltb a b := if Rlt_dec a b then true else false;
  math_radians x := x * (PI / 180);
  math_degrees x := x * (180 / PI);
  math_sin := sin;
  math_cos := cos;
  math_tan := tan;
  math_atan2 := atan2;
  py_round := round_nd
|}.

Definition qibla (lat lng : R) : R :=
  Qibla.calculate_qibla_direction (F := R) lat lng.
End RealMath.

(** ** The backend: documents, the store, the outside world *)

Module Backend.

(** A decoded JSON value, as [response.json()] returns it. *)
#[warnings="-register-all"]
Inductive json :=
  | JNull
  | JBool (b : bool)
  | JNum (n : Z)
  | JStr (s : string)
  | JList (l : list json)
  | JDict (l : list (string * json)).

(** Exceptions the handlers can meet; [HTTPException] is FastAPI's. *)
Inductive exn :=
  | KeyError (key : string)
  | TypeError (msg : string)
  | AttributeError (msg : string)
  | HttpxError (msg : string)
  | PyMongoError (msg : string)
  | OverflowError (msg : string)
  | HTTPException (status_code : Z) (detail : string).

(** [str(e)] *)
Definition str_exn (e : exn) : string :=
  match e with
  | KeyError k => "'" +:+ k +:+ "'"
  | TypeError m | AttributeError m | HttpxError m | PyMongoError m | OverflowError m => m
  | HTTPException _ d => d
  end.

(** [type(j).__name__] of a decoded value *)
Definition type_name (j : json) : string :=
  match j with
  | JNull => "NoneType"
  | JBool _ => "bool"
  | JNum _ => "int"
  | JStr _ => "str"
  | JList _ => "list"
  | JDict _ => "dict"
  end.

Record CalculationMethod := {
  method_id : Z;
  method_name : string;
  method_name_tr : string
}.

Section Model.
Context {F : Type} `{PyFloat F}.

(** Values stored in a settings document. *)
Inductive value :=
  | VNone
  | VStr (s : string)
  | VBool (b : bool)
  | VInt (n : Z)
  | VFloat (x : F)
  | VDatetime (t : Z)
  | VObjectId (o : Z).

(** A Python dict / MongoDB document with string keys. *)
Abbreviation document := (gmap string value).

Definition is_not_None (v : value) : bool :=
  match v with VNone => false | _ => true end.

(** *** Models *)

Record UserSettings := {
  id : string;
  device_id : string;
  language : string;
  theme : string;
  notification_enabled : bool;
  notification_sound : string;
  calculation_method : Z;
  latitude : option F;
  longitude : option F;
  city : option string;
  country : option string;
  created_at : Z;
  updated_at : Z
}.

Record UserSettingsUpdate := {
  u_language : option string;
  u_theme : option string;
  u_notification_enabled : option bool;
  u_notification_sound : option string;
  u_calculation_method : option Z;
  u_latitude : option F;
  u_longitude : option F;
  u_city : option string;
  u_country : option string
}.

(** An [Optional[T]] field as a dict value. *)
Definition optional {A} (inj : A -> value) (o : option A) : value :=
  match o with Some a => inj a | None => VNone end.

(** [settings.dict()] for a [UserSettingsUpdate] *)
Definition UserSettingsUpdate_dict (s : UserSettingsUpdate) : document :=
  list_to_map [
    ("language", optional VStr (u_language s));
    ("theme", optional VStr (u_theme s));
    ("notification_enabled", optional VBool (u_notification_enabled s));
    ("notification_sound", optional VStr (u_notification_sound s));
    ("calculation_method", optional VInt (u_calculation_method s));
    ("latitude", optional VFloat (u_latitude s));
    ("longitude", optional VFloat (u_longitude s));
    ("city", optional VStr (u_city s));
    ("country", optional VStr (u_country s))
  ].

(** [new_settings.dict()] for a [UserSettings] *)
Definition UserSettings_dict (s : UserSettings) : document :=
  list_to_map [
    ("id", VStr (id s));
    ("device_id", VStr (device_id s));
    ("language", VStr (language s));
    ("theme", VStr (theme s));
    ("notification_enabled", VBool (notification_enabled s));
    ("notification_sound", VStr (notification_sound s));
    ("calculation_method", VInt (calculation_method s));
    ("latitude", optional VFloat (latitude s));
    ("longitude", optional VFloat (longitude s));
    ("city", optional VStr (city s));
    ("country", optional VStr (country s));
    ("created_at", VDatetime (created_at s));
    ("updated_at", VDatetime (updated_at s))
  ].

(** [{k: v for k, v in d.items() if v is not None}] *)
Definition drop_None (d : document) : document :=
  filter (fun kv => is_not_None kv.2 = true) d.

(** *** The collection [db.user_settings] *)

(** The filter [{"device_id": device_id}] *)
Definition matches (device_id : string) (doc : document) : bool :=
  match doc !! "device_id" with
  | Some (VStr s) => bool_decide (s = device_id)
  | _ => false
  end.

Fixpoint find_one (device_id : string) (coll : list document) : option document :=
  match coll with
  | [] => None
  | doc :: rest => if matches device_id doc then Some doc else find_one device_id rest
  end.

(** [update_one(filter, {"$set": update_data})]: the first matching
    document takes every key of [update_data]. *)
Fixpoint update_one (device_id : string) (update_data : document)
    (coll : list document) : list document :=
  match coll with
  | [] => []
  | doc :: rest =>
      if matches device_id doc then (update_data ∪ doc) :: rest
      else doc :: update_one device_id update_data rest
  end.

(** [insert_one(doc)]: the driver adds an [_id] when the document has
    none, and the document goes to the end of the collection. *)
Definition insert_one (oid : Z) (doc : document) (coll : list document) : list document :=
  coll ++ [match doc !! "_id" with
           | Some _ => doc
           | None => <["_id" := VObjectId oid]> doc
           end].

(** Truth value of [existing] in [if existing:], for [None] or a dict. *)
Definition truthy (o : option document) : bool :=
  match o with
  | None => false
  | Some d => negb (Nat.eqb (size d) 0)
  end.

(** *** The outside world *)

Inductive event :=
  | EvNow
  | EvUtcnow
  | EvUuid4
  | EvHttpGet (url : string) (lat lng : F) (method : Z)
  | EvFindOne (device_id : string)
  | EvUpdateOne (device_id : string) (update_data : document)
  | EvInsertOne (doc : document).

Record world := {
  user_settings : list document;
  trace : list event
}.

Definition M (A : Type) : Type := world -> (exn + A) * world.

Definition ret {A} (a : A) : M A := fun w => (inr a, w).
Definition raise {A} (e : exn) : M A := fun w => (inl e, w).
Definition bind {A B} (m : M A) (k : A -> M B) : M B :=
  fun w => match m w with
           | (inr a, w') => k a w'
           | (inl e, w') => (inl e, w')
           end.
Definition try_except {A} (m : M A) (handler : exn -> M A) : M A :=
  fun w => match m w with
           | (inr a, w') => (inr a, w')
           | (inl e, w') => handler e w'
           end.

Definition emit (e : event) (w : world) : world :=
  {| user_settings := user_settings w; trace := trace w ++ [e] |}.

(** Every effect of a handler is logged; the oracles below are read at the
    current step, the number of effects so far. *)
Definition step (w : world) : nat := length (trace w).

(** The environment: the clock, the uuid generator, the ObjectId generator
    of the driver, the faults of the database connection, the upstream
    provider, and Python's formatting of dates and of decoded values. *)
Variable clock : nat -> Z.
Variable uuid4_at : nat -> string.
Variable ObjectId_at : nat -> Z.
Variable db_fault : nat -> option string.
Variable aladhan : nat -> string -> F -> F -> Z -> exn + json.
Variable strftime_dmY : Z -> string.
Variable format_value : json -> string.

Definition datetime_now : M Z :=
  fun w => (inr (clock (step w)), emit EvNow w).

Definition datetime_utcnow : M Z :=
  fun w => (inr (clock (step w)), emit EvUtcnow w).

Definition uuid4 : M string :=
  fun w => (inr (uuid4_at (step w)), emit EvUuid4 w).

Definition httpx_get (url : string) (lat lng : F) (method : Z) : M json :=
  fun w => (aladhan (step w) url lat lng method, emit (EvHttpGet url lat lng method) w).

Definition db_find_one (device_id : string) : M (option document) :=
  fun w =>
    match db_fault (step w) with
    | Some msg => (inl (PyMongoError msg), emit (EvFindOne device_id) w)
    | None => (inr (find_one device_id (user_settings w)), emit (EvFindOne device_id) w)
    end.

Definition db_update_one (device_id : string) (update_data : document) : M unit :=
  fun w =>
    match db_fault (step w) with
    | Some msg => (inl (PyMongoError msg), emit (EvUpdateOne device_id update_data) w)
    | None =>
        (inr tt,
         {| user_settings := update_one device_id update_data (user_settings w);
            trace := trace w ++ [EvUpdateOne device_id update_data] |})
    end.

Definition db_insert_one (doc : document) : M unit :=
  fun w =>
    match db_fault (step w) with
    | Some msg => (inl (PyMongoError msg), emit (EvInsertOne doc) w)
    | None =>
        (inr tt,
         {| user_settings := insert_one (ObjectId_at (step w)) doc (user_settings w);
            trace := trace w ++ [EvInsertOne doc] |})
    end.

(** *** Responses *)

Inductive payload :=
  | PNull
  | PDoc (d : document)
  | PQibla (direction latitude longitude kaaba_latitude kaaba_longitude : F)
  | PJson (j : json)
  | PMethods (methods : list CalculationMethod).

(** [{"success": ..., "data": ...}] *)
Record envelope := { success : bool; data : payload }.

Definition payload_of (o : option document) : payload :=
  match o with Some d => PDoc d | None => PNull end.

(** *** Settings *)

Definition kw_str (kwargs : document) (k default : string) : string :=
  match kwargs !! k with Some (VStr s) => s | _ => default end.

Definition kw_bool (kwargs : document) (k : string) (default : bool) : bool :=
  match kwargs !! k with Some (VBool b) => b | _ => default end.

Definition kw_int (kwargs : document) (k : string) (default : Z) : Z :=
  match kwargs !! k with Some (VInt n) => n | _ => default end.

Definition kw_opt_float (kwargs : document) (k : string) : option F :=
  match kwargs !! k with Some (VFloat x) => Some x | _ => None end.

Definition kw_opt_str (kwargs : document) (k : string) : option string :=
  match kwargs !! k with Some (VStr s) => Some s | _ => None end.

(** [UserSettings(device_id=device_id, **kwargs)]: the fields missing from
    [kwargs] take their defaults, the default factories run in field
    order. *)
Definition UserSettings_new (device_id : string) (kwargs : document) : M UserSettings :=
  bind uuid4 (fun new_id =>
  bind datetime_utcnow (fun created =>
  bind datetime_utcnow (fun updated =>
  ret {| id := new_id;
         device_id := device_id;
         language := kw_str kwargs "language" "tr";
         theme := kw_str kwargs "theme" "dark";
         notification_enabled := kw_bool kwargs "notification_enabled" true;
         notification_sound := kw_str kwargs "notification_sound" "default";
         calculation_method := kw_int kwargs "calculation_method" 13;
         latitude := kw_opt_float kwargs "latitude";
         longitude := kw_opt_float kwargs "longitude";
         city := kw_opt_str kwargs "city";
         country := kw_opt_str kwargs "country";
         created_at := created;
         updated_at := updated |}))).

Definition create_or_update_settings (device_id : string) (settings : UserSettingsUpdate)
    : M envelope :=
  try_except
    (bind (db_find_one device_id) (fun existing =>
     if truthy existing then
       let update_data := drop_None (UserSettingsUpdate_dict settings) in
       bind datetime_utcnow (fun now =>
       let update_data := <["updated_at" := VDatetime now]> update_data in
       bind (db_update_one device_id update_data) (fun _ =>
       bind (db_find_one device_id) (fun updated =>
       ret {| success := true; data := payload_of updated |})))
     else
       bind (UserSettings_new device_id (drop_None (UserSettingsUpdate_dict settings)))
         (fun new_settings =>
       bind (db_insert_one (UserSettings_dict new_settings)) (fun _ =>
       ret {| success := true; data := PDoc (UserSettings_dict new_settings) |}))))
    (fun e => raise (HTTPException 500 (str_exn e))).

Definition get_settings (device_id : string) : M envelope :=
  bind (db_find_one device_id) (fun settings =>
  if truthy settings then
    ret {| success := true; data := payload_of (delete "_id" <$> settings) |}
  else
    ret {| success := true; data := PNull |}).

(** *** Qibla *)

Definition get_qibla_direction (latitude longitude : F) : M envelope :=
  let direction := Qibla.calculate_qibla_direction latitude longitude in
  ret {| success := true;
         data := PQibla direction latitude longitude Qibla.KAABA_LAT Qibla.KAABA_LNG |}.

(** *** Prayer times *)

Fixpoint assoc (k : string) (l : list (string * json)) : option json :=
  match l with
  | [] => None
  | (k', v) :: rest => if bool_decide (k' = k) then Some v else assoc k rest
  end.

(** [j[k]] for a string key *)
Definition getitem (j : json) (k : string) : M json :=
  match j with
  | JDict l =>
      match assoc k l with
      | Some v => ret v
      | None => raise (KeyError k)
      end
  | JStr _ => raise (TypeError "string indices must be integers, not 'str'")
  | JList _ => raise (TypeError "list indices must be integers or slices, not str")
  | _ => raise (TypeError ("'" +:+ type_name j +:+ "' object is not subscriptable"))
  end.

(** [s.split(" ")[0]] on a string *)
Fixpoint before_space (s : string) : string :=
  match s with
  | EmptyString => EmptyString
  | String c rest =>
      if bool_decide (c = Ascii.Space) then EmptyString else String c (before_space rest)
  end.

(** [v.split(" ")[0]] on a decoded value *)
Definition split_head (v : json) : M json :=
  match v with
  | JStr s => ret (JStr (before_space s))
  | _ => raise (AttributeError ("'" +:+ type_name v +:+ "' object has no attribute 'split'"))
  end.

Definition fetch_prayer_times_aladhan (lat lng : F) (date_str : option string) (method : Z)
    : M json :=
  bind (match date_str with
        | None => bind datetime_now (fun t => ret (strftime_dmY t))
        | Some d => ret d
        end) (fun date_str =>
  let url := "http://api.aladhan.com/v1/timings/" +:+ date_str in
  httpx_get url lat lng method).

Definition hijri_text (date_info : json) (lang : string) (with_year : bool) : M json :=
  bind (getitem date_info "hijri") (fun hijri =>
  bind (getitem hijri "day") (fun day =>
  bind (getitem hijri "month") (fun month =>
  bind (getitem month lang) (fun month_name =>
  if with_year then
    bind (getitem hijri "year") (fun year =>
    ret (JStr (format_value day +:+ " " +:+ format_value month_name +:+ " "
               +:+ format_value year)))
  else
    ret (JStr (format_value day +:+ " " +:+ format_value month_name)))))).

Definition get_prayer_times (latitude longitude : F) (date : option string) (method : Z)
    : M envelope :=
  try_except
    (bind (fetch_prayer_times_aladhan latitude longitude date method) (fun data =>
     bind (getitem data "data") (fun d =>
     bind (getitem d "timings") (fun timings =>
     bind (getitem d "date") (fun date_info =>
     bind (getitem d "meta") (fun meta =>
     bind (getitem timings "Fajr") (fun fajr =>
     bind (getitem timings "Sunrise") (fun sunrise =>
     bind (getitem timings "Dhuhr") (fun dhuhr =>
     bind (getitem timings "Asr") (fun asr =>
     bind (getitem timings "Maghrib") (fun maghrib =>
     bind (getitem timings "Isha") (fun isha =>
     bind (getitem date_info "readable") (fun readable =>
     bind (hijri_text date_info "en" true) (fun hijri_date =>
     bind (hijri_text date_info "ar" true) (fun hijri_date_ar =>
     bind (getitem meta "timezone") (fun timezone =>
     bind (getitem meta "method") (fun meta_method =>
     bind (getitem meta_method "name") (fun method_name =>
     ret {| success := true;
            data := PJson (JDict [
              ("fajr", fajr); ("sunrise", sunrise); ("dhuhr", dhuhr); ("asr", asr);
              ("maghrib", maghrib); ("isha", isha); ("date", readable);
              ("hijri_date", hijri_date); ("hijri_date_ar", hijri_date_ar);
              ("timezone", timezone); ("method", method_name)]) |}))))))))))))))))))
    (fun e => raise (HTTPException 500 ("Failed to fetch prayer times: " +:+ str_exn e))).

Definition monthly_entry (day_data : json) : M json :=
  bind (getitem day_data "timings") (fun timings =>
  bind (getitem day_data "date") (fun date_info =>
  bind (getitem date_info "readable") (fun readable =>
  bind (getitem date_info "gregorian") (fun greg =>
  bind (getitem greg "date") (fun gregorian =>
  bind (hijri_text date_info "en" false) (fun hijri =>
  bind (bind (getitem timings "Fajr") split_head) (fun fajr =>
  bind (bind (getitem timings "Sunrise") split_head) (fun sunrise =>
  bind (bind (getitem timings "Dhuhr") split_head) (fun dhuhr =>
  bind (bind (getitem timings "Asr") split_head) (fun asr =>
  bind (bind (getitem timings "Maghrib") split_head) (fun maghrib =>
  bind (bind (getitem timings "Isha") split_head) (fun isha =>
  ret (JDict [
    ("date", readable); ("gregorian", gregorian); ("hijri", hijri);
    ("fajr", fajr); ("sunrise", sunrise); ("dhuhr", dhuhr); ("asr", asr);
    ("maghrib", maghrib); ("isha", isha)]))))))))))))).

Fixpoint for_each (body : json -> M json) (items : list json) : M (list json) :=
  match items with
  | [] => ret []
  | x :: rest =>
      bind (body x) (fun y =>
      bind (for_each body rest) (fun ys => ret (y :: ys)))
  end.

(** The items a [for] loop draws from a decoded value: the elements of a
    list, the keys of a dict, the characters of a string (the loop body
    raises on the first one, so only the first is drawn); other values are
    not iterable. *)
Definition iterate (j : json) : M (list json) :=
  match j with
  | JList l => ret l
  | JDict l => ret (JStr <$> l.*1)
  | JStr EmptyString => ret []
  | JStr (String c _) => ret [JStr (String c EmptyString)]
  | _ => raise (TypeError ("'" +:+ type_name j +:+ "' object is not iterable"))
  end.

Definition get_monthly_prayer_times (latitude longitude : F) (month year method : Z)
    : M envelope :=
  try_except
    (let url := "http://api.aladhan.com/v1/calendar/" +:+ pretty year +:+ "/"
                +:+ pretty month in
     bind (httpx_get url latitude longitude method) (fun data =>
     bind (getitem data "data") (fun days =>
     bind (iterate days) (fun items =>
     bind (for_each monthly_entry items) (fun monthly_data =>
     ret {| success := true; data := PJson (JList monthly_data) |})))))
    (fun e => raise (HTTPException 500 (str_exn e))).

(** *** Calculation methods *)

Definition get_calculation_methods : M envelope :=
  let methods := [
    {| method_id := 0; method_name := "Shia Ithna-Ashari"; method_name_tr := "Şii İsna Aşeri" |};
    {| method_id := 1; method_name := "University of Islamic Sciences, Karachi"; method_name_tr := "Karachi Üniversitesi" |};
    {| method_id := 2; method_name := "Islamic Society of North America"; method_name_tr := "ISNA" |};
    {| method_id := 3; method_name := "Muslim World League"; method_name_tr := "Müslüman Dünya Birliği" |};
    {| method_id := 4; method_name := "Umm Al-Qura University, Makkah"; method_name_tr := "Ümmül Kura" |};
    {| method_id := 5; method_name := "Egyptian General Authority of Survey"; method_name_tr := "Mısır" |};
    {| method_id := 7; method_name := "Institute of Geophysics, University of Tehran"; method_name_tr := "Tahran" |};
    {| method_id := 8; method_name := "Gulf Region"; method_name_tr := "Körfez Bölgesi" |};
    {| method_id := 9; method_name := "Kuwait"; method_name_tr := "Kuveyt" |};
    {| method_id := 10; method_name := "Qatar"; method_name_tr := "Katar" |};
    {| method_id := 11; method_name := "Majlis Ugama Islam Singapura"; method_name_tr := "Singapur" |};
    {| method_id := 12; method_name := "Union Organization Islamic de France"; method_name_tr := "Fransa" |};
    {| method_id := 13; method_name := "Diyanet İşleri Başkanlığı, Turkey"; method_name_tr := "Diyanet İşleri Başkanlığı" |};
    {| method_id := 14; method_name := "Spiritual Administration of Muslims of Russia"; method_name_tr := "Rusya" |}
  ] in
  ret {| success := true; data := PMethods methods |}.

(** *** The routes: FastAPI's handling of the declared parameters *)

Inductive http_response :=
  | Response200 (body : envelope)
  | ResponseError (status : Z) (detail : string).

(** The outcome of a handler call: a return value is the 200 body, an
    [HTTPException] gives its own status, any other exception is a 500.
    The encoding of the body to JSON comes after it and is in [Mongo]
    below ([respond]). *)
Definition serve (handler : M envelope) : world -> http_response * world :=
  fun w =>
    match handler w with
    | (inr body, w') => (Response200 body, w')
    | (inl (HTTPException status detail), w') => (ResponseError status detail, w')
    | (inl _, w') => (ResponseError 500 "Internal Server Error", w')
    end.

(** The answer to a request whose parameters fail validation; the handler
    is not called. *)
Definition unprocessable : world -> http_response * world :=
  fun w => (ResponseError 422 "Unprocessable Entity", w).

(** The routes once the query string is read: a parameter arrives as
    [Some v] when the query has it, as [None] when it has not.
    [Query(...)] declares it required, [Query(13)] gives it the default 13.
    The reading of the query string, with the parameters that fail to
    parse, is in [Validation] below. *)

Definition route_prayer_times (latitude longitude : option F) (date : option string)
    (method : option Z) : world -> http_response * world :=
  match latitude, longitude with
  | Some lat, Some lng => serve (get_prayer_times lat lng date (default 13%Z method))
  | _, _ => unprocessable
  end.

Definition route_prayer_times_monthly (latitude longitude : option F)
    (month year method : option Z) : world -> http_response * world :=
  match latitude, longitude, month, year with
  | Some lat, Some lng, Some m, Some y =>
      serve (get_monthly_prayer_times lat lng m y (default 13%Z method))
  | _, _, _, _ => unprocessable
  end.

Definition route_qibla (latitude longitude : option F) : world -> http_response * world :=
  match latitude, longitude with
  | Some lat, Some lng => serve (get_qibla_direction lat lng)
  | _, _ => unprocessable
  end.

Definition route_calculation_methods : world -> http_response * world :=
  serve get_calculation_methods.

Definition route_get_settings (device_id : string) : world -> http_response * world :=
  serve (get_settings device_id).

(** A sequence of settings writes, one after the other. *)
Definition run_upserts (reqs : list (string * UserSettingsUpdate)) (w : world) : world :=
  foldl (fun w r => (create_or_update_settings r.1 r.2 w).2) w reqs.

(** Number of records of a device in the collection. *)
Definition count_device (device_id : string) (coll : list document) : nat :=
  length (filter (fun doc => matches device_id doc = true) coll).

(** *** Vocabulary of the statements *)

(** The names of the fields a patch can carry. *)
Definition settings_fields : list string :=
  ["language"; "theme"; "notification_enabled"; "notification_sound";
   "calculation_method"; "latitude"; "longitude"; "city"; "country"].

(** The keys a patch really carries: its fields that are not [None]. *)
Definition patched_keys (p : UserSettingsUpdate) : gset string :=
  dom (drop_None (UserSettingsUpdate_dict p)).

(** The [update_data] of the update branch, for the clock reading [now]. *)
Definition merge_data (now : Z) (p : UserSettingsUpdate) : document :=
  <["updated_at" := VDatetime now]> (drop_None (UserSettingsUpdate_dict p)).

(** Field-by-field merge as the specification words it: a field present in
    the patch overwrites the stored one, an absent field leaves it. *)
Definition merge_field {A} (inj : A -> value) (patch : option A) (stored : option value)
    : option value :=
  match patch with Some a => Some (inj a) | None => stored end.

(** The record the specification describes for a first write: identifier,
    device, the two timestamps, the patch's fields and the documented
    default for each field the patch leaves out. *)
Definition created_record (new_id d : string) (p : UserSettingsUpdate)
    (t_created t_updated : Z) : UserSettings :=
  {| id := new_id;
     device_id := d;
     language := default "tr" (u_language p);
     theme := default "dark" (u_theme p);
     notification_enabled := default true (u_notification_enabled p);
     notification_sound := default "default" (u_notification_sound p);
     calculation_method := default 13%Z (u_calculation_method p);
     latitude := u_latitude p;
     longitude := u_longitude p;
     city := u_city p;
     country := u_country p;
     created_at := t_created;
     updated_at := t_updated |}.

(** The database answers every operation between steps [a] and [b]. *)
Definition no_fault_between (a b : nat) : Prop :=
  forall n, a <= n < b -> db_fault n = None.

(** Every identifier in the collection was drawn from the uuid generator
    at an earlier step. *)
Definition ids_drawn_before (w : world) : Prop :=
  forall doc s, doc ∈ user_settings w -> doc !! "id" = Some (VStr s) ->
    exists m, m < step w /\ s = uuid4_at m.

Definition is_client_error (r : http_response) : Prop :=
  match r with
  | ResponseError status _ => (400 <= status < 500)%Z
  | Response200 _ => False
  end.

(** The upstream call for the given coordinates appears in the trace. *)
Definition called_upstream (lat lng : F) (w : world) : Prop :=
  exists url method, EvHttpGet url lat lng method ∈ trace w.

(** A computation that leaves the world as it is. *)
Definition silent {A} (m : M A) : Prop := forall w, (m w).2 = w.

Definition empty_world : world := {| user_settings := []; trace := [] |}.
End Model.
End Backend.

(** ** A sample environment and sample data *)

Module Sample.
Import Backend.

Definition sample_clock (n : nat) : Z := 1700000000 + Z.of_nat n.
Definition sample_uuid4 (n : nat) : string := pretty n.
Definition sample_ObjectId (n : nat) : Z := Z.of_nat n.
Definition no_faults (n : nat) : option string := None.
Definition sample_strftime (t : Z) : string := "01-01-2024".

Definition sample_format (j : json) : string :=
  match j with
  | JStr s => s
  | JNum n => pretty n
  | _ => ""
  end.

(** An upstream provider that cannot be reached. *)
Definition upstream_down (n : nat) (url : string) (lat lng : R) (method : Z) : exn + json :=
  inl (HttpxError "connection refused").

Definition no_patch : UserSettingsUpdate (F := R) :=
  {| u_language := None; u_theme := None; u_notification_enabled := None;
     u_notification_sound := None; u_calculation_method := None;
     u_latitude := None; u_longitude := None; u_city := None; u_country := None |}.

Definition english_patch : UserSettingsUpdate (F := R) :=
  {| u_language := Some "en"; u_theme := None; u_notification_enabled := None;
     u_notification_sound := None; u_calculation_method := None;
     u_latitude := None; u_longitude := None; u_city := None; u_country := None |}.

(** The world after a first write for "device-1" with an empty patch. *)
Definition sample_settings : UserSettings (F := R) :=
  created_record "1" "device-1" no_patch 1700000002 1700000003.

Definition sample_record : gmap string (value (F := R)) :=
  <["_id" := VObjectId 4]> (UserSettings_dict sample_settings).

Definition sample_world : world (F := R) :=
  {| user_settings := [sample_record];
     trace := [EvFindOne "device-1"; EvUuid4; EvUtcnow; EvUtcnow;
               EvInsertOne (UserSettings_dict sample_settings)] |}.
End Sample.

(** ** The shape of the upstream provider's answers *)

Module Upstream.
Import Backend.

(** The six times of a day, as the provider names them. *)
Record Timings := {
  Fajr : string;
  Sunrise : string;
  Dhuhr : string;
  Asr : string;
  Maghrib : string;
  Isha : string
}.

(** The fields of the provider's date block that the handlers read. *)
Record DateInfo := {
  readable : string;
  gregorian_date : string;
  hijri_day : string;
  hijri_month_en : string;
  hijri_month_ar : string;
  hijri_year : string
}.

Definition timings_json (t : Timings) : json :=
  JDict [("Fajr", JStr (Fajr t)); ("Sunrise", JStr (Sunrise t));
         ("Dhuhr", JStr (Dhuhr t)); ("Asr", JStr (Asr t));
         ("Maghrib", JStr (Maghrib t)); ("Isha", JStr (Isha t))].

Definition date_json (d : DateInfo) : json :=
  JDict [("readable", JStr (readable d));
         ("gregorian", JDict [("date", JStr (gregorian_date d))]);
         ("hijri", JDict [("day", JStr (hijri_day d));
                          ("month", JDict [("en", JStr (hijri_month_en d));
                                           ("ar", JStr (hijri_month_ar d))]);
                          ("year", JStr (hijri_year d))])].

Definition meta_json (timezone method_name : string) : json :=
  JDict [("timezone", JStr timezone); ("method", JDict [("name", JStr method_name)])].

(** One day of the provider's calendar. *)
Definition day_json (t : Timings) (d : DateInfo) : json :=
  JDict [("timings", timings_json t); ("date", date_json d)].

(** The provider's answer for one date. *)
Definition daily_body (t : Timings) (d : DateInfo) (timezone method_name : string) : json :=
  JDict [("data", JDict [("timings", timings_json t); ("date", date_json d);
                         ("meta", meta_json timezone method_name)])].

(** The provider's answer for a month. *)
Definition monthly_body (days : list (Timings * DateInfo)) : json :=
  JDict [("data", JList ((fun td => day_json td.1 td.2) <$> days))].

(** The daily payload the handler builds from such an answer. *)
Definition daily_payload (t : Timings) (d : DateInfo) (timezone method_name : string) : json :=
  JDict [("fajr", JStr (Fajr t)); ("sunrise", JStr (Sunrise t));
         ("dhuhr", JStr (Dhuhr t)); ("asr", JStr (Asr t));
         ("maghrib", JStr (Maghrib t)); ("isha", JStr (Isha t));
         ("date", JStr (readable d));
         ("hijri_date",
          JStr (hijri_day d +:+ " " +:+ hijri_month_en d +:+ " " +:+ hijri_year d));
         ("hijri_date_ar",
          JStr (hijri_day d +:+ " " +:+ hijri_month_ar d +:+ " " +:+ hijri_year d));
         ("timezone", JStr timezone); ("method", JStr method_name)].

(** The entry of the monthly payload for one day: each time is cut at its
    first space. *)
Definition monthly_payload_entry (td : Timings * DateInfo) : json :=
  let (t, d) := td in
  JDict [("date", JStr (readable d)); ("gregorian", JStr (gregorian_date d));
         ("hijri", JStr (hijri_day d +:+ " " +:+ hijri_month_en d));
         ("fajr", JStr (before_space (Fajr t)));
         ("sunrise", JStr (before_space (Sunrise t)));
         ("dhuhr", JStr (before_space (Dhuhr t)));
         ("asr", JStr (before_space (Asr t)));
         ("maghrib", JStr (before_space (Maghrib t)));
         ("isha", JStr (before_space (Isha t)))].

Definition has_space (s : string) : Prop :=
  Ascii.Space ∈ String.list_ascii_of_string s.

(** [j[k]] when [j] is a dict that has the key [k] *)
Definition field (j : json) (k : string) : option json :=
  match j with JDict l => assoc k l | _ => None end.

(** [j[k1][k2]...] when every step is a dict that has the key *)
Fixpoint at_path (j : json) (path : list string) : option json :=
  match path with
  | [] => Some j
  | k :: rest =>
      match field j k with
      | Some v => at_path v rest
      | None => None
      end
  end.

(** A day of the provider's calendar that has every key the monthly
    handler reads, with strings for its six times, and the entry the
    handler builds from it. The day may have any further keys. *)
Definition monthly_reads (format_value : json -> string) (day entry : json) : Prop :=
  exists readable gregorian hijri_day hijri_month fajr sunrise dhuhr asr maghrib isha,
    at_path day ["date"; "readable"] = Some readable
    /\ at_path day ["date"; "gregorian"; "date"] = Some gregorian
    /\ at_path day ["date"; "hijri"; "day"] = Some hijri_day
    /\ at_path day ["date"; "hijri"; "month"; "en"] = Some hijri_month
    /\ at_path day ["timings"; "Fajr"] = Some (JStr fajr)
    /\ at_path day ["timings"; "Sunrise"] = Some (JStr sunrise)
    /\ at_path day ["timings"; "Dhuhr"] = Some (JStr dhuhr)
    /\ at_path day ["timings"; "Asr"] = Some (JStr asr)
    /\ at_path day ["timings"; "Maghrib"] = Some (JStr maghrib)
    /\ at_path day ["timings"; "Isha"] = Some (JStr isha)
    /\ entry = JDict [
         ("date", readable); ("gregorian", gregorian);
         ("hijri", JStr (format_value hijri_day +:+ " " +:+ format_value hijri_month));
         ("fajr", JStr (before_space fajr)); ("sunrise", JStr (before_space sunrise));
         ("dhuhr", JStr (before_space dhuhr)); ("asr", JStr (before_space asr));
         ("maghrib", JStr (before_space maghrib)); ("isha", JStr (before_space isha))].

Section Requests.
Context {F : Type}.
Variable clock : nat -> Z.
Variable strftime_dmY : Z -> string.

(** The address the daily handler asks, and the step at which it asks. *)
Definition timings_url (date : option string) (w : world (F := F)) : string :=
  "http://api.aladhan.com/v1/timings/" +:+
  match date with
  | Some d => d
  | None => strftime_dmY (clock (step w))
  end.

Definition timings_step (date : option string) (w : world (F := F)) : nat :=
  match date with
  | Some _ => step w
  | None => S (step w)
  end.

Definition timings_events (date : option string) (lat lng : F) (method : Z)
    (w : world (F := F)) : list (event (F := F)) :=
  match date with
  | Some _ => [EvHttpGet (timings_url date w) lat lng method]
  | None => [EvNow; EvHttpGet (timings_url date w) lat lng method]
  end.

Definition calendar_url (month year : Z) : string :=
  "http://api.aladhan.com/v1/calendar/" +:+ pretty year +:+ "/" +:+ pretty month.
End Requests.
End Upstream.

(** ** More vocabulary for the settings endpoints *)

Module SettingsModel.
Import Backend.

Section Model.
Context {F : Type}.

Variable clock : nat -> Z.
Variable uuid4_at : nat -> string.
Variable ObjectId_at : nat -> Z.
Variable db_fault : nat -> option string.

(** A patch that carries nothing: every field is [None]. *)
Definition empty_patch : UserSettingsUpdate (F := F) :=
  {| u_language := None; u_theme := None; u_notification_enabled := None;
     u_notification_sound := None; u_calculation_method := None;
     u_latitude := None; u_longitude := None; u_city := None; u_country := None |}.

(** A record after a patch at time [now], field by field. *)
Definition apply_patch (s : UserSettings (F := F)) (p : UserSettingsUpdate (F := F))
    (now : Z) : UserSettings (F := F) :=
  {| id := id s;
     device_id := device_id s;
     language := default (language s) (u_language p);
     theme := default (theme s) (u_theme p);
     notification_enabled := default (notification_enabled s) (u_notification_enabled p);
     notification_sound := default (notification_sound s) (u_notification_sound p);
     calculation_method := default (calculation_method s) (u_calculation_method p);
     latitude := match u_latitude p with Some x => Some x | None => latitude s end;
     longitude := match u_longitude p with Some x => Some x | None => longitude s end;
     city := match u_city p with Some x => Some x | None => city s end;
     country := match u_country p with Some x => Some x | None => country s end;
     created_at := created_at s;
     updated_at := now |}.

(** A stored document that is a [UserSettings] record with the driver's
    [_id]. *)
Definition stored_record (doc : gmap string (value (F := F))) : Prop :=
  exists (s : UserSettings (F := F)) (o : Z),
    doc = <["_id" := VObjectId o]> (UserSettings_dict s).

(** The identifiers of a collection, in order. *)
Definition record_ids (coll : list (gmap string (value (F := F))))
    : list (option (value (F := F))) :=
  (fun doc => doc !! "id") <$> coll.

(** The two timestamps of a document are clock readings taken before the
    current step, the creation not after the update. *)
Definition timestamps_in_order (w : world (F := F)) (doc : gmap string (value (F := F)))
    : Prop :=
  exists mc mu, mc <= mu /\ mu < step w
    /\ doc !! "created_at" = Some (VDatetime (clock mc))
    /\ doc !! "updated_at" = Some (VDatetime (clock mu)).

(** What [create_or_update_settings] does after its first [await], given
    the answer [existing] of the lookup. *)
Definition upsert_after_lookup (device_id : string)
    (settings : UserSettingsUpdate (F := F))
    (existing : option (gmap string (value (F := F)))) : M (F := F) envelope :=
  if truthy existing then
    let update_data := drop_None (UserSettingsUpdate_dict settings) in
    bind (datetime_utcnow clock) (fun now =>
    let update_data := <["updated_at" := VDatetime now]> update_data in
    bind (db_update_one db_fault device_id update_data) (fun _ =>
    bind (db_find_one db_fault device_id) (fun updated =>
    ret {| success := true; data := payload_of updated |})))
  else
    bind (UserSettings_new clock uuid4_at device_id
            (drop_None (UserSettingsUpdate_dict settings)))
      (fun new_settings =>
    bind (db_insert_one ObjectId_at db_fault (UserSettings_dict new_settings)) (fun _ =>
    ret {| success := true; data := PDoc (UserSettings_dict new_settings) |})).

(** Two first writes for one device, interleaved at the first [await]:
    request A looks the device up, request B then runs from start to end,
    and A resumes with the answer it got. *)
Definition interleaved_first_writes (device_id : string)
    (settings_a settings_b : UserSettingsUpdate (F := F)) (w : world (F := F))
    : world (F := F) :=
  match db_find_one db_fault device_id w with
  | (inr existing, w1) =>
      let w2 := (create_or_update_settings clock uuid4_at ObjectId_at db_fault
                   device_id settings_b w1).2 in
      (try_except (upsert_after_lookup device_id settings_a existing)
         (fun e => raise (HTTPException 500 (str_exn e))) w2).2
  | (inl _, w1) => w1
  end.
End Model.
End SettingsModel.

(** ** The city tables and the routes that return them *)

Module Cities.
Import Backend.

Record TurkishCity {F : Type} := {
  tc_name : string;
  tc_latitude : F;
  tc_longitude : F
}.

Record WorldCity {F : Type} := {
  wc_name : string;
  wc_country : string;
  wc_latitude : F;
  wc_longitude : F
}.

(** [{"success": ..., "data": [...]}] for a list. *)
Record listing {A : Type} := { l_success : bool; l_data : list A }.

Section Tables.
Context {F : Type} `{PyFloat F}.

(** Turkish cities for Diyanet *)
Definition TURKISH_CITIES : list (TurkishCity (F := F)) := [
  {| tc_name := "İstanbul"; tc_latitude := dec 410082 4; tc_longitude := dec 289784 4 |};
  {| tc_name := "Ankara"; tc_latitude := dec 399334 4; tc_longitude := dec 328597 4 |};
  {| tc_name := "İzmir"; tc_latitude := dec 384237 4; tc_longitude := dec 271428 4 |};
  {| tc_name := "Bursa"; tc_latitude := dec 401885 4; tc_longitude := dec 290610 4 |};
  {| tc_name := "Antalya"; tc_latitude := dec 368969 4; tc_longitude := dec 307133 4 |};
  {| tc_name := "Adana"; tc_latitude := dec 370000 4; tc_longitude := dec 353213 4 |};
  {| tc_name := "Konya"; tc_latitude := dec 378746 4; tc_longitude := dec 324932 4 |};
  {| tc_name := "Gaziantep"; tc_latitude := dec 370662 4; tc_longitude := dec 373833 4 |};
  {| tc_name := "Şanlıurfa"; tc_latitude := dec 371591 4; tc_longitude := dec 387969 4 |};
  {| tc_name := "Kocaeli"; tc_latitude := dec 408533 4; tc_longitude := dec 298815 4 |};
  {| tc_name := "Mersin"; tc_latitude := dec 368121 4; tc_longitude := dec 346415 4 |};
  {| tc_name := "Diyarbakır"; tc_latitude := dec 379144 4; tc_longitude := dec 402306 4 |};
  {| tc_name := "Hatay"; tc_latitude := dec 362028 4; tc_longitude := dec 361600 4 |};
  {| tc_name := "Manisa"; tc_latitude := dec 386191 4; tc_longitude := dec 274289 4 |};
  {| tc_name := "Kayseri"; tc_latitude := dec 387312 4; tc_longitude := dec 354787 4 |};
  {| tc_name := "Samsun"; tc_latitude := dec 412928 4; tc_longitude := dec 363313 4 |};
  {| tc_name := "Balıkesir"; tc_latitude := dec 396484 4; tc_longitude := dec 278826 4 |};
  {| tc_name := "Kahramanmaraş"; tc_latitude := dec 375858 4; tc_longitude := dec 369371 4 |};
  {| tc_name := "Van"; tc_latitude := dec 384891 4; tc_longitude := dec 434089 4 |};
  {| tc_name := "Aydın"; tc_latitude := dec 378560 4; tc_longitude := dec 278416 4 |};
  {| tc_name := "Denizli"; tc_latitude := dec 377765 4; tc_longitude := dec 290864 4 |};
  {| tc_name := "Tekirdağ"; tc_latitude := dec 409781 4; tc_longitude := dec 275117 4 |};
  {| tc_name := "Sakarya"; tc_latitude := dec 406940 4; tc_longitude := dec 304358 4 |};
  {| tc_name := "Muğla"; tc_latitude := dec 372153 4; tc_longitude := dec 283636 4 |};
  {| tc_name := "Eskişehir"; tc_latitude := dec 397767 4; tc_longitude := dec 305206 4 |};
  {| tc_name := "Mardin"; tc_latitude := dec 373212 4; tc_longitude := dec 407245 4 |};
  {| tc_name := "Trabzon"; tc_latitude := dec 410027 4; tc_longitude := dec 397168 4 |};
  {| tc_name := "Erzurum"; tc_latitude := dec 399055 4; tc_longitude := dec 412658 4 |};
  {| tc_name := "Malatya"; tc_latitude := dec 383552 4; tc_longitude := dec 383095 4 |};
  {| tc_name := "Ordu"; tc_latitude := dec 409862 4; tc_longitude := dec 378797 4 |}
].

(** World major cities *)
Definition WORLD_CITIES : list (WorldCity (F := F)) := [
  {| wc_name := "Mecca"; wc_country := "Saudi Arabia"; wc_latitude := dec 214225 4;
     wc_longitude := dec 398262 4 |};
  {| wc_name := "Medina"; wc_country := "Saudi Arabia"; wc_latitude := dec 245247 4;
     wc_longitude := dec 395692 4 |};
  {| wc_name := "Dubai"; wc_country := "UAE"; wc_latitude := dec 252048 4;
     wc_longitude := dec 552708 4 |};
  {| wc_name := "Cairo"; wc_country := "Egypt"; wc_latitude := dec 300444 4;
     wc_longitude := dec 312357 4 |};
  {| wc_name := "Jakarta"; wc_country := "Indonesia"; wc_latitude := dec (-62088) 4;
     wc_longitude := dec 1068456 4 |};
  {| wc_name := "Kuala Lumpur"; wc_country := "Malaysia"; wc_latitude := dec 31390 4;
     wc_longitude := dec 1016869 4 |};
  {| wc_name := "London"; wc_country := "UK"; wc_latitude := dec 515074 4;
     wc_longitude := dec (-1278) 4 |};
  {| wc_name := "Paris"; wc_country := "France"; wc_latitude := dec 488566 4;
     wc_longitude := dec 23522 4 |};
  {| wc_name := "Berlin"; wc_country := "Germany"; wc_latitude := dec 525200 4;
     wc_longitude := dec 134050 4 |};
  {| wc_name := "New York"; wc_country := "USA"; wc_latitude := dec 407128 4;
     wc_longitude := dec (-740060) 4 |};
  {| wc_name := "Los Angeles"; wc_country := "USA"; wc_latitude := dec 340522 4;
     wc_longitude := dec (-1182437) 4 |};
  {| wc_name := "Toronto"; wc_country := "Canada"; wc_latitude := dec 436532 4;
     wc_longitude := dec (-793832) 4 |};
  {| wc_name := "Sydney"; wc_country := "Australia"; wc_latitude := dec (-338688) 4;
     wc_longitude := dec 1512093 4 |};
  {| wc_name := "Tokyo"; wc_country := "Japan"; wc_latitude := dec 356762 4;
     wc_longitude := dec 1396503 4 |};
  {| wc_name := "Islamabad"; wc_country := "Pakistan"; wc_latitude := dec 336844 4;
     wc_longitude := dec 730479 4 |};
  {| wc_name := "Karachi"; wc_country := "Pakistan"; wc_latitude := dec 248607 4;
     wc_longitude := dec 670011 4 |};
  {| wc_name := "Dhaka"; wc_country := "Bangladesh"; wc_latitude := dec 238103 4;
     wc_longitude := dec 904125 4 |};
  {| wc_name := "Riyadh"; wc_country := "Saudi Arabia"; wc_latitude := dec 247136 4;
     wc_longitude := dec 466753 4 |};
  {| wc_name := "Baghdad"; wc_country := "Iraq"; wc_latitude := dec 333152 4;
     wc_longitude := dec 443661 4 |};
  {| wc_name := "Tehran"; wc_country := "Iran"; wc_latitude := dec 356892 4;
     wc_longitude := dec 513890 4 |}
].

Definition root : M (F := F) json :=
  ret (JDict [("message", JStr "Namaz Vakitleri API"); ("version", JStr "1.0")]).

Definition get_turkish_cities : M (F := F) (listing (A := TurkishCity (F := F))) :=
  ret {| l_success := true; l_data := TURKISH_CITIES |}.

Definition get_world_cities : M (F := F) (listing (A := WorldCity (F := F))) :=
  ret {| l_success := true; l_data := WORLD_CITIES |}.
End Tables.
End Cities.

(** ** More sample data *)

Module Sample2.
Import Backend Upstream.

(** A store that fails at step [n] only. *)
Definition fault_at (n : nat) (msg : string) (m : nat) : option string :=
  if Nat.eqb m n then Some msg else None.

Definition sample_timings : Timings :=
  {| Fajr := "05:30 (+03)"; Sunrise := "07:02 (+03)"; Dhuhr := "12:58 (+03)";
     Asr := "15:41 (+03)"; Maghrib := "18:44 (+03)"; Isha := "20:09 (+03)" |}.

Definition sample_date : DateInfo :=
  {| readable := "01 Jan 2024"; gregorian_date := "01-01-2024";
     hijri_day := "19"; hijri_month_en := "Jumada al-akhirah";
     hijri_month_ar := "jumada"; hijri_year := "1445" |}.

Definition upstream_daily (n : nat) (url : string) (lat lng : R) (method : Z) : exn + json :=
  inr (daily_body sample_timings sample_date "Europe/Istanbul" "Diyanet").

Definition upstream_empty (n : nat) (url : string) (lat lng : R) (method : Z) : exn + json :=
  inr (JDict []).

Definition upstream_month (n : nat) (url : string) (lat lng : R) (method : Z) : exn + json :=
  inr (monthly_body [(sample_timings, sample_date)]).

Definition upstream_broken_month (n : nat) (url : string) (lat lng : R) (method : Z)
    : exn + json :=
  inr (JDict [("data",
               JList (((fun td => day_json td.1 td.2) <$> [(sample_timings, sample_date)])
                      ++ JDict [] :: []))]).
End Sample2.

(** ** The settings endpoints with the store's and the response's encodings *)

(** [Backend] keeps a document as the handler wrote it and takes every
    return value for the response. Two encodings stand between the handler
    and the outside: the driver writes documents as BSON, and the framework
    writes the response as JSON. This module has both, and the settings
    handler over them. *)
Module Mongo.
Import Backend.

Section Model.
Context {F : Type}.

Variable clock : nat -> Z.
Variable uuid4_at : nat -> string.
Variable ObjectId_at : nat -> Z.
Variable db_fault : nat -> option string.
(** [math.isfinite] *)
Variable isfinite : F -> bool.

(** *** BSON *)

(** BSON integers have at most 8 bytes. *)
Definition int64 (n : Z) : bool := ((- 2 ^ 63 <=? n) && (n <? 2 ^ 63))%Z.

Definition bson_int (v : value (F := F)) : bool :=
  match v with VInt n => int64 n | _ => true end.

(** The driver can encode the document: each of its integers fits. *)
Definition bson_encodable (doc : gmap string (value (F := F))) : bool :=
  bool_decide (map_Forall (fun _ v => bson_int v = true) doc).

(** A [datetime] counts microseconds; BSON keeps whole milliseconds. *)
Definition milliseconds (t : Z) : Z := (1000 * (t / 1000))%Z.

Definition bson_value (v : value (F := F)) : value (F := F) :=
  match v with VDatetime t => VDatetime (milliseconds t) | _ => v end.

(** The document as the store keeps it. *)
Definition bson_document (doc : gmap string (value (F := F))) : gmap string (value (F := F)) :=
  bson_value <$> doc.

Definition db_update_one (device_id : string) (update_data : gmap string (value (F := F)))
    : M (F := F) unit :=
  fun w =>
    match db_fault (step w) with
    | Some msg => (inl (PyMongoError msg), emit (EvUpdateOne device_id update_data) w)
    | None =>
        if bson_encodable update_data then
          (inr tt,
           {| user_settings :=
                update_one device_id (bson_document update_data) (user_settings w);
              trace := trace w ++ [EvUpdateOne device_id update_data] |})
        else
          (inl (OverflowError "MongoDB can only handle up to 8-byte ints"),
           emit (EvUpdateOne device_id update_data) w)
    end.

Definition db_insert_one (doc : gmap string (value (F := F))) : M (F := F) unit :=
  fun w =>
    match db_fault (step w) with
    | Some msg => (inl (PyMongoError msg), emit (EvInsertOne doc) w)
    | None =>
        if bson_encodable doc then
          (inr tt,
           {| user_settings :=
                insert_one (ObjectId_at (step w)) (bson_document doc) (user_settings w);
              trace := trace w ++ [EvInsertOne doc] |})
        else
          (inl (OverflowError "MongoDB can only handle up to 8-byte ints"),
           emit (EvInsertOne doc) w)
    end.

(** *** The handler *)

Definition create_or_update_settings (device_id : string)
    (settings : UserSettingsUpdate (F := F)) : M (F := F) envelope :=
  try_except
    (bind (db_find_one db_fault device_id) (fun existing =>
     if truthy existing then
       let update_data := drop_None (UserSettingsUpdate_dict settings) in
       bind (datetime_utcnow clock) (fun now =>
       let update_data := <["updated_at" := VDatetime now]> update_data in
       bind (db_update_one device_id update_data) (fun _ =>
       bind (db_find_one db_fault device_id) (fun updated =>
       ret {| success := true; data := payload_of updated |})))
     else
       bind (UserSettings_new clock uuid4_at device_id
               (drop_None (UserSettingsUpdate_dict settings)))
         (fun new_settings =>
       bind (db_insert_one (UserSettings_dict new_settings)) (fun _ =>
       ret {| success := true; data := PDoc (UserSettings_dict new_settings) |}))))
    (fun e => raise (HTTPException 500 (str_exn e))).

(** *** JSON *)

(** A value the framework can write as JSON: an [ObjectId] has no
    encoding, a float must be finite. *)
Definition json_value (v : value (F := F)) : bool :=
  match v with
  | VObjectId _ => false
  | VFloat x => isfinite x
  | _ => true
  end.

Definition jsonable (body : envelope (F := F)) : bool :=
  match data body with
  | PDoc d => bool_decide (map_Forall (fun _ v => json_value v = true) d)
  | PQibla direction latitude longitude kaaba_latitude kaaba_longitude =>
      isfinite direction && isfinite latitude && isfinite longitude
      && isfinite kaaba_latitude && isfinite kaaba_longitude
  | _ => true
  end.

(** The response to a request: the handler's outcome as [serve] has it,
    and a 500 when the returned body cannot be written as JSON. *)
Definition respond (handler : M (F := F) envelope) : world (F := F) -> http_response * world :=
  fun w =>
    match serve handler w with
    | (Response200 body, w') =>
        if jsonable body then (Response200 body, w')
        else (ResponseError 500 "Internal Server Error", w')
    | other => other
    end.

Definition route_post_settings (device_id : string) (settings : UserSettingsUpdate (F := F))
    : world (F := F) -> http_response * world :=
  respond (create_or_update_settings device_id settings).

Definition route_get_settings (device_id : string)
    : world (F := F) -> http_response * world :=
  respond (get_settings db_fault device_id).

(** *** Vocabulary of the statements *)

(** The patch's integer fits the store. *)
Definition patch_fits (p : UserSettingsUpdate (F := F)) : Prop :=
  match u_calculation_method p with
  | Some n => int64 n = true
  | None => True
  end.

(** The patch's coordinates are finite. *)
Definition patch_finite (p : UserSettingsUpdate (F := F)) : Prop :=
  match u_latitude p with Some x => isfinite x = true | None => True end
  /\ match u_longitude p with Some x => isfinite x = true | None => True end.

(** The keys of a [UserSettings] record. *)
Definition record_fields : list string :=
  ["id"; "device_id"; "language"; "theme"; "notification_enabled";
   "notification_sound"; "calculation_method"; "latitude"; "longitude";
   "city"; "country"; "created_at"; "updated_at"].
End Model.
End Mongo.

(** ** Request validation: the parameters the signatures declare *)

Module Validation.
Import Backend.

(** The annotation of a declared query parameter. *)
Inductive annotation := Tfloat | Tint | Tstr.

(** What a validation error says of a parameter. *)
Inductive error_kind := Missing | Parsing (a : annotation).

(** One entry of the 422 detail: where and what. *)
Record request_error := { loc : list string; kind : error_kind }.

Section Model.
Context {F : Type} `{PyFloat F}.

Variable clock : nat -> Z.
Variable aladhan : nat -> string -> F -> F -> Z -> exn + json.
Variable strftime_dmY : Z -> string.
Variable format_value : json -> string.
(** How the framework reads a float and an int from the query text. *)
Variable float_of_str : string -> option F.
Variable int_of_str : string -> option Z.
(** [math.isfinite] *)
Variable isfinite : F -> bool.

(** A validated argument, as the handler receives it. *)
Inductive argument :=
  | ArgFloat (x : F)
  | ArgInt (n : Z)
  | ArgStr (s : string)
  | ArgNone.

(** A parameter declared [name: annotation = Query(default)];
    [Query(...)] is [q_default := None], the parameter is required. *)
Record Query := {
  q_name : string;
  q_annotation : annotation;
  q_default : option argument
}.

Definition convert (a : annotation) (raw : string) : option argument :=
  match a with
  | Tfloat => ArgFloat <$> float_of_str raw
  | Tint => ArgInt <$> int_of_str raw
  | Tstr => Some (ArgStr raw)
  end.

(** One parameter against the query string (a map from names to raw
    text). *)
Definition validate_one (q : Query) (query : gmap string string) : request_error + argument :=
  match query !! q_name q with
  | None =>
      match q_default q with
      | None => inl {| loc := ["query"; q_name q]; kind := Missing |}
      | Some v => inr v
      end
  | Some raw =>
      match convert (q_annotation q) raw with
      | Some v => inr v
      | None => inl {| loc := ["query"; q_name q]; kind := Parsing (q_annotation q) |}
      end
  end.

(** All parameters: the errors and the arguments, in declaration order. *)
Fixpoint validate (params : list Query) (query : gmap string string)
    : list request_error * list argument :=
  match params with
  | [] => ([], [])
  | q :: rest =>
      let (errors, args) := validate rest query in
      match validate_one q query with
      | inl e => (e :: errors, args)
      | inr v => (errors, v :: args)
      end
  end.

Inductive response :=
  | RequestValidationError (detail : list request_error)
  | Handled (r : http_response (F := F)).

Definition status_code (r : response) : Z :=
  match r with
  | RequestValidationError _ => 422
  | Handled (Response200 _) => 200
  | Handled (ResponseError status _) => status
  end.

(** A route: the handler is called when every declared parameter
    validates, and not at all otherwise. *)
Definition endpoint (params : list Query)
    (call : list argument -> world (F := F) -> http_response (F := F) * world (F := F))
    (query : gmap string string) : world (F := F) -> response * world (F := F) :=
  fun w =>
    match validate params query with
    | ([], args) => let (r, w') := call args w in (Handled r, w')
    | (errors, _) => (RequestValidationError errors, w)
    end.

(** The declarations of the three signatures. *)
Definition get_prayer_times_params : list Query := [
  {| q_name := "latitude"; q_annotation := Tfloat; q_default := None |};
  {| q_name := "longitude"; q_annotation := Tfloat; q_default := None |};
  {| q_name := "date"; q_annotation := Tstr; q_default := Some ArgNone |};
  {| q_name := "method"; q_annotation := Tint; q_default := Some (ArgInt 13) |}
].

Definition get_monthly_prayer_times_params : list Query := [
  {| q_name := "latitude"; q_annotation := Tfloat; q_default := None |};
  {| q_name := "longitude"; q_annotation := Tfloat; q_default := None |};
  {| q_name := "month"; q_annotation := Tint; q_default := None |};
  {| q_name := "year"; q_annotation := Tint; q_default := None |};
  {| q_name := "method"; q_annotation := Tint; q_default := Some (ArgInt 13) |}
].

Definition get_qibla_direction_params : list Query := [
  {| q_name := "latitude"; q_annotation := Tfloat; q_default := None |};
  {| q_name := "longitude"; q_annotation := Tfloat; q_default := None |}
].

Definition internal_server_error
    : world (F := F) -> http_response (F := F) * world (F := F) :=
  fun w => (ResponseError 500 "Internal Server Error", w).

Definition prayer_times_endpoint : gmap string string -> world -> response * world :=
  endpoint get_prayer_times_params (fun args =>
    match args with
    | [ArgFloat lat; ArgFloat lng; date; ArgInt method] =>
        route_prayer_times clock aladhan strftime_dmY format_value (Some lat) (Some lng)
          (match date with ArgStr s => Some s | _ => None end) (Some method)
    | _ => internal_server_error
    end).

Definition monthly_endpoint : gmap string string -> world -> response * world :=
  endpoint get_monthly_prayer_times_params (fun args =>
    match args with
    | [ArgFloat lat; ArgFloat lng; ArgInt month; ArgInt year; ArgInt method] =>
        route_prayer_times_monthly aladhan format_value (Some lat) (Some lng)
          (Some month) (Some year) (Some method)
    | _ => internal_server_error
    end).

(** The bearing of a coordinate that is not finite is never returned:
    [math.sin] and [math.cos] raise [ValueError] on an infinity, and a NaN
    result cannot be written as JSON. *)
Definition qibla_endpoint : gmap string string -> world -> response * world :=
  endpoint get_qibla_direction_params (fun args =>
    match args with
    | [ArgFloat lat; ArgFloat lng] =>
        if isfinite lat && isfinite lng then route_qibla (Some lat) (Some lng)
        else internal_server_error
    | _ => internal_server_error
    end).

(** The error entry for a required parameter that the query lacks. *)
Definition missing (name : string) : request_error :=
  {| loc := ["query"; name]; kind := Missing |}.

(** The outcome [out] of a request in the world [w] is a rejection for the
    lack of [name]: a 422 whose detail has the entry for it, and the world
    as it was. *)
Definition rejected (name : string) (w : world (F := F))
    (out : response * world (F := F)) : Prop :=
  exists errors,
    out = (RequestValidationError errors, w)
    /\ missing name ∈ errors
    /\ (400 <= status_code out.1 < 500)%Z.
End Model.
End Validation.

(** ** Sample data for the encodings and the validation *)

Module Sample3.
Import Backend Sample.

Definition always_finite (x : R) : bool := true.

(** A patch whose calculation_method needs more than 8 bytes. *)
Definition wide_patch : UserSettingsUpdate (F := R) :=
  {| u_language := None; u_theme := None; u_notification_enabled := None;
     u_notification_sound := None; u_calculation_method := Some (2 ^ 63)%Z;
     u_latitude := None; u_longitude := None; u_city := None; u_country := None |}.

(** The record of "device-1" as the store keeps it after a first write
    with an empty patch, and the world after that write. *)
Definition stored_sample_record : gmap string (value (F := R)) :=
  <["_id" := VObjectId 4]>
    (UserSettings_dict (created_record "1" "device-1" no_patch 1700000000 1700000000)).

Definition first_write_world : world (F := R) :=
  {| user_settings := [stored_sample_record];
     trace := [EvFindOne "device-1"; EvUuid4; EvUtcnow; EvUtcnow;
               EvInsertOne (UserSettings_dict sample_settings)] |}.

Definition sample_float_of_str (s : string) : option R :=
  if bool_decide (s = "41.0082") then Some 41.0082%R
  else if bool_decide (s = "28.9784") then Some 28.9784%R
  else None.

Definition sample_int_of_str (s : string) : option Z :=
  if bool_decide (s = "13") then Some 13%Z
  else if bool_decide (s = "2024") then Some 2024%Z
  else None.

(** An answer of the provider for one date, with keys the handler does not
    read. *)
Definition provider_timings : json :=
  JDict [("Fajr", JStr "05:30 (+03)"); ("Sunrise", JStr "07:02 (+03)");
         ("Dhuhr", JStr "12:58 (+03)"); ("Asr", JStr "15:41 (+03)");
         ("Sunset", JStr "18:44 (+03)"); ("Maghrib", JStr "18:44 (+03)");
         ("Isha", JStr "20:09 (+03)"); ("Imsak", JStr "05:20 (+03)");
         ("Midnight", JStr "00:53 (+03)")].

Definition provider_date : json :=
  JDict [("readable", JStr "01 Jan 2024"); ("timestamp", JStr "1704085200");
         ("hijri", JDict [("date", JStr "19-06-1445"); ("day", JStr "19");
                          ("month", JDict [("number", JNum 6);
                                           ("en", JStr "Jumada al-akhirah");
                                           ("ar", JStr "jumada")]);
                          ("year", JStr "1445")]);
         ("gregorian", JDict [("date", JStr "01-01-2024"); ("day", JStr "01")])].

Definition provider_meta : json :=
  JDict [("timezone", JStr "Europe/Istanbul");
         ("method", JDict [("id", JNum 13); ("name", JStr "Diyanet")]);
         ("school", JStr "STANDARD")].

Definition provider_daily_body : json :=
  JDict [("code", JNum 200); ("status", JStr "OK");
         ("data", JDict [("timings", provider_timings); ("date", provider_date);
                         ("meta", provider_meta)])].

Definition provider_day : json :=
  JDict [("timings", provider_timings); ("date", provider_date); ("meta", provider_meta)].

Definition provider_monthly_body : json :=
  JDict [("code", JNum 200); ("status", JStr "OK"); ("data", JList [provider_day])].

Definition provider_daily (n : nat) (url : string) (lat lng : R) (method : Z) : exn + json :=
  inr provider_daily_body.

Definition provider_month (n : nat) (url : string) (lat lng : R) (method : Z) : exn + json :=
  inr provider_monthly_body.
End Sample3.

(** * Properties of the bearing calculation *)

Module QiblaFacts.
Import RealMath.
Local Open Scope R_scope.

(** ** Rounding *)

Lemma round_half_even_bounds (r : R) :
  (Zfloor r <= round_half_even r <= Zfloor r + 1)%Z.
Proof.
  unfold round_half_even.
  repeat match goal with |- context [if ?c then _ else _] => destruct c end; lia.
Qed.

Lemma round_half_even_IZR (z : Z) : round_half_even (IZR z) = z.
Proof.
  unfold round_half_even. rewrite ZfloorZ.
  destruct (Rlt_dec (IZR z - IZR z) (1 / 2)) as [|n]; [reflexivity | exfalso; apply n; lra].
Qed.

Lemma round_half_even_upper (r : R) (z : Z) :
  r <= IZR z -> (round_half_even r <= z)%Z.
Proof.
  intros Hr.
  destruct (Req_dec r (IZR z)) as [->|Hne].
  - rewrite round_half_even_IZR. lia.
  - pose proof (round_half_even_bounds r) as [_ Hb].
    pose proof (Zfloor_bound r) as [Hf _].
    assert (IZR (Zfloor r) < IZR z) as Hlt by lra.
    apply lt_IZR in Hlt. lia.
Qed.

Lemma round_half_even_lower (r : R) (z : Z) :
  IZR z <= r -> (z <= round_half_even r)%Z.
Proof.
  intros Hr. pose proof (round_half_even_bounds r) as [Hb _].
  apply Zfloor_lub in Hr. lia.
Qed.

Lemma round_half_even_up (r : R) (z : Z) :
  IZR z + 1 / 2 < r < IZR z + 1 -> round_half_even r = (z + 1)%Z.
Proof.
  intros [Hl Hu]. unfold round_half_even.
  rewrite (Zfloor_eq z r) by lra.
  destruct (Rlt_dec (r - IZR z) (1 / 2)) as [Hc|_]; [lra|].
  destruct (Rlt_dec (1 / 2) (r - IZR z)) as [_|Hc]; [reflexivity | lra].
Qed.

Lemma round_nd_2_range (r : R) :
  0 <= r <= 360 -> 0 <= round_nd r 2 <= 360.
Proof.
  intros [H0 H1]. unfold round_nd.
  change (IZR (10 ^ Z.of_nat 2)) with 100.
  assert (0 <= round_half_even (r * 100) <= 36000)%Z as [Ha Hb].
  { split.
    - apply round_half_even_lower. lra.
    - apply round_half_even_upper. lra. }
  apply IZR_le in Ha, Hb. lra.
Qed.

(** ** The angle function *)

Lemma atan_nonpos (t : R) : t <= 0 -> atan t <= 0.
Proof.
  intros [Ht| ->]; [|rewrite atan_0; lra].
  pose proof (atan_increasing t 0 Ht) as Hlt. rewrite atan_0 in Hlt. lra.
Qed.

Lemma atan_pos (t : R) : 0 < t -> 0 < atan t.
Proof.
  intros Ht. pose proof (atan_increasing 0 t Ht) as Hlt. now rewrite atan_0 in Hlt.
Qed.

Lemma atan2_range (a b : R) : - PI < atan2 a b <= PI.
Proof.
  unfold atan2. pose proof PI_RGT_0 as Hpi.
  pose proof (atan_bound (a / b)) as [Hl Hu].
  destruct (Rlt_dec 0 b) as [Hb|Hb]; [lra|].
  destruct (Rlt_dec b 0) as [Hb'|Hb'].
  - assert (/ b < 0) as Hinv by now apply Rinv_lt_0_compat.
    destruct (Rle_dec 0 a) as [Ha|Ha].
    + assert (atan (a / b) <= 0) by (apply atan_nonpos; unfold Rdiv; nra).
      lra.
    + assert (0 < atan (a / b)) by (apply atan_pos; unfold Rdiv; nra).
      lra.
  - repeat match goal with |- context [if ?c then _ else _] => destruct c end; lra.
Qed.

Lemma atan2_sin_cos (d : R) :
  - (PI / 2) < d < PI / 2 -> atan2 (sin d) (cos d) = d.
Proof.
  intros Hd. unfold atan2.
  assert (0 < cos d) as Hc by (apply cos_gt_0; lra).
  destruct (Rlt_dec 0 (cos d)) as [_|Hn]; [|contradiction].
  apply atan_tan. exact Hd.
Qed.

Lemma degrees_range (t : R) : - PI < t <= PI -> -180 < t * (180 / PI) <= 180.
Proof.
  intros [Hl Hu]. pose proof PI_RGT_0 as Hpi.
  assert (/ PI > 0) as Hi by now apply Rinv_0_lt_compat.
  assert (PI * / PI = 1) as He by (apply Rinv_r; lra).
  unfold Rdiv. split; nra.
Qed.

(** ** The calculation over the reals *)

Lemma KAABA_LAT_real : Qibla.KAABA_LAT (F := R) = 21.4225.
Proof.
  unfold Qibla.KAABA_LAT. cbn [dec real_float].
  change (10 ^ Z.of_nat 4)%Z with 10000%Z. lra.
Qed.

Lemma KAABA_LNG_real : Qibla.KAABA_LNG (F := R) = 39.8262.
Proof.
  unfold Qibla.KAABA_LNG. cbn [dec real_float].
  change (10 ^ Z.of_nat 4)%Z with 10000%Z. lra.
Qed.

Lemma qibla_unfold (lat lng : R) :
  qibla lat lng =
  let d := 39.8262 * (PI / 180) - lng * (PI / 180) in
  let q := atan2 (sin d)
             (cos (lat * (PI / 180)) * tan (21.4225 * (PI / 180))
              - sin (lat * (PI / 180)) * cos d) * (180 / PI) in
  round_nd (if Rlt_dec q 0 then q + 360 else q) 2.
Proof.
  unfold qibla, Qibla.calculate_qibla_direction.
  rewrite KAABA_LAT_real, KAABA_LNG_real.
  cbn [dec fadd fsub fmul fltb math_radians math_degrees math_sin math_cos
       math_tan math_atan2 py_round real_float].
  cbv zeta.
  change (10 ^ Z.of_nat 0)%Z with 1%Z.
  replace (IZR 0 / IZR 1) with 0 by lra.
  replace (IZR 360 / IZR 1) with 360 by lra.
  match goal with |- context [Rlt_dec ?a 0] => destruct (Rlt_dec a 0) end; reflexivity.
Qed.

(** X1: whatever the coordinates, the result lies in the closed range
    from 0 to 360. *)
Lemma qibla_closed_range (lat lng : R) : 0 <= qibla lat lng <= 360.
Proof.
  rewrite qibla_unfold. cbv zeta.
  match goal with |- context [atan2 ?a ?b] =>
    pose proof (degrees_range _ (atan2_range a b)) as [Hl Hu] end.
  apply round_nd_2_range.
  match goal with |- context [Rlt_dec ?a 0] => destruct (Rlt_dec a 0) end; lra.
Qed.

(** At the south pole the bearing is the longitude difference. *)
Lemma qibla_south_pole (lng : R) :
  -50 < lng < 129 ->
  qibla (-90) lng =
  let q := 39.8262 - lng in
  round_nd (if Rlt_dec q 0 then q + 360 else q) 2.
Proof.
  intros Hlng. rewrite qibla_unfold. cbv zeta.
  pose proof PI_RGT_0 as Hpi. pose proof PI_4 as Hpi4.
  replace (-90 * (PI / 180)) with (- (PI / 2)) by lra.
  rewrite cos_neg, sin_neg, cos_PI2, sin_PI2.
  set (d := 39.8262 * (PI / 180) - lng * (PI / 180)).
  match goal with |- context [atan2 _ ?y] =>
    replace y with (cos d) by lra end.
  rewrite atan2_sin_cos by (unfold d; split; nra).
  replace (d * (180 / PI)) with (39.8262 - lng) by (unfold d; field; lra).
  reflexivity.
Qed.

(** C1: the claim is that the bearing is always below 360. From the south
    pole at longitude 39.8272 the unrounded bearing is 359.999, and
    rounding to two decimals returns 360. *)
Theorem qibla_rounds_up_to_360 : qibla (-90) 39.8272 = 360.
Proof.
  rewrite qibla_south_pole by lra. cbv zeta.
  destruct (Rlt_dec (39.8262 - 39.8272) 0) as [_|Hn]; [|lra].
  unfold round_nd. change (IZR (10 ^ Z.of_nat 2)) with 100.
  rewrite (round_half_even_up _ 35999) by lra.
  change (35999 + 1)%Z with 36000%Z. lra.
Qed.

(** C2: for every arithmetic, [calculate_qibla_direction] computes the
    forward azimuth of the specification (longitude difference in radians,
    [x], [y], [atan2] in degrees, plus 360 when negative, rounded to two
    decimals), and its reference point is latitude 21.4225, longitude
    39.8262. *)
Theorem calculate_qibla_direction_is_forward_azimuth :
  (forall (F : Type) (A : PyFloat F) (lat lng : F),
     Qibla.calculate_qibla_direction lat lng =
     Qibla.computeBearing {| Qibla.geo_latitude := lat; Qibla.geo_longitude := lng |})
  /\ Qibla.KAABA_LAT (F := R) = 21.4225
  /\ Qibla.KAABA_LNG (F := R) = 39.8262
  /\ Qibla.geo_latitude (Qibla.ReferencePoint (F := R)) = 21.4225
  /\ Qibla.geo_longitude (Qibla.ReferencePoint (F := R)) = 39.8262.
Proof.
  split; [intros F A lat lng; reflexivity|].
  pose proof KAABA_LAT_real. pose proof KAABA_LNG_real. auto.
Qed.

(** C3: from the reference point itself the result is exactly 0. *)
Theorem qibla_at_kaaba : qibla 21.4225 39.8262 = 0.
Proof.
  rewrite qibla_unfold. cbv zeta.
  pose proof PI_RGT_0 as Hpi. pose proof PI_4 as Hpi4.
  replace (39.8262 * (PI / 180) - 39.8262 * (PI / 180)) with 0 by lra.
  rewrite sin_0, cos_0.
  set (k := 21.4225 * (PI / 180)).
  assert (cos k <> 0) as Hck.
  { apply Rgt_not_eq, cos_gt_0; unfold k; lra. }
  replace (cos k * tan k - sin k * 1) with 0 by (unfold tan; field; exact Hck).
  assert (atan2 0 0 = 0) as ->.
  { unfold atan2. destruct (Rlt_dec 0 0) as [Hc|_]; [lra | reflexivity]. }
  rewrite Rmult_0_l.
  destruct (Rlt_dec 0 0) as [Hc|_]; [lra|].
  unfold round_nd. rewrite Rmult_0_l, round_half_even_IZR. lra.
Qed.
End QiblaFacts.

(** * Properties of the settings endpoints *)

Module SettingsFacts.
Import Backend.

Section Facts.
Context {F : Type}.
Implicit Types (p : UserSettingsUpdate (F:=F)) (doc upd : gmap string (value (F:=F)))
  (coll : list (gmap string (value (F:=F)))) (d k : string) (w : world (F:=F)).

Variable clock : nat -> Z.
Variable uuid4_at : nat -> string.
Variable ObjectId_at : nat -> Z.
Variable db_fault : nat -> option string.

Local Abbreviation upsert := (create_or_update_settings clock uuid4_at ObjectId_at db_fault).
Local Abbreviation run := (run_upserts clock uuid4_at ObjectId_at db_fault).

Lemma drop_None_lookup doc k :
  drop_None doc !! k =
  match doc !! k with
  | Some v => if is_not_None v then Some v else None
  | None => None
  end.
Proof.
  unfold drop_None. rewrite map_lookup_filter.
  destruct (doc !! k) as [v|]; simpl; [|done].
  destruct (is_not_None v); done.
Qed.

Lemma drop_None_absent doc k : doc !! k = None -> drop_None doc !! k = None.
Proof. intros Hk. by rewrite drop_None_lookup, Hk. Qed.

Lemma matches_union d upd doc :
  upd !! "device_id" = None -> matches d (upd ∪ doc) = matches d doc.
Proof.
  intros Hu. unfold matches. by rewrite lookup_union_r.
Qed.

Lemma find_one_matches d coll doc :
  find_one d coll = Some doc -> matches d doc = true.
Proof.
  induction coll as [|x rest IH]; simpl; [done|].
  destruct (matches d x) eqn:Hm; [by intros [= <-] | done].
Qed.

Lemma matches_device_id d doc :
  matches d doc = true <-> doc !! "device_id" = Some (VStr d).
Proof.
  unfold matches. split.
  - destruct (doc !! "device_id") as [[]|]; try done.
    intros Hb. apply bool_decide_eq_true in Hb. by subst.
  - intros ->. by apply bool_decide_eq_true.
Qed.

Lemma truthy_found d coll doc :
  find_one d coll = Some doc -> truthy (Some doc) = true.
Proof.
  intros Hf%find_one_matches%matches_device_id. simpl.
  destruct (size doc) eqn:Hs; [|done].
  apply map_size_empty_inv in Hs. subst. by rewrite lookup_empty in Hf.
Qed.

Lemma find_one_update_one d upd coll :
  upd !! "device_id" = None ->
  find_one d (update_one d upd coll) = (upd ∪.) <$> find_one d coll.
Proof.
  intros Hu. induction coll as [|x rest IH]; simpl; [done|].
  destruct (matches d x) eqn:Hm; simpl.
  - by rewrite matches_union, Hm.
  - by rewrite Hm.
Qed.

Lemma find_one_update_one_ne d d' upd coll :
  upd !! "device_id" = None -> d ≠ d' ->
  find_one d' (update_one d upd coll) = find_one d' coll.
Proof.
  intros Hu Hne. induction coll as [|x rest IH]; simpl; [done|].
  destruct (matches d x) eqn:Hm; simpl.
  - rewrite matches_union by done.
    destruct (matches d' x) eqn:Hm'; [|done].
    apply matches_device_id in Hm, Hm'. congruence.
  - by rewrite IH.
Qed.

Lemma count_device_update_one d d' upd coll :
  upd !! "device_id" = None ->
  count_device d' (update_one d upd coll) = count_device d' coll.
Proof.
  intros Hu. unfold count_device.
  induction coll as [|x rest IH]; simpl; [done|].
  destruct (matches d x) eqn:Hm.
  - rewrite !filter_cons, matches_union by done. by repeat case_decide.
  - rewrite !filter_cons. case_decide; simpl; by rewrite IH.
Qed.

Lemma find_one_app d coll coll' :
  find_one d (coll ++ coll') =
  match find_one d coll with Some doc => Some doc | None => find_one d coll' end.
Proof.
  induction coll as [|x rest IH]; simpl; [done|].
  by destruct (matches d x).
Qed.

Lemma count_device_app d coll coll' :
  count_device d (coll ++ coll') = count_device d coll + count_device d coll'.
Proof. unfold count_device. by rewrite filter_app, length_app. Qed.

Lemma count_device_0 d coll : find_one d coll = None -> count_device d coll = 0.
Proof.
  unfold count_device. induction coll as [|x rest IH]; simpl; [done|].
  destruct (matches d x) eqn:Hm; [done|]. intros Hf.
  rewrite filter_cons. case_decide; [congruence|by apply IH].
Qed.

Lemma matches_insert_id d (o : Z) doc :
  matches d (<["_id" := VObjectId o]> doc) = matches d doc.
Proof. unfold matches. by rewrite lookup_insert_ne. Qed.

Lemma merge_data_device_id now p : merge_data now p !! "device_id" = None.
Proof.
  unfold merge_data. rewrite lookup_insert_ne by done. by apply drop_None_absent.
Qed.


Lemma step_emit (e : event (F:=F)) w : step (emit e w) = S (step w).
Proof. unfold step, emit. simpl. rewrite length_app. simpl. lia. Qed.

Lemma upsert_found w d p doc :
  find_one d (user_settings w) = Some doc ->
  db_fault (step w) = None ->
  db_fault (step w + 2) = None ->
  db_fault (step w + 3) = None ->
  let upd := merge_data (clock (step w + 1)) p in
  upsert d p w =
    (inr {| success := true; data := PDoc (upd ∪ doc) |},
     {| user_settings := update_one d upd (user_settings w);
        trace := trace w ++ [EvFindOne d; EvUtcnow; EvUpdateOne d upd; EvFindOne d] |}).
Proof.
  intros Hf H0 H2 H3 upd.
  unfold create_or_update_settings, try_except, bind, db_find_one at 1.
  rewrite H0, Hf, (truthy_found _ _ _ Hf).
  unfold datetime_utcnow, db_update_one.
  rewrite !step_emit.
  replace (S (S (step w))) with (step w + 2) by lia.
  rewrite H2.
  replace (S (step w)) with (step w + 1) by lia. fold (merge_data (clock (step w + 1)) p). fold upd.
  unfold db_find_one, step at 1. simpl.
  rewrite !length_app. simpl.
  replace (length (trace w) + 1 + 1 + 1) with (step w + 3) by (unfold step; lia).
  rewrite H3.
  rewrite find_one_update_one by apply merge_data_device_id.
  rewrite Hf. simpl. unfold ret, emit. simpl.
  by rewrite <- !app_assoc.
Qed.


Lemma UserSettings_new_run w d p :
  UserSettings_new clock uuid4_at d (drop_None (UserSettingsUpdate_dict p)) w =
    (inr (created_record (uuid4_at (step w)) d p (clock (step w + 1)) (clock (step w + 2))),
     {| user_settings := user_settings w;
        trace := trace w ++ [EvUuid4; EvUtcnow; EvUtcnow] |}).
Proof.
  unfold UserSettings_new, bind, uuid4, datetime_utcnow, ret.
  rewrite !step_emit.
  replace (S (step w)) with (step w + 1) by lia.
  replace (S (step w + 1)) with (step w + 2) by lia.
  unfold emit; simpl. rewrite <- !app_assoc. simpl.
  f_equal. f_equal. unfold created_record.
  unfold kw_str, kw_bool, kw_int, kw_opt_float, kw_opt_str.
  rewrite !drop_None_lookup.
  destruct p as [l t ne ns cm la lo ci co]; simpl.
  f_equal.
  - by destruct l.
  - by destruct t.
  - by destruct ne.
  - by destruct ns.
  - by destruct cm.
  - by destruct la.
  - by destruct lo.
  - by destruct ci.
  - by destruct co.
Qed.


Lemma upsert_created w d p :
  find_one d (user_settings w) = None ->
  db_fault (step w) = None ->
  db_fault (step w + 4) = None ->
  let new_settings :=
    created_record (uuid4_at (step w + 1)) d p (clock (step w + 2)) (clock (step w + 3)) in
  let stored := <["_id" := VObjectId (ObjectId_at (step w + 4))]> (UserSettings_dict new_settings) in
  upsert d p w =
    (inr {| success := true; data := PDoc (UserSettings_dict new_settings) |},
     {| user_settings := user_settings w ++ [stored];
        trace := trace w ++ [EvFindOne d; EvUuid4; EvUtcnow; EvUtcnow;
                             EvInsertOne (UserSettings_dict new_settings)] |}).
Proof.
  intros Hf H0 H4 new_settings stored.
  unfold create_or_update_settings, try_except, bind at 1, db_find_one.
  rewrite H0, Hf. cbn [truthy].
  unfold bind at 1. rewrite UserSettings_new_run, step_emit.
  replace (S (step w) + 1) with (step w + 2) by lia.
  replace (S (step w) + 2) with (step w + 3) by lia.
  replace (S (step w)) with (step w + 1) by lia.
  fold new_settings.
  unfold bind, db_insert_one, step in *. cbn [trace user_settings emit].
  rewrite !length_app. cbn [length].
  replace (length (trace w) + 1 + 3) with (length (trace w) + 4) by lia.
  rewrite H4. unfold ret, insert_one.
  replace (UserSettings_dict new_settings !! "_id") with (@None (value (F:=F))) by done.
  fold stored. by rewrite <- !app_assoc.
Qed.

Local Ltac count_steps :=
  cbv [snd raise ret step emit trace user_settings];
  rewrite ?length_app; cbn [length]; lia.

(** What a settings write can do, whatever the faults: the trace grows,
    and the collection is left as it is, or the device's record takes the
    merge, or a record is inserted for a device that had none. *)
Lemma upsert_store w d p :
  let coll := user_settings w in
  let w' := (upsert d p w).2 in
  step w ≤ step w' ∧
  (user_settings w' = coll
   ∨ (∃ doc t, find_one d coll = Some doc ∧
        user_settings w' = update_one d (merge_data t p) coll)
   ∨ (find_one d coll = None ∧
      ∃ o t1 t2,
        user_settings w' =
          coll ++ [<["_id" := VObjectId o]>
                     (UserSettings_dict (created_record (uuid4_at (S (step w))) d p t1 t2))]
        ∧ step w' = step w + 5)).
Proof.
  intros coll w'. subst coll w'.
  remember (upsert d p w) as res eqn:E.
  unfold create_or_update_settings, try_except, bind at 1, db_find_one in E.
  destruct (db_fault (step w)) as [msg|] eqn:H0;
    [subst res; split; [count_steps | left; reflexivity]|].
  destruct (find_one d (user_settings w)) as [doc|] eqn:Hf.
  - rewrite (truthy_found _ _ _ Hf) in E.
    unfold bind, datetime_utcnow, db_update_one, db_find_one in E.
    rewrite !step_emit in E.
    destruct (db_fault (S (S (step w)))) as [msg|] eqn:H2;
      [subst res; split; [count_steps | left; reflexivity]|].
    cbn [emit trace user_settings] in E.
    match type of E with context [db_fault ?n] => destruct (db_fault n) end;
      subst res; (split; [count_steps|]);
      right; left; exists doc, (clock (S (step w))); split; reflexivity.
  - cbn [truthy] in E. unfold bind at 1 in E.
    rewrite UserSettings_new_run, step_emit in E. unfold bind, db_insert_one in E.
    match type of E with context [db_fault ?n] => destruct (db_fault n) end;
      subst res; (split; [count_steps|]); [left; reflexivity|].
    right; right. split; [reflexivity|]. cbn [snd user_settings ret].
    eexists _, _, _. split; [reflexivity|]. count_steps.
Qed.

Lemma merge_data_other now p k :
  k ≠ "updated_at" -> k ∉ patched_keys p -> merge_data now p !! k = None.
Proof.
  intros Hk Hp. unfold merge_data. rewrite lookup_insert_ne by done.
  by apply not_elem_of_dom.
Qed.

Lemma patched_keys_fields p k :
  k ∈ patched_keys p ->
  k ∈ ["language"; "theme"; "notification_enabled"; "notification_sound";
       "calculation_method"; "latitude"; "longitude"; "city"; "country"].
Proof.
  unfold patched_keys. intros Hk. apply elem_of_dom in Hk as [v Hv].
  rewrite drop_None_lookup in Hv.
  destruct (UserSettingsUpdate_dict p !! k) as [v'|] eqn:Hd; [|done].
  assert (k ∈ dom (UserSettingsUpdate_dict p)) as Hin by (apply elem_of_dom; eauto).
  unfold UserSettingsUpdate_dict in Hin. rewrite dom_list_to_map_L in Hin.
  cbn [fmap list_fmap fst] in Hin. set_solver.
Qed.

Lemma run_upserts_cons d p reqs w :
  run ((d, p) :: reqs) w =
  run reqs (upsert d p w).2.
Proof. reflexivity. Qed.

Lemma upsert_frame w d p d' doc :
  find_one d' (user_settings w) = Some doc ->
  ∃ doc', find_one d' (user_settings (upsert d p w).2) = Some doc' ∧
    ∀ k, k ≠ "updated_at" -> (d' = d -> k ∉ patched_keys p) -> doc' !! k = doc !! k.
Proof.
  intros Hf.
  destruct (upsert_store w d p) as
    [_ [-> | [(doc0 & t & Hf0 & ->) | (Hnone & o & t1 & t2 & -> & Hstep)]]].
  - by exists doc.
  - destruct (decide (d' = d)) as [->|Hne].
    + rewrite find_one_update_one, Hf by apply merge_data_device_id.
      eexists; split; [done|]. intros k Hk Hp.
      rewrite lookup_union_r; [done|]. apply merge_data_other; auto.
    + rewrite find_one_update_one_ne, Hf by (auto using merge_data_device_id).
      by exists doc.
  - rewrite find_one_app, Hf. by exists doc.
Qed.

Lemma matches_created d' o (s : UserSettings (F:=F)) :
  matches d' (<["_id" := VObjectId o]> (UserSettings_dict s)) = bool_decide (device_id s = d').
Proof. rewrite matches_insert_id. reflexivity. Qed.

Lemma upsert_count w d p d' :
  count_device d' (user_settings w) ≤ 1 ->
  count_device d' (user_settings (upsert d p w).2) ≤ 1.
Proof.
  intros Hc.
  destruct (upsert_store w d p) as
    [_ [-> | [(doc0 & t & Hf0 & ->) | (Hnone & o & t1 & t2 & -> & Hstep)]]].
  - done.
  - by rewrite count_device_update_one by apply merge_data_device_id.
  - rewrite count_device_app. unfold count_device at 2.
    rewrite filter_cons, filter_nil, matches_created. cbn [device_id created_record].
    destruct (decide (d = d')) as [->|Hne].
    + rewrite (count_device_0 _ _ Hnone). case_decide; simpl; lia.
    + case_decide as Hb; [apply bool_decide_eq_true in Hb; done|]. simpl. lia.
Qed.

Lemma upsert_absent w d p d' :
  d ≠ d' ->
  find_one d' (user_settings w) = None ->
  find_one d' (user_settings (upsert d p w).2) = None.
Proof.
  intros Hne Hf.
  destruct (upsert_store w d p) as
    [_ [-> | [(doc0 & t & Hf0 & ->) | (Hnone & o & t1 & t2 & -> & Hstep)]]].
  - done.
  - by rewrite find_one_update_one_ne by (auto using merge_data_device_id).
  - rewrite find_one_app, Hf. cbn [find_one]. rewrite matches_created.
    cbn [device_id created_record]. by rewrite bool_decide_eq_false_2.
Qed.

(** ** Sequences of writes *)

Lemma run_frame reqs : forall w d doc,
  find_one d (user_settings w) = Some doc ->
  ∃ doc', find_one d (user_settings (run reqs w)) = Some doc' ∧
    ∀ k, k ≠ "updated_at" ->
      (∀ r, r ∈ reqs -> r.1 = d -> k ∉ patched_keys r.2) -> doc' !! k = doc !! k.
Proof.
  induction reqs as [|[d0 p0] reqs IH]; intros w d doc Hf.
  - exists doc. by split.
  - rewrite run_upserts_cons.
    destruct (upsert_frame w d0 p0 d doc Hf) as (doc1 & Hf1 & Hk1).
    destruct (IH _ _ _ Hf1) as (doc' & Hf' & Hk').
    exists doc'. split; [done|]. intros k Hk Hp.
    rewrite Hk', Hk1; auto.
    + intros ->. apply (Hp (d0, p0)); [apply elem_of_cons; by left | done].
    + intros r Hr. apply Hp. apply elem_of_cons. by right.
Qed.

Lemma run_count reqs : forall w d,
  count_device d (user_settings w) ≤ 1 ->
  count_device d (user_settings (run reqs w)) ≤ 1.
Proof.
  induction reqs as [|[d0 p0] reqs IH]; intros w d Hc; [done|].
  rewrite run_upserts_cons. by apply IH, upsert_count.
Qed.

Lemma run_absent reqs : forall w d,
  (∀ r, r ∈ reqs -> r.1 ≠ d) ->
  find_one d (user_settings w) = None ->
  find_one d (user_settings (run reqs w)) = None.
Proof.
  induction reqs as [|[d0 p0] reqs IH]; intros w d Hr Hf; [done|].
  rewrite run_upserts_cons. apply IH.
  - intros r Hin. apply Hr, elem_of_cons. by right.
  - apply upsert_absent; [|done]. apply (Hr (d0, p0)), elem_of_cons. by left.
Qed.

Lemma not_patched_key p k : k ∉ settings_fields -> k ∉ patched_keys p.
Proof. intros Hk Hp. apply Hk. by apply (patched_keys_fields p). Qed.

(** ** Identifiers *)

Lemma elem_of_update_one d upd coll doc :
  doc ∈ update_one d upd coll -> doc ∈ coll ∨ ∃ doc0, doc0 ∈ coll ∧ doc = upd ∪ doc0.
Proof.
  induction coll as [|x rest IH]; cbn [update_one]; [by left|].
  destruct (matches d x).
  - intros [->|Hin]%elem_of_cons.
    + right. exists x. split; [apply elem_of_cons; by left | done].
    + left. apply elem_of_cons. by right.
  - intros [->|Hin]%elem_of_cons.
    + left. apply elem_of_cons. by left.
    + destruct (IH Hin) as [Hl|(doc0 & Hin0 & ->)].
      * left. apply elem_of_cons. by right.
      * right. exists doc0. split; [apply elem_of_cons; by right | done].
Qed.

Lemma merge_data_id now p : merge_data now p !! "id" = None.
Proof.
  unfold merge_data. rewrite lookup_insert_ne by done. by apply drop_None_absent.
Qed.

Lemma upsert_ids_drawn w d p :
  ids_drawn_before uuid4_at w -> ids_drawn_before uuid4_at (upsert d p w).2.
Proof.
  intros Hinv doc s.
  destruct (upsert_store w d p) as
    [Hle [-> | [(doc0 & t & Hf0 & ->) | (Hnone & o & t1 & t2 & -> & Hstep)]]].
  - intros Hin Hid. destruct (Hinv doc s Hin Hid) as (m & Hm & ->).
    exists m. split; [lia | done].
  - intros [Hin|(doc1 & Hin & ->)]%elem_of_update_one Hid.
    + destruct (Hinv doc s Hin Hid) as (m & Hm & ->). exists m. split; [lia | done].
    + rewrite lookup_union_r in Hid by apply merge_data_id.
      destruct (Hinv doc1 s Hin Hid) as (m & Hm & ->). exists m. split; [lia | done].
  - intros [Hin| ->%list_elem_of_singleton]%elem_of_app Hid.
    + destruct (Hinv doc s Hin Hid) as (m & Hm & ->). exists m. split; [lia | done].
    + rewrite lookup_insert_ne in Hid by done.
      exists (S (step w)). split; [lia|]. by injection Hid as <-.
Qed.

Lemma run_ids_drawn reqs : forall w,
  ids_drawn_before uuid4_at w -> ids_drawn_before uuid4_at (run reqs w).
Proof.
  induction reqs as [|[d0 p0] reqs IH]; intros w Hinv; [done|].
  rewrite run_upserts_cons. by apply IH, upsert_ids_drawn.
Qed.

(** ** The endpoints *)

Lemma merged_field {A} (inj : A -> value (F:=F)) (o : option A) now p doc k :
  k ≠ "updated_at" ->
  UserSettingsUpdate_dict p !! k = Some (optional inj o) ->
  (∀ a, is_not_None (inj a) = true) ->
  (merge_data now p ∪ doc) !! k = merge_field inj o (doc !! k).
Proof.
  intros Hk Hd Hinj. rewrite lookup_union. unfold merge_data.
  rewrite lookup_insert_ne by done. rewrite drop_None_lookup, Hd.
  destruct o as [a|]; cbn [optional merge_field is_not_None].
  - rewrite Hinj. by destruct (doc !! k).
  - by destruct (doc !! k).
Qed.

(** X28: when the writes run one after the other, once a device without a
    record is written, any later sequence of writes (to any devices, with
    any patches) leaves at most one record for the device, and that record
    keeps its device_id, id and created_at; apart from updated_at only the
    keys carried by later patches for the device can change. *)
Theorem upsert_keeps_one_record_per_device w d p0 reqs :
  find_one d (user_settings w) = None ->
  let w1 := (upsert d p0 w).2 in
  let w' := run reqs w1 in
  count_device d (user_settings w') ≤ 1
  ∧ ∀ doc, find_one d (user_settings w1) = Some doc ->
      ∃ doc', find_one d (user_settings w') = Some doc'
        ∧ doc' !! "device_id" = doc !! "device_id"
        ∧ doc' !! "id" = doc !! "id"
        ∧ doc' !! "created_at" = doc !! "created_at"
        ∧ ∀ k, k ≠ "updated_at" ->
            (∀ r, r ∈ reqs -> r.1 = d -> k ∉ patched_keys r.2) -> doc' !! k = doc !! k.
Proof.
  intros Hf w1 w'. split.
  - apply run_count, upsert_count. rewrite (count_device_0 _ _ Hf). lia.
  - intros doc Hdoc.
    destruct (run_frame reqs w1 d doc Hdoc) as (doc' & Hf' & Hk).
    exists doc'. split; [done|].
    assert (∀ k, k ∉ settings_fields -> k ≠ "updated_at" -> doc' !! k = doc !! k) as Hfix.
    { intros k Hk1 Hk2. apply Hk; [done|]. intros r _ _. by apply not_patched_key. }
    split; [apply Hfix; [compute_done | done]|].
    split; [apply Hfix; [compute_done | done]|].
    split; [apply Hfix; [compute_done | done]|].
    exact Hk.
Qed.

(** C7: applying the same patch twice to an existing record gives, after
    the second application, the same value as after the first for every
    key except updated_at. *)
Theorem upsert_same_patch_twice w d p doc :
  find_one d (user_settings w) = Some doc ->
  no_fault_between db_fault (step w) (step w + 8) ->
  ∃ once twice w1 w2,
    upsert d p w = (inr {| success := true; data := PDoc once |}, w1)
    ∧ upsert d p w1 = (inr {| success := true; data := PDoc twice |}, w2)
    ∧ find_one d (user_settings w1) = Some once
    ∧ find_one d (user_settings w2) = Some twice
    ∧ ∀ k, k ≠ "updated_at" -> twice !! k = once !! k.
Proof.
  intros Hf Hok.
  pose proof (upsert_found w d p doc Hf) as H1.
  cbv zeta in H1. rewrite H1 by (apply Hok; lia).
  set (once := merge_data (clock (step w + 1)) p ∪ doc).
  match goal with |- context [(inr _, ?w)] => set (w1 := w) end.
  assert (find_one d (user_settings w1) = Some once) as Hf1.
  { subst w1. cbn [user_settings].
    rewrite find_one_update_one by apply merge_data_device_id. by rewrite Hf. }
  assert (step w1 = step w + 4) as Hs1.
  { subst w1. unfold step. cbn [trace]. rewrite length_app. cbn [length]. lia. }
  pose proof (upsert_found w1 d p once Hf1) as H2.
  cbv zeta in H2.
  eexists once, _, w1, _. split; [done|]. split.
  { apply H2; apply Hok; lia. }
  split; [done|]. cbn [user_settings]. split.
  { rewrite find_one_update_one by apply merge_data_device_id. by rewrite Hf1. }
  intros k Hk. subst once. rewrite !lookup_union.
  unfold merge_data. rewrite !lookup_insert_ne by done.
  by destruct (drop_None (UserSettingsUpdate_dict p) !! k), (doc !! k).
Qed.

(** C9: for a device that has no record, and after any sequence of writes
    for other devices, reading its settings answers 200 with success and
    null data. *)
Theorem get_settings_of_unknown_device w reqs d :
  find_one d (user_settings w) = None ->
  (∀ r, r ∈ reqs -> r.1 ≠ d) ->
  let w' := run reqs w in
  db_fault (step w') = None ->
  (route_get_settings db_fault d w').1 = Response200 {| success := true; data := PNull |}.
Proof.
  intros Hf Hr w' Hok.
  pose proof (run_absent reqs w d Hr Hf) as Hnone. fold w' in Hnone.
  unfold route_get_settings, serve, get_settings, bind, db_find_one.
  by rewrite Hok, Hnone.
Qed.
End Facts.

(** ** The theorems at sample data *)

Import Sample.

Lemma no_faults_between (a b : nat) : no_fault_between no_faults a b.
Proof. intros n _. reflexivity. Defined.

Lemma sample_world_reached :
  (create_or_update_settings sample_clock sample_uuid4 sample_ObjectId no_faults
     "device-1" no_patch empty_world).2 = sample_world.
Proof. vm_compute. reflexivity. Qed.

Lemma upsert_keeps_one_record_per_device_witness :
  find_one "device-1" (user_settings (empty_world (F := R))) = None
  /\ count_device "device-1"
       (user_settings
          (run_upserts sample_clock sample_uuid4 sample_ObjectId no_faults
             [("device-1", english_patch); ("device-2", no_patch)]
             (create_or_update_settings sample_clock sample_uuid4 sample_ObjectId no_faults
                "device-1" no_patch empty_world).2)) <= 1.
Proof.
  split; [reflexivity|].
  apply (upsert_keeps_one_record_per_device sample_clock sample_uuid4 sample_ObjectId
           no_faults empty_world "device-1" no_patch
           [("device-1", english_patch); ("device-2", no_patch)]).
  reflexivity.
Defined.

Lemma upsert_same_patch_twice_witness :
  find_one "device-1" (user_settings sample_world) = Some sample_record
  /\ exists once twice w1 w2,
       create_or_update_settings sample_clock sample_uuid4 sample_ObjectId no_faults
         "device-1" english_patch sample_world
       = (inr {| success := true; data := PDoc once |}, w1)
       /\ create_or_update_settings sample_clock sample_uuid4 sample_ObjectId no_faults
            "device-1" english_patch w1
          = (inr {| success := true; data := PDoc twice |}, w2)
       /\ twice !! "language" = once !! "language".
Proof.
  split; [reflexivity|].
  destruct (upsert_same_patch_twice sample_clock sample_uuid4 sample_ObjectId no_faults
              sample_world "device-1" english_patch sample_record)
    as (once & twice & w1 & w2 & H1 & H2 & _ & _ & Hk).
  - reflexivity.
  - apply no_faults_between.
  - exists once, twice, w1, w2. split; [exact H1|]. split; [exact H2|].
    apply Hk. discriminate.
Defined.

Lemma get_settings_of_unknown_device_witness :
  find_one "device-2" (user_settings (empty_world (F := R))) = None
  /\ (route_get_settings no_faults "device-2"
        (run_upserts sample_clock sample_uuid4 sample_ObjectId no_faults
           [("device-1", english_patch)] empty_world)).1
     = Response200 {| success := true; data := PNull |}.
Proof.
  split; [reflexivity|].
  apply (get_settings_of_unknown_device sample_clock sample_uuid4 sample_ObjectId no_faults
           empty_world [("device-1", english_patch)] "device-2").
  - reflexivity.
  - intros r Hr. apply list_elem_of_singleton in Hr. subst r. discriminate.
  - reflexivity.
Defined.
End SettingsFacts.

(** * Properties of the routes *)

Module ApiFacts.
Import Backend.

Section Facts.
Context {F : Type} `{PyFloat F}.
Implicit Types (w : world (F:=F)).

Variable clock : nat -> Z.
Variable aladhan : nat -> string -> F -> F -> Z -> exn + json.
Variable strftime_dmY : Z -> string.
Variable format_value : json -> string.

Local Abbreviation SM := (M (F:=F)).

Lemma silent_ret {A} (a : A) : silent (ret a : SM A).
Proof. by intros w. Qed.

Lemma silent_raise {A} (e : exn) : silent (raise e : SM A).
Proof. by intros w. Qed.

Lemma silent_bind {A B} (m : SM A) (k : A -> SM B) :
  silent m -> (forall a, silent (k a)) -> silent (bind m k).
Proof.
  intros Hm Hk w. unfold bind. specialize (Hm w).
  destruct (m w) as [[e|a] w1]; cbn [snd] in *; subst w1; [done | apply Hk].
Qed.

Lemma silent_getitem (j : json) (k : string) : silent (getitem j k : SM json).
Proof.
  intros w. unfold getitem.
  destruct j as [| | | |l|l]; try done. by destruct (assoc k l).
Qed.

Lemma silent_split_head (v : json) : silent (split_head v : SM json).
Proof. intros w. by destruct v. Qed.

Lemma silent_hijri_text (date_info : json) (lang : string) (with_year : bool) :
  silent (hijri_text format_value date_info lang with_year : SM json).
Proof.
  unfold hijri_text.
  repeat (apply silent_bind; [apply silent_getitem | intros ?]).
  destruct with_year; [apply silent_bind; [apply silent_getitem | intros ?]|];
    apply silent_ret.
Qed.

Lemma silent_monthly_entry (day_data : json) :
  silent (monthly_entry format_value day_data : SM json).
Proof.
  unfold monthly_entry.
  repeat first
    [ apply silent_ret
    | apply silent_getitem
    | apply silent_hijri_text
    | apply silent_split_head
    | apply silent_bind; [|intros ?] ].
Qed.

Lemma silent_for_each (body : json -> SM json) (items : list json) :
  (forall x, silent (body x)) -> silent (for_each body items).
Proof.
  intros Hb. induction items as [|x rest IH]; cbn [for_each]; [apply silent_ret|].
  apply silent_bind; [apply Hb | intros y].
  apply silent_bind; [apply IH | intros ys; apply silent_ret].
Qed.

Lemma silent_iterate (j : json) : silent (iterate j : SM (list json)).
Proof. intros w. destruct j as [| | |[|c s]| |]; done. Qed.

(** The world after [try: m; rest ... except: raise] is the world after [m]
    when the rest and the handler are silent. *)
Lemma try_bind_world {A B} (m : SM A) (k : A -> SM B) (h : exn -> SM B) w :
  (forall a, silent (k a)) -> (forall e, silent (h e)) ->
  (try_except (bind m k) h w).2 = (m w).2.
Proof.
  intros Hk Hh. unfold try_except, bind.
  destruct (m w) as [[e|a] w1]; cbn [snd]; [apply Hh|].
  specialize (Hk a w1). destruct (k a w1) as [[e|b] w2]; cbn [snd] in *; subst w2;
    [apply Hh | done].
Qed.

Lemma serve_world (h : SM envelope) w : (serve h w).2 = (h w).2.
Proof. unfold serve. destruct (h w) as [[[]|] w']; done. Qed.

Lemma get_prayer_times_world lat lng date method w :
  (get_prayer_times clock aladhan strftime_dmY format_value lat lng date method w).2 =
  (fetch_prayer_times_aladhan clock aladhan strftime_dmY lat lng date method w).2.
Proof.
  unfold get_prayer_times. apply try_bind_world; [|intros e; apply silent_raise].
  intros data.
  repeat first
    [ apply silent_ret
    | apply silent_getitem
    | apply silent_hijri_text
    | apply silent_bind; [|intros ?] ].
Qed.

Lemma prayer_times_calls_upstream lat lng date method w :
  called_upstream lat lng
    (route_prayer_times clock aladhan strftime_dmY format_value
       (Some lat) (Some lng) date method w).2.
Proof.
  unfold route_prayer_times. rewrite serve_world, get_prayer_times_world.
  unfold fetch_prayer_times_aladhan, bind, httpx_get.
  destruct date as [s|]; cbn [ret datetime_now snd emit trace];
    eexists _, _; apply elem_of_app; right; apply list_elem_of_singleton; reflexivity.
Qed.

(** C10: the list of calculation methods has 14 entries whose ids are 0 to
    5 and 7 to 14: there is no id 6, so the ids are not the range that
    starts at 0. *)
Theorem calculation_methods_skip_id_6 w :
  exists methods,
    route_calculation_methods w = (Response200 {| success := true; data := PMethods methods |}, w)
    /\ length methods = 14
    /\ (method_id <$> methods) = [0; 1; 2; 3; 4; 5; 7; 8; 9; 10; 11; 12; 13; 14]%Z
    /\ (6%Z ∉ method_id <$> methods)
    /\ (13%Z ∈ method_id <$> methods)
    /\ (method_id <$> methods) ≠ seqZ 0 14.
Proof.
  eexists. split; [reflexivity|].
  split; [reflexivity|]. split; [reflexivity|].
  split; [compute_done|]. split; [compute_done | compute_done].
Qed.
End Facts.

(** ** The theorems at sample data *)

Import Sample RealMath.
Local Open Scope R_scope.

(** C8 as stated fails: latitude 100 lies outside [-90, 90], yet the qibla
    route answers 200 and the prayer-time route calls upstream with it. *)
Lemma out_of_range_latitude_is_accepted :
  ~ (-90 <= 100 <= 90)
  /\ (exists body, route_qibla (Some 100) (Some 0) empty_world
                   = (Response200 body, empty_world))
  /\ ~ is_client_error (route_qibla (Some 100) (Some 0) empty_world).1
  /\ ~ is_client_error
         (route_prayer_times sample_clock upstream_down sample_strftime sample_format
            (Some 100) (Some 0) None None empty_world).1
  /\ called_upstream 100 0
       (route_prayer_times sample_clock upstream_down sample_strftime sample_format
          (Some 100) (Some 0) None None empty_world).2.
Proof.
  split; [lra|]. split; [by eexists|]. split; [intros []|]. split.
  - cbn. lia.
  - apply prayer_times_calls_upstream.
Qed.
End ApiFacts.

(** * More on the bearing calculation *)

Module QiblaMore.
Import RealMath QiblaFacts.
Local Open Scope R_scope.

Lemma round_nd_2_IZR (z : Z) : round_nd (IZR z) 2 = IZR z.
Proof.
  unfold round_nd. change (IZR (10 ^ Z.of_nat 2)) with 100.
  replace (IZR z * 100) with (IZR (z * 100)) by (rewrite mult_IZR; reflexivity).
  rewrite round_half_even_IZR, mult_IZR. lra.
Qed.

Lemma atan2_sin_cos_left (d : R) :
  - PI < d < - (PI / 2) -> atan2 (sin d) (cos d) = d.
Proof.
  intros [Hl Hu]. pose proof PI_RGT_0 as Hpi. unfold atan2.
  assert (cos d < 0) as Hc.
  { rewrite <- cos_neg. apply cos_lt_0; lra. }
  assert (sin d < 0) as Hs by (apply sin_lt_0_var; lra).
  destruct (Rlt_dec 0 (cos d)) as [Hp|_]; [lra|].
  destruct (Rlt_dec (cos d) 0) as [_|Hn]; [|lra].
  destruct (Rle_dec 0 (sin d)) as [Hp|_]; [lra|].
  replace (sin d / cos d) with (tan (d + PI)).
  - rewrite atan_tan by lra. lra.
  - unfold tan. rewrite neg_sin, neg_cos. field. lra.
Qed.

Lemma atan2_sin_cos_right (d : R) :
  PI / 2 < d <= PI -> atan2 (sin d) (cos d) = d.
Proof.
  intros [Hl Hu]. pose proof PI_RGT_0 as Hpi. unfold atan2.
  assert (cos d < 0) as Hc by (apply cos_lt_0; lra).
  assert (0 <= sin d) as Hs by (apply sin_ge_0; lra).
  destruct (Rlt_dec 0 (cos d)) as [Hp|_]; [lra|].
  destruct (Rlt_dec (cos d) 0) as [_|Hn]; [|lra].
  destruct (Rle_dec 0 (sin d)) as [_|Hn]; [|lra].
  replace (sin d / cos d) with (tan (d - PI)).
  - rewrite atan_tan by lra. lra.
  - unfold tan. rewrite sin_minus, cos_minus, sin_PI, cos_PI. field. lra.
Qed.

(** On its whole range the angle function inverts the pair (sin, cos). *)
Lemma atan2_sin_cos_full (d : R) :
  - PI < d <= PI -> atan2 (sin d) (cos d) = d.
Proof.
  intros [Hl Hu]. pose proof PI_RGT_0 as Hpi.
  destruct (Rlt_dec d (- (PI / 2))) as [H1|H1]; [apply atan2_sin_cos_left; lra|].
  destruct (Rlt_dec (PI / 2) d) as [H2|H2]; [apply atan2_sin_cos_right; lra|].
  destruct (Req_dec d (- (PI / 2))) as [->|H3].
  { unfold atan2. rewrite cos_neg, sin_neg, cos_PI2, sin_PI2.
    repeat match goal with |- context [Rlt_dec ?a ?b] => destruct (Rlt_dec a b) end;
      lra. }
  destruct (Req_dec d (PI / 2)) as [->|H4].
  { unfold atan2. rewrite cos_PI2, sin_PI2.
    repeat match goal with |- context [Rlt_dec ?a ?b] => destruct (Rlt_dec a b) end;
      lra. }
  apply atan2_sin_cos; lra.
Qed.

Lemma sin_minus_2PI (x : R) : sin (x - 2 * PI) = sin x.
Proof. rewrite sin_minus, sin_2PI, cos_2PI. lra. Qed.

Lemma cos_minus_2PI (x : R) : cos (x - 2 * PI) = cos x.
Proof. rewrite cos_minus, sin_2PI, cos_2PI. lra. Qed.

(** Both branches of the normalisation return the angle of [d] in
    [[0, 360)], whichever turn [d] lies in. *)
Lemma degrees_of_radians (t : R) : t * (PI / 180) * (180 / PI) = t.
Proof. pose proof PI_RGT_0. field. lra. Qed.

Lemma degrees_of_PI : PI * (180 / PI) = 180.
Proof. pose proof PI_RGT_0. field. lra. Qed.

(** X2: whatever the coordinates, the result is a whole number of
    hundredths between 0 and 360. *)
Theorem qibla_two_decimals (lat lng : R) :
  exists n : Z, (0 <= n <= 36000)%Z /\ qibla lat lng = IZR n / 100.
Proof.
  rewrite qibla_unfold. cbv zeta.
  match goal with |- context [atan2 ?a ?b] =>
    pose proof (degrees_range _ (atan2_range a b)) as [Hl Hu] end.
  match goal with |- context [round_nd ?r 2] =>
    assert (0 <= round_nd r 2 <= 360) as Hr
      by (apply round_nd_2_range;
          match goal with |- context [Rlt_dec ?a 0] => destruct (Rlt_dec a 0) end; lra)
  end.
  unfold round_nd in *. change (IZR (10 ^ Z.of_nat 2)) with 100 in *.
  eexists. split; [|reflexivity].
  split; apply le_IZR; lra.
Qed.

Lemma qibla_on_meridian (lat : R) :
  qibla lat 39.8262 =
  let y := sin (21.4225 * (PI / 180) - lat * (PI / 180)) / cos (21.4225 * (PI / 180)) in
  let q := atan2 0 y * (180 / PI) in
  round_nd (if Rlt_dec q 0 then q + 360 else q) 2.
Proof.
  rewrite qibla_unfold. cbv zeta.
  pose proof PI_RGT_0 as Hpi. pose proof PI_4 as Hpi4.
  replace (39.8262 * (PI / 180) - 39.8262 * (PI / 180)) with 0 by lra.
  rewrite sin_0, cos_0.
  set (k := 21.4225 * (PI / 180)). set (l := lat * (PI / 180)).
  assert (cos k <> 0) as Hck by (apply Rgt_not_eq, cos_gt_0; unfold k; lra).
  replace (cos l * tan k - sin l * 1) with (sin (k - l) / cos k)
    by (rewrite sin_minus; unfold tan; field; exact Hck).
  reflexivity.
Qed.

(** X3: from a point on the Kaaba's meridian south of the Kaaba the
    direction is due north, 0. *)
Theorem qibla_due_north (lat : R) :
  -90 <= lat < 21.4225 -> qibla lat 39.8262 = 0.
Proof.
  intros [Hl Hu]. rewrite qibla_on_meridian. cbv zeta.
  pose proof PI_RGT_0 as Hpi. pose proof PI_4 as Hpi4.
  set (k := 21.4225 * (PI / 180)). set (l := lat * (PI / 180)).
  assert (0 < cos k) as Hck by (apply cos_gt_0; unfold k; lra).
  assert (0 < sin (k - l)) as Hs by (apply sin_gt_0; unfold k, l; nra).
  assert (0 < sin (k - l) / cos k) as Hy by (apply Rdiv_lt_0_compat; assumption).
  unfold atan2. destruct (Rlt_dec 0 (sin (k - l) / cos k)) as [_|Hn]; [|lra].
  replace (0 / (sin (k - l) / cos k)) with 0 by (field; lra).
  rewrite atan_0, Rmult_0_l.
  destruct (Rlt_dec 0 0) as [Hc|_]; [lra|]. apply (round_nd_2_IZR 0).
Qed.

(** X4: from a point on the Kaaba's meridian north of the Kaaba the
    direction is due south, 180. *)
Theorem qibla_due_south (lat : R) :
  21.4225 < lat <= 90 -> qibla lat 39.8262 = 180.
Proof.
  intros [Hl Hu]. rewrite qibla_on_meridian. cbv zeta.
  pose proof PI_RGT_0 as Hpi. pose proof PI_4 as Hpi4.
  set (k := 21.4225 * (PI / 180)). set (l := lat * (PI / 180)).
  assert (0 < cos k) as Hck by (apply cos_gt_0; unfold k; lra).
  assert (sin (k - l) < 0) as Hs by (apply sin_lt_0_var; unfold k, l; nra).
  assert (sin (k - l) / cos k < 0) as Hy.
  { unfold Rdiv. assert (0 < / cos k) by now apply Rinv_0_lt_compat. nra. }
  unfold atan2. destruct (Rlt_dec 0 (sin (k - l) / cos k)) as [Hp|_]; [lra|].
  destruct (Rlt_dec (sin (k - l) / cos k) 0) as [_|Hn]; [|lra].
  destruct (Rle_dec 0 0) as [_|Hn]; [|lra].
  replace (0 / (sin (k - l) / cos k)) with 0 by (field; lra).
  rewrite atan_0, Rplus_0_l.
  replace (PI * (180 / PI)) with 180 by (field; lra).
  destruct (Rlt_dec 180 0) as [Hc|_]; [lra|]. apply (round_nd_2_IZR 180).
Qed.

(** At the south pole the exact angle is the longitude difference to the
    Kaaba, taken in [0, 360); the result is its rounding. *)
Lemma south_pole_rounded (lng : R) :
  -180 <= lng <= 180 ->
  qibla (-90) lng =
  round_nd (if Rle_dec lng 39.8262 then 39.8262 - lng else 399.8262 - lng) 2.
Proof.
  intros [Hl Hu]. rewrite qibla_unfold. cbv zeta.
  pose proof PI_RGT_0 as Hpi. pose proof PI_4 as Hpi4.
  replace (-90 * (PI / 180)) with (- (PI / 2)) by lra.
  rewrite cos_neg, sin_neg, cos_PI2, sin_PI2.
  replace (39.8262 * (PI / 180) - lng * (PI / 180)) with ((39.8262 - lng) * (PI / 180)) by lra.
  set (d := (39.8262 - lng) * (PI / 180)).
  match goal with |- context [atan2 _ ?y] =>
    replace y with (cos d) by lra end.
  destruct (Rle_dec (-140.1738) lng) as [Hw|Hw].
  - rewrite atan2_sin_cos_full by (unfold d; split; nra).
    unfold d. rewrite degrees_of_radians.
    destruct (Rlt_dec (39.8262 - lng) 0), (Rle_dec lng 39.8262); try lra; f_equal; lra.
  - rewrite <- (sin_minus_2PI d), <- (cos_minus_2PI d).
    rewrite atan2_sin_cos_full by (unfold d; split; nra).
    replace ((d - 2 * PI) * (180 / PI))
      with (d * (180 / PI) - 2 * (PI * (180 / PI))) by ring.
    rewrite degrees_of_PI. unfold d. rewrite degrees_of_radians.
    destruct (Rlt_dec (39.8262 - lng - 2 * 180) 0), (Rle_dec lng 39.8262);
      try lra; f_equal; lra.
Qed.

(** At the north pole the exact angle is 180 minus the longitude
    difference to the Kaaba, taken in [0, 360); the result is its
    rounding. *)
Lemma north_pole_rounded (lng : R) :
  -180 <= lng <= 180 ->
  qibla 90 lng =
  round_nd (if Rlt_dec lng (-140.1738) then 500.1738 + lng else 140.1738 + lng) 2.
Proof.
  intros [Hl Hu]. rewrite qibla_unfold. cbv zeta.
  pose proof PI_RGT_0 as Hpi. pose proof PI_4 as Hpi4.
  replace (90 * (PI / 180)) with (PI / 2) by lra.
  rewrite cos_PI2, sin_PI2.
  replace (39.8262 * (PI / 180) - lng * (PI / 180)) with ((39.8262 - lng) * (PI / 180)) by lra.
  set (d := (39.8262 - lng) * (PI / 180)).
  assert (sin d = sin (PI - d)) as Hsin
    by (rewrite sin_minus, sin_PI, cos_PI; lra).
  assert (- cos d = cos (PI - d)) as Hcos
    by (rewrite cos_minus, sin_PI, cos_PI; lra).
  match goal with |- context [atan2 _ ?y] =>
    replace y with (cos (PI - d)) by lra end.
  rewrite Hsin.
  destruct (Rle_dec lng 39.8262) as [Hw|Hw].
  - rewrite atan2_sin_cos_full by (unfold d; split; nra).
    replace ((PI - d) * (180 / PI))
      with (PI * (180 / PI) - d * (180 / PI)) by ring.
    rewrite degrees_of_PI. unfold d. rewrite degrees_of_radians.
    destruct (Rlt_dec (180 - (39.8262 - lng)) 0), (Rlt_dec lng (-140.1738));
      try lra; f_equal; lra.
  - rewrite <- (sin_minus_2PI (PI - d)), <- (cos_minus_2PI (PI - d)).
    rewrite atan2_sin_cos_full by (unfold d; split; nra).
    replace ((PI - d - 2 * PI) * (180 / PI))
      with (PI * (180 / PI) - d * (180 / PI) - 2 * (PI * (180 / PI))) by ring.
    rewrite degrees_of_PI. unfold d. rewrite degrees_of_radians.
    destruct (Rlt_dec (180 - (39.8262 - lng) - 2 * 180) 0), (Rlt_dec lng (-140.1738));
      try lra; f_equal; lra.
Qed.

(** ** Rounding moves a value by at most half a hundredth *)

Lemma round_half_even_close (r : R) : - (1 / 2) <= IZR (round_half_even r) - r <= 1 / 2.
Proof.
  pose proof (Zfloor_bound r) as [Hl Hu]. unfold round_half_even.
  repeat match goal with |- context [if ?c then _ else _] => destruct c end;
    rewrite ?plus_IZR; lra.
Qed.

Lemma round_nd_2_close (r : R) : - 0.005 <= round_nd r 2 - r <= 0.005.
Proof.
  unfold round_nd. change (IZR (10 ^ Z.of_nat 2)) with 100.
  pose proof (round_half_even_close (r * 100)) as Hc. lra.
Qed.

(** X5: at the south pole the formula does not degenerate: for every
    longitude the result is the longitude difference to the Kaaba,
    39.8262 - lng, or that difference plus a full turn, to within a
    hundredth of a degree. *)
Theorem qibla_at_south_pole (lng : R) :
  -180 <= lng <= 180 ->
  Rabs (qibla (-90) lng - (39.8262 - lng)) < 0.01
  \/ Rabs (qibla (-90) lng - (39.8262 - lng) - 360) < 0.01.
Proof.
  intros Hl. rewrite (south_pole_rounded lng Hl).
  destruct (Rle_dec lng 39.8262) as [_|_]; [left | right].
  - pose proof (round_nd_2_close (39.8262 - lng)) as Hc.
    apply Rabs_def1; lra.
  - pose proof (round_nd_2_close (399.8262 - lng)) as Hc.
    apply Rabs_def1; lra.
Qed.

(** X6: at the north pole, for every longitude the result is 140.1738 + lng
    (180 minus the longitude difference to the Kaaba), or that angle plus a
    full turn, to within a hundredth of a degree. *)
Theorem qibla_at_north_pole (lng : R) :
  -180 <= lng <= 180 ->
  Rabs (qibla 90 lng - (140.1738 + lng)) < 0.01
  \/ Rabs (qibla 90 lng - (140.1738 + lng) - 360) < 0.01.
Proof.
  intros Hl. rewrite (north_pole_rounded lng Hl).
  destruct (Rlt_dec lng (-140.1738)) as [_|_]; [right | left].
  - pose proof (round_nd_2_close (500.1738 + lng)) as Hc.
    apply Rabs_def1; lra.
  - pose proof (round_nd_2_close (140.1738 + lng)) as Hc.
    apply Rabs_def1; lra.
Qed.

(** ** The theorems at sample points *)

Lemma round_half_even_down (r : R) (z : Z) :
  IZR z <= r < IZR z + 1 / 2 -> round_half_even r = z.
Proof.
  intros [Hl Hu]. unfold round_half_even.
  rewrite (Zfloor_eq z r) by lra.
  destruct (Rlt_dec (r - IZR z) (1 / 2)) as [_|Hc]; [reflexivity | lra].
Qed.

Lemma qibla_due_north_witness : -90 <= 0 < 21.4225 /\ qibla 0 39.8262 = 0.
Proof. split; [lra|]. apply (qibla_due_north 0). lra. Defined.

Lemma qibla_due_south_witness : 21.4225 < 41 <= 90 /\ qibla 41 39.8262 = 180.
Proof. split; [lra|]. apply (qibla_due_south 41). lra. Defined.

Lemma qibla_at_south_pole_witness :
  -180 <= 0 <= 180
  /\ (Rabs (qibla (-90) 0 - (39.8262 - 0)) < 0.01
      \/ Rabs (qibla (-90) 0 - (39.8262 - 0) - 360) < 0.01).
Proof. split; [lra|]. apply (qibla_at_south_pole 0). lra. Defined.

Lemma qibla_at_north_pole_witness :
  -180 <= -150 <= 180
  /\ (Rabs (qibla 90 (-150) - (140.1738 + -150)) < 0.01
      \/ Rabs (qibla 90 (-150) - (140.1738 + -150) - 360) < 0.01).
Proof. split; [lra|]. apply (qibla_at_north_pole (-150)). lra. Defined.

End QiblaMore.

(** * More on the prayer-time routes *)

Module PrayerFacts.
Import Backend Upstream.

Section Facts.
Context {F : Type}.
Implicit Types (w : world (F:=F)).

Variable clock : nat -> Z.
Variable aladhan : nat -> string -> F -> F -> Z -> exn + json.
Variable strftime_dmY : Z -> string.
Variable format_value : json -> string.

Local Abbreviation daily := (route_prayer_times clock aladhan strftime_dmY format_value).
Local Abbreviation monthly := (route_prayer_times_monthly aladhan format_value).

Lemma fetch_run lat lng date method w :
  fetch_prayer_times_aladhan clock aladhan strftime_dmY lat lng date method w =
  (aladhan (timings_step date w) (timings_url clock strftime_dmY date w) lat lng method,
   {| user_settings := user_settings w;
      trace := trace w ++ timings_events clock strftime_dmY date lat lng method w |}).
Proof.
  unfold fetch_prayer_times_aladhan, bind, httpx_get, datetime_now, ret.
  destruct date as [d|]; cbn [timings_step timings_url timings_events].
  - reflexivity.
  - rewrite SettingsFacts.step_emit. unfold emit. cbn [trace user_settings].
    by rewrite <- app_assoc.
Qed.

(** X7: with both coordinates present the daily route leaves the store as
    it is and makes exactly one upstream call, for the given date or,
    without one, for the date the clock shows, with method 13 unless
    another is given. *)
Theorem prayer_times_footprint lat lng date method w :
  let r := daily (Some lat) (Some lng) date method w in
  user_settings r.2 = user_settings w
  /\ trace r.2 =
     trace w ++ timings_events clock strftime_dmY date lat lng (default 13%Z method) w.
Proof.
  cbv zeta. unfold route_prayer_times.
  rewrite ApiFacts.serve_world, ApiFacts.get_prayer_times_world, fetch_run. done.
Qed.

Lemma assoc_head (k : string) (v : json) (l : list (string * json)) :
  assoc k ((k, v) :: l) = Some v.
Proof. cbn [assoc]. by rewrite bool_decide_eq_true_2. Qed.

Lemma assoc_skip (k k' : string) (v : json) (l : list (string * json)) :
  k' <> k -> assoc k ((k', v) :: l) = assoc k l.
Proof. intros Hne. cbn [assoc]. by rewrite bool_decide_eq_false_2. Qed.

Local Ltac run_handler :=
  repeat first
    [ rewrite assoc_head
    | rewrite assoc_skip by discriminate
    | progress cbn [getitem ret raise split_head]
    | progress unfold bind at 1 ].

(** X8: when the upstream call raises, the daily route answers 500 and
    the detail is "Failed to fetch prayer times: " followed by the text of
    the exception. *)
Theorem prayer_times_upstream_failure lat lng date method w e :
  aladhan (timings_step date w) (timings_url clock strftime_dmY date w)
    lat lng (default 13%Z method) = inl e ->
  (daily (Some lat) (Some lng) date method w).1
  = ResponseError 500 ("Failed to fetch prayer times: " +:+ str_exn e).
Proof.
  intros Hup. unfold route_prayer_times, serve, get_prayer_times, try_except, bind at 1.
  rewrite fetch_run, Hup. reflexivity.
Qed.

(** X9: when the provider's answer has no "data" key, the daily route
    answers 500 with the KeyError's text in the detail. *)
Theorem prayer_times_without_data lat lng date method w l :
  aladhan (timings_step date w) (timings_url clock strftime_dmY date w)
    lat lng (default 13%Z method) = inr (JDict l) ->
  assoc "data" l = None ->
  (daily (Some lat) (Some lng) date method w).1
  = ResponseError 500 "Failed to fetch prayer times: 'data'".
Proof.
  intros Hup Hl. unfold route_prayer_times, serve, get_prayer_times, try_except, bind at 1.
  rewrite fetch_run, Hup. unfold bind at 1. cbn [getitem]. rewrite Hl. reflexivity.
Qed.

Lemma getitem_field (j : json) (k : string) (v : json) :
  field j k = Some v -> getitem (F:=F) j k = ret v.
Proof. destruct j; cbn [field getitem]; try discriminate. by intros ->. Qed.

(** Splits the hypotheses on paths into one hypothesis on a key each. *)
Local Ltac split_paths :=
  cbn [at_path] in *;
  repeat match goal with
  | H : match field ?j ?k with _ => _ end = Some _ |- _ =>
      let v := fresh "v" in
      let E := fresh "E" in
      destruct (field j k) as [v|] eqn:E; [|discriminate H];
      repeat match goal with H' : context [field j k] |- _ =>
        lazymatch H' with E => fail | _ => rewrite E in H' end end
  | H : Some ?a = Some ?b |- _ => injection H as H; try subst a; try subst b
  end.

Local Ltac read_fields :=
  repeat first
    [ progress unfold bind at 1
    | match goal with E : field ?j ?k = Some ?v |- context [getitem ?j ?k] =>
        rewrite (getitem_field j k v E) end
    | progress cbn [ret split_head] ].

(** X10: when the provider's answer has every key the daily handler reads,
    whatever else it has, the route answers 200 with the six times as the
    provider gave them, the readable date, the two hijri dates as "day
    month year", the timezone and the method name. *)
Theorem prayer_times_success lat lng date method w body
    fajr sunrise dhuhr asr maghrib isha readable day month_en month_ar year timezone name :
  aladhan (timings_step date w) (timings_url clock strftime_dmY date w)
    lat lng (default 13%Z method) = inr body ->
  at_path body ["data"; "timings"; "Fajr"] = Some fajr ->
  at_path body ["data"; "timings"; "Sunrise"] = Some sunrise ->
  at_path body ["data"; "timings"; "Dhuhr"] = Some dhuhr ->
  at_path body ["data"; "timings"; "Asr"] = Some asr ->
  at_path body ["data"; "timings"; "Maghrib"] = Some maghrib ->
  at_path body ["data"; "timings"; "Isha"] = Some isha ->
  at_path body ["data"; "date"; "readable"] = Some readable ->
  at_path body ["data"; "date"; "hijri"; "day"] = Some day ->
  at_path body ["data"; "date"; "hijri"; "month"; "en"] = Some month_en ->
  at_path body ["data"; "date"; "hijri"; "month"; "ar"] = Some month_ar ->
  at_path body ["data"; "date"; "hijri"; "year"] = Some year ->
  at_path body ["data"; "meta"; "timezone"] = Some timezone ->
  at_path body ["data"; "meta"; "method"; "name"] = Some name ->
  (daily (Some lat) (Some lng) date method w).1
  = Response200
      {| success := true;
         data := PJson (JDict [
           ("fajr", fajr); ("sunrise", sunrise); ("dhuhr", dhuhr); ("asr", asr);
           ("maghrib", maghrib); ("isha", isha); ("date", readable);
           ("hijri_date",
            JStr (format_value day +:+ " " +:+ format_value month_en +:+ " "
                  +:+ format_value year));
           ("hijri_date_ar",
            JStr (format_value day +:+ " " +:+ format_value month_ar +:+ " "
                  +:+ format_value year));
           ("timezone", timezone); ("method", name)]) |}.
Proof.
  intros Hup. intros.
  unfold route_prayer_times, serve, get_prayer_times, try_except, bind at 1.
  rewrite fetch_run, Hup. split_paths.
  unfold hijri_text. read_fields. reflexivity.
Qed.

(** ** The monthly route *)

(** X11: with all four parameters present the monthly route leaves the
    store as it is and makes exactly one upstream call, to the calendar
    address of the year and month, with method 13 unless another is
    given. *)
Theorem monthly_footprint lat lng month year method w :
  let r := monthly (Some lat) (Some lng) (Some month) (Some year) method w in
  user_settings r.2 = user_settings w
  /\ trace r.2 =
     trace w ++ [EvHttpGet (calendar_url month year) lat lng (default 13%Z method)].
Proof.
  cbv zeta. unfold route_prayer_times_monthly.
  rewrite ApiFacts.serve_world. unfold get_monthly_prayer_times.
  rewrite ApiFacts.try_bind_world.
  - done.
  - intros data.
    repeat first
      [ apply ApiFacts.silent_ret
      | apply ApiFacts.silent_getitem
      | apply ApiFacts.silent_iterate
      | apply ApiFacts.silent_for_each; intros ?; apply ApiFacts.silent_monthly_entry
      | apply ApiFacts.silent_bind; [|intros ?] ].
  - intros e. apply ApiFacts.silent_raise.
Qed.

Lemma monthly_entry_run (td : Timings * DateInfo) w :
  (forall s, format_value (JStr s) = s) ->
  monthly_entry format_value (day_json td.1 td.2) w = (inr (monthly_payload_entry td), w).
Proof.
  intros Hfmt. destruct td as [t d]. cbn [fst snd].
  unfold monthly_entry, day_json, timings_json, date_json, hijri_text.
  run_handler. rewrite !Hfmt. reflexivity.
Qed.

Lemma for_each_days (days : list (Timings * DateInfo)) w :
  (forall s, format_value (JStr s) = s) ->
  for_each (monthly_entry format_value) ((fun td => day_json td.1 td.2) <$> days) w
  = (inr (monthly_payload_entry <$> days), w).
Proof.
  intros Hfmt. induction days as [|td days IH]; [reflexivity|].
  cbn [fmap list_fmap for_each]. unfold bind at 1.
  rewrite monthly_entry_run by done. unfold bind at 1.
  change (list_fmap _ _ ?f ?l) with (f <$> l). rewrite IH. reflexivity.
Qed.

Lemma for_each_stops (good : list (Timings * DateInfo)) (bad : json) (rest : list json)
    (e : exn) w :
  (forall s, format_value (JStr s) = s) ->
  monthly_entry format_value bad w = (inl e, w) ->
  for_each (monthly_entry format_value)
    (((fun td => day_json td.1 td.2) <$> good) ++ bad :: rest) w
  = (inl e, w).
Proof.
  intros Hfmt Hbad. induction good as [|td good IH].
  - cbn [fmap list_fmap app for_each]. unfold bind at 1. by rewrite Hbad.
  - cbn [fmap list_fmap app for_each]. unfold bind at 1.
    rewrite monthly_entry_run by done. unfold bind at 1.
    change (list_fmap _ _ ?f ?l) with (f <$> l). by rewrite IH.
Qed.

Lemma monthly_entry_reads (day entry : json) w :
  monthly_reads format_value day entry ->
  monthly_entry format_value day w = (inr entry, w).
Proof.
  intros (readable & gregorian & hday & hmonth & fajr & sunrise & dhuhr & asr & maghrib
          & isha & H1 & H2 & H3 & H4 & H5 & H6 & H7 & H8 & H9 & H10 & ->).
  split_paths. unfold monthly_entry, hijri_text. read_fields. reflexivity.
Qed.

Lemma for_each_reads (days entries : list json) w :
  Forall2 (monthly_reads format_value) days entries ->
  for_each (monthly_entry format_value) days w = (inr entries, w).
Proof.
  induction 1 as [|day entry days entries Hday _ IH]; [reflexivity|].
  cbn [for_each]. unfold bind at 1. rewrite (monthly_entry_reads _ _ _ Hday).
  unfold bind at 1. by rewrite IH.
Qed.

(** X12: when the provider's answer has a list under "data" and each day of
    it has every key the monthly handler reads, with strings for the six
    times and whatever else besides, the route answers 200 with one entry
    per day, in the provider's order: the readable date, the gregorian
    date, the hijri date as "day month", and each time cut at its first
    space. *)
Theorem monthly_success lat lng month year method w body days entries :
  aladhan (step w) (calendar_url month year) lat lng (default 13%Z method) = inr body ->
  field body "data" = Some (JList days) ->
  Forall2 (monthly_reads format_value) days entries ->
  (monthly (Some lat) (Some lng) (Some month) (Some year) method w).1
  = Response200 {| success := true; data := PJson (JList entries) |}.
Proof.
  intros Hup Hdata Hdays.
  unfold route_prayer_times_monthly, serve, get_monthly_prayer_times, try_except,
    bind at 1, httpx_get.
  fold (calendar_url month year). rewrite Hup.
  unfold bind at 1. rewrite (getitem_field _ _ _ Hdata). cbn [ret].
  unfold bind at 1. cbn [iterate ret].
  unfold bind at 1. rewrite (for_each_reads _ _ _ Hdays). reflexivity.
Qed.

(** X13: one malformed day spoils the month: if a day of the provider's
    answer has no timings, the monthly route answers 500 and returns none
    of the days before it. *)
Theorem monthly_no_partial_result lat lng month year method w good l rest :
  (forall s, format_value (JStr s) = s) ->
  assoc "timings" l = None ->
  aladhan (step w) (calendar_url month year) lat lng (default 13%Z method)
  = inr (JDict [("data",
                 JList (((fun td => day_json td.1 td.2) <$> good) ++ JDict l :: rest))]) ->
  (monthly (Some lat) (Some lng) (Some month) (Some year) method w).1
  = ResponseError 500 "'timings'".
Proof.
  intros Hfmt Hl Hup.
  unfold route_prayer_times_monthly, serve, get_monthly_prayer_times, try_except,
    bind at 1, httpx_get.
  fold (calendar_url month year). rewrite Hup.
  run_handler. cbn [iterate ret].
  rewrite (for_each_stops good (JDict l) rest (KeyError "timings")); [reflexivity|done|].
  unfold monthly_entry, bind at 1. cbn [getitem]. by rewrite Hl.
Qed.
End Facts.

(** ** Cutting a time at its first space *)

Lemma has_space_cons (c : Ascii.ascii) (s : string) :
  has_space (String c s) <-> c = Ascii.Space \/ has_space s.
Proof.
  unfold has_space. cbn [String.list_ascii_of_string]. rewrite elem_of_cons.
  split; intros [?|?]; auto.
Qed.

Lemma before_space_has_no_space (s : string) : ~ has_space (before_space s).
Proof.
  induction s as [|c s IH]; cbn [before_space].
  - unfold has_space. cbn. apply not_elem_of_nil.
  - case_bool_decide as Hc.
    + unfold has_space. cbn. apply not_elem_of_nil.
    + rewrite has_space_cons. intros [?|?]; auto.
Qed.

(** X14: [split(" ")[0]] keeps a string without a space whole and returns
    exactly the part before the first space otherwise. *)
Theorem before_space_cuts_at_first_space (a b : string) :
  ~ has_space a ->
  before_space a = a /\ before_space (a +:+ " " +:+ b) = a.
Proof.
  induction a as [|c a IH]; intros Ha.
  - split; reflexivity.
  - rewrite has_space_cons in Ha.
    destruct IH as [IH1 IH2]; [tauto|].
    split.
    + cbn [before_space]. rewrite bool_decide_eq_false_2 by tauto. by rewrite IH1.
    + change (String c a +:+ " " +:+ b) with (String c (a +:+ " " +:+ b)).
      cbn [before_space]. rewrite bool_decide_eq_false_2 by tauto. by rewrite IH2.
Qed.

(** ** The theorems at sample data *)

Import Sample Sample2 Sample3 RealMath.
Local Open Scope R_scope.

Lemma sample_format_str (s : string) : sample_format (JStr s) = s.
Proof. reflexivity. Defined.

Lemma prayer_times_upstream_failure_witness :
  (route_prayer_times sample_clock upstream_down sample_strftime sample_format
     (Some 41.0082) (Some 28.9784) None None empty_world).1
  = ResponseError 500 "Failed to fetch prayer times: connection refused".
Proof.
  apply (prayer_times_upstream_failure sample_clock upstream_down sample_strftime
           sample_format 41.0082 28.9784 None None empty_world
           (HttpxError "connection refused")).
  reflexivity.
Defined.

Lemma prayer_times_without_data_witness :
  (route_prayer_times sample_clock upstream_empty sample_strftime sample_format
     (Some 41.0082) (Some 28.9784) (Some "01-01-2024") (Some 13%Z) empty_world).1
  = ResponseError 500 "Failed to fetch prayer times: 'data'".
Proof.
  apply (prayer_times_without_data sample_clock upstream_empty sample_strftime
           sample_format 41.0082 28.9784 (Some "01-01-2024") (Some 13%Z) empty_world []);
    reflexivity.
Defined.

Lemma prayer_times_success_witness :
  (route_prayer_times sample_clock provider_daily sample_strftime sample_format
     (Some 41.0082) (Some 28.9784) None None empty_world).1
  = Response200
      {| success := true;
         data := PJson (JDict [
           ("fajr", JStr "05:30 (+03)"); ("sunrise", JStr "07:02 (+03)");
           ("dhuhr", JStr "12:58 (+03)"); ("asr", JStr "15:41 (+03)");
           ("maghrib", JStr "18:44 (+03)"); ("isha", JStr "20:09 (+03)");
           ("date", JStr "01 Jan 2024");
           ("hijri_date", JStr "19 Jumada al-akhirah 1445");
           ("hijri_date_ar", JStr "19 jumada 1445");
           ("timezone", JStr "Europe/Istanbul"); ("method", JStr "Diyanet")]) |}.
Proof.
  apply (prayer_times_success sample_clock provider_daily sample_strftime sample_format
           41.0082 28.9784 None None empty_world provider_daily_body
           (JStr "05:30 (+03)") (JStr "07:02 (+03)") (JStr "12:58 (+03)")
           (JStr "15:41 (+03)") (JStr "18:44 (+03)") (JStr "20:09 (+03)")
           (JStr "01 Jan 2024") (JStr "19") (JStr "Jumada al-akhirah") (JStr "jumada")
           (JStr "1445") (JStr "Europe/Istanbul") (JStr "Diyanet"));
    reflexivity.
Defined.

Lemma monthly_success_witness :
  field provider_monthly_body "data" = Some (JList [provider_day])
  /\ (route_prayer_times_monthly provider_month sample_format
        (Some 41.0082) (Some 28.9784) (Some 1%Z) (Some 2024%Z) None empty_world).1
     = Response200
         {| success := true;
            data := PJson (JList [JDict [
              ("date", JStr "01 Jan 2024"); ("gregorian", JStr "01-01-2024");
              ("hijri", JStr "19 Jumada al-akhirah");
              ("fajr", JStr "05:30"); ("sunrise", JStr "07:02"); ("dhuhr", JStr "12:58");
              ("asr", JStr "15:41"); ("maghrib", JStr "18:44"); ("isha", JStr "20:09")]]) |}.
Proof.
  split; [reflexivity|].
  apply (monthly_success provider_month sample_format 41.0082 28.9784 1%Z 2024%Z None
           empty_world provider_monthly_body [provider_day]).
  - reflexivity.
  - reflexivity.
  - constructor; [|constructor].
    exists (JStr "01 Jan 2024"), (JStr "01-01-2024"), (JStr "19"), (JStr "Jumada al-akhirah"),
      "05:30 (+03)"%string, "07:02 (+03)"%string, "12:58 (+03)"%string,
      "15:41 (+03)"%string, "18:44 (+03)"%string, "20:09 (+03)"%string.
    repeat split; reflexivity.
Defined.

Lemma monthly_no_partial_result_witness :
  (route_prayer_times_monthly upstream_broken_month sample_format
     (Some 41.0082) (Some 28.9784) (Some 1%Z) (Some 2024%Z) None empty_world).1
  = ResponseError 500 "'timings'".
Proof.
  apply (monthly_no_partial_result upstream_broken_month sample_format 41.0082 28.9784
           1%Z 2024%Z None empty_world [(sample_timings, sample_date)] [] []).
  - exact sample_format_str.
  - reflexivity.
  - reflexivity.
Defined.

Lemma before_space_cuts_at_first_space_witness :
  ~ has_space "05:30"
  /\ before_space "05:30" = "05:30"
  /\ before_space "05:30 (+03)" = "05:30".
Proof.
  assert (~ has_space "05:30") as Hn by (unfold has_space; compute_done).
  split; [exact Hn|].
  exact (before_space_cuts_at_first_space "05:30" "(+03)" Hn).
Defined.
End PrayerFacts.

(** * More on the settings endpoints *)

Module SettingsMore.
Import Backend SettingsModel SettingsFacts.

Section Facts.
Context {F : Type}.
Implicit Types (p : UserSettingsUpdate (F:=F)) (doc upd : gmap string (value (F:=F)))
  (coll : list (gmap string (value (F:=F)))) (d k : string) (w : world (F:=F)).

Variable clock : nat -> Z.
Variable uuid4_at : nat -> string.
Variable ObjectId_at : nat -> Z.
Variable db_fault : nat -> option string.

Local Abbreviation upsert := (create_or_update_settings clock uuid4_at ObjectId_at db_fault).
Local Abbreviation run := (run_upserts clock uuid4_at ObjectId_at db_fault).
Local Abbreviation post d p := (serve (upsert d p)).

Local Ltac steps :=
  cbv [snd raise ret step emit trace user_settings];
  rewrite ?length_app; cbn [length]; lia.

(** The outcome of a write with the clock readings it stores. *)
Lemma upsert_outcome w d p :
  let coll := user_settings w in
  let w' := (upsert d p w).2 in
  (user_settings w' = coll ∧ step w ≤ step w')
  ∨ (∃ doc, find_one d coll = Some doc
       ∧ user_settings w' = update_one d (merge_data (clock (S (step w))) p) coll
       ∧ S (step w) < step w')
  ∨ (find_one d coll = None ∧
     ∃ o, user_settings w' =
            coll ++ [<["_id" := VObjectId o]>
                       (UserSettings_dict
                          (created_record (uuid4_at (S (step w))) d p
                             (clock (S (step w) + 1)) (clock (S (step w) + 2))))]
          ∧ step w' = step w + 5).
Proof.
  intros coll w'. subst coll w'.
  remember (upsert d p w) as res eqn:E.
  unfold create_or_update_settings, try_except, bind at 1, db_find_one in E.
  destruct (db_fault (step w)) as [msg|] eqn:H0;
    [subst res; left; split; [reflexivity | steps]|].
  destruct (find_one d (user_settings w)) as [doc|] eqn:Hf.
  - rewrite (truthy_found _ _ _ Hf) in E.
    unfold bind, datetime_utcnow, db_update_one, db_find_one in E.
    rewrite !step_emit in E.
    destruct (db_fault (S (S (step w)))) as [msg|] eqn:H2;
      [subst res; left; split; [reflexivity | steps]|].
    cbn [emit trace user_settings] in E.
    match type of E with context [db_fault ?n] => destruct (db_fault n) end;
      subst res; right; left; exists doc; (split; [reflexivity|]);
      (split; [reflexivity | steps]).
  - cbn [truthy] in E. unfold bind at 1 in E.
    rewrite UserSettings_new_run, step_emit in E. unfold bind, db_insert_one in E.
    match type of E with context [db_fault ?n] => destruct (db_fault n) end;
      subst res; [left; split; [reflexivity | steps]|].
    right; right. split; [reflexivity|]. cbn [snd user_settings ret].
    eexists. split; [reflexivity | steps].
Qed.

(** X15: a write for one device leaves the record of every other device
    exactly as it was, whatever the faults. *)
Theorem upsert_leaves_other_devices w d p d' :
  d' ≠ d ->
  find_one d' (user_settings (upsert d p w).2) = find_one d' (user_settings w).
Proof.
  intros Hne.
  destruct (upsert_outcome w d p) as
    [[-> _] | [(doc & Hf & -> & _) | (Hnone & o & -> & _)]].
  - done.
  - by rewrite find_one_update_one_ne by (auto using merge_data_device_id).
  - rewrite find_one_app. destruct (find_one d' (user_settings w)); [done|].
    cbn [find_one]. rewrite matches_created. cbn [device_id created_record].
    by rewrite bool_decide_eq_false_2.
Qed.

(** X16: a write never removes a record: the collection keeps its length, or
    grows by one when the device had no record. *)
Theorem upsert_collection_length w d p :
  let n := length (user_settings w) in
  let n' := length (user_settings (upsert d p w).2) in
  (n' = n \/ (n' = S n /\ find_one d (user_settings w) = None)).
Proof.
  cbv zeta.
  destruct (upsert_outcome w d p) as
    [[-> _] | [(doc & Hf & -> & _) | (Hnone & o & -> & _)]].
  - by left.
  - left. generalize (user_settings w). intros coll.
    induction coll as [|x rest IH]; cbn [update_one]; [done|].
    destruct (matches d x); cbn [length]; by rewrite ?IH.
  - right. rewrite length_app. cbn [length]. split; [lia | done].
Qed.

(** X17: when the store fails on the first lookup, the write answers 500
    with the driver's message and the collection is untouched. *)
Theorem upsert_lookup_fault w d p msg :
  db_fault (step w) = Some msg ->
  exists w',
    post d p w = (ResponseError 500 msg, w')
    /\ user_settings w' = user_settings w.
Proof.
  intros Hfault.
  unfold serve, create_or_update_settings, try_except, bind at 1, db_find_one.
  rewrite Hfault. eexists. split; reflexivity.
Qed.

(** X18: when the merge is stored but the store fails on the re-read, the
    write answers 500 although the collection now holds the merged
    record. *)
Theorem upsert_fault_after_update w d p doc msg :
  find_one d (user_settings w) = Some doc ->
  db_fault (step w) = None ->
  db_fault (step w + 2) = None ->
  db_fault (step w + 3) = Some msg ->
  exists w',
    post d p w = (ResponseError 500 msg, w')
    /\ find_one d (user_settings w') = Some (merge_data (clock (step w + 1)) p ∪ doc).
Proof.
  intros Hf H0 H2 H3.
  unfold serve, create_or_update_settings, try_except, bind at 1, db_find_one at 1.
  rewrite H0, Hf, (truthy_found _ _ _ Hf).
  unfold bind, datetime_utcnow, db_update_one.
  rewrite !step_emit.
  replace (S (S (step w))) with (step w + 2) by lia.
  rewrite H2.
  replace (S (step w)) with (step w + 1) by lia.
  fold (merge_data (clock (step w + 1)) p).
  unfold db_find_one, step at 1. cbn [trace emit user_settings].
  rewrite !length_app. cbn [length].
  replace (length (trace w) + 1 + 1 + 1) with (step w + 3) by (unfold step; lia).
  rewrite H3. cbn [raise str_exn]. eexists. split; [reflexivity|].
  cbn [user_settings emit].
  rewrite find_one_update_one by apply merge_data_device_id. by rewrite Hf.
Qed.

(** ** Reading the settings *)

Lemma get_settings_run w d :
  db_fault (step w) = None ->
  get_settings db_fault d w
  = (inr {| success := true;
            data := payload_of (delete "_id" <$> find_one d (user_settings w)) |},
     emit (EvFindOne d) w).
Proof.
  intros Hok. unfold get_settings, bind, db_find_one. rewrite Hok.
  destruct (find_one d (user_settings w)) as [doc|] eqn:Hf.
  - by rewrite (truthy_found _ _ _ Hf).
  - reflexivity.
Qed.


Lemma created_record_no_object_id new_id d p t1 t2 :
  UserSettings_dict (F:=F) (created_record new_id d p t1 t2) !! "_id" = None.
Proof. reflexivity. Qed.

(** ** What the collection holds *)

Lemma UserSettings_dict_other (s : UserSettings (F:=F)) k :
  k ∉ ["id"; "device_id"; "language"; "theme"; "notification_enabled";
       "notification_sound"; "calculation_method"; "latitude"; "longitude";
       "city"; "country"; "created_at"; "updated_at"] ->
  UserSettings_dict s !! k = None.
Proof. intros Hk. unfold UserSettings_dict. by apply not_elem_of_list_to_map_1. Qed.

Local Ltac patched_case :=
  erewrite merged_field; [|discriminate|reflexivity|done];
  cbn [u_language u_theme u_notification_enabled u_notification_sound
       u_calculation_method u_latitude u_longitude u_city u_country];
  match goal with |- context [merge_field _ ?o _] => destruct o end; reflexivity.

Local Ltac kept_case :=
  rewrite lookup_union_r by (apply merge_data_other; [discriminate | apply not_patched_key; compute_done]);
  reflexivity.

(** The merge of a patch into a stored record is the stored record of the
    patched settings. *)
Lemma merge_into_record (s : UserSettings (F:=F)) (o : Z) p now :
  merge_data now p ∪ <["_id" := VObjectId o]> (UserSettings_dict s)
  = <["_id" := VObjectId o]> (UserSettings_dict (apply_patch s p now)).
Proof.
  destruct p as [pl pt pe ps pm pla plo pci pco].
  apply map_eq. intros k.
  destruct (decide (k ∈ ["_id"; "id"; "device_id"; "language"; "theme";
       "notification_enabled"; "notification_sound"; "calculation_method"; "latitude";
       "longitude"; "city"; "country"; "created_at"; "updated_at"])) as [Hin|Hout].
  - repeat (apply elem_of_cons in Hin as [->|Hin]); [..|by apply elem_of_nil in Hin].
    + kept_case.
    + kept_case.
    + kept_case.
    + patched_case.
    + patched_case.
    + patched_case.
    + patched_case.
    + patched_case.
    + patched_case.
    + patched_case.
    + patched_case.
    + patched_case.
    + kept_case.
    + rewrite lookup_union_l'; unfold merge_data; rewrite lookup_insert_eq;
        [reflexivity | eauto].
  - assert (k ≠ "_id") as Hid by (intros ->; apply Hout; compute_done).
    assert (k ≠ "updated_at") as Hup by (intros ->; apply Hout; compute_done).
    rewrite lookup_union_r.
    + rewrite !lookup_insert_ne by done.
      rewrite !UserSettings_dict_other; [done|..];
        intros Hin; apply Hout; apply elem_of_cons; by right.
    + apply merge_data_other; [done|]. apply not_patched_key.
      intros Hin. apply Hout. unfold settings_fields in Hin.
      repeat (apply elem_of_cons in Hin as [->|Hin]); [compute_done..|by apply elem_of_nil in Hin].
Qed.

Lemma upsert_stored_records w d p :
  Forall stored_record (user_settings w) ->
  Forall stored_record (user_settings (upsert d p w).2).
Proof.
  intros Hinv. rewrite Forall_forall in Hinv. apply Forall_forall. intros doc.
  destruct (upsert_outcome w d p) as
    [[-> _] | [(doc0 & Hf & -> & _) | (Hnone & o & -> & _)]].
  - apply Hinv.
  - intros [Hin|(doc1 & Hin & ->)]%elem_of_update_one; [by apply Hinv|].
    destruct (Hinv doc1 Hin) as (s & o & ->).
    exists (apply_patch s p (clock (S (step w)))), o. apply merge_into_record.
  - intros [Hin| ->%list_elem_of_singleton]%elem_of_app; [by apply Hinv|].
    by eexists _, _.
Qed.

(** X22: starting from the empty collection, every document the writes ever
    store is a complete UserSettings record with the driver's _id, and the
    merge of any patch into it is that record with the patch's fields
    replaced and updated_at refreshed. *)
Theorem stored_documents_are_records reqs doc :
  doc ∈ user_settings (run reqs empty_world) ->
  exists (s : UserSettings (F:=F)) (o : Z),
    doc = <["_id" := VObjectId o]> (UserSettings_dict s)
    /\ forall p now,
         merge_data now p ∪ doc
         = <["_id" := VObjectId o]> (UserSettings_dict (apply_patch s p now)).
Proof.
  assert (forall w, Forall stored_record (user_settings w) ->
                    Forall stored_record (user_settings (run reqs w))) as Hrun.
  { induction reqs as [|[d0 p0] reqs IH]; intros w Hinv; [done|].
    rewrite run_upserts_cons. by apply IH, upsert_stored_records. }
  intros Hin. specialize (Hrun empty_world (Forall_nil_2 _)).
  rewrite Forall_forall in Hrun. destruct (Hrun doc Hin) as (s & o & ->).
  exists s, o. split; [reflexivity|]. intros p now. apply merge_into_record.
Qed.

Lemma record_ids_update_one d upd coll :
  upd !! "id" = None -> record_ids (update_one d upd coll) = record_ids coll.
Proof.
  intros Hu. unfold record_ids.
  induction coll as [|x rest IH]; cbn [update_one]; [done|].
  destruct (matches d x); cbn [fmap list_fmap].
  - by rewrite lookup_union_r.
  - f_equal. apply IH.
Qed.

Lemma upsert_ids_from_draws w d p :
  (exists ms, NoDup ms /\ (forall m, m ∈ ms -> m < step w)
     /\ record_ids (user_settings w) = (fun m => Some (VStr (uuid4_at m))) <$> ms) ->
  exists ms, NoDup ms /\ (forall m, m ∈ ms -> m < step (upsert d p w).2)
     /\ record_ids (user_settings (upsert d p w).2)
        = (fun m => Some (VStr (uuid4_at m))) <$> ms.
Proof.
  intros (ms & Hnd & Hlt & Hids).
  destruct (upsert_outcome w d p) as
    [[-> Hle] | [(doc0 & Hf & -> & Hle) | (Hnone & o & -> & Hst)]].
  - exists ms. split; [done|]. split; [|done]. intros m Hm. specialize (Hlt m Hm). lia.
  - exists ms. split; [done|]. split.
    + intros m Hm. specialize (Hlt m Hm). lia.
    + by rewrite record_ids_update_one by apply merge_data_id.
  - exists (ms ++ [S (step w)]). split; [|split].
    + apply NoDup_app. split; [done|]. split; [|apply NoDup_singleton].
      intros m Hm ->%list_elem_of_singleton. specialize (Hlt _ Hm). lia.
    + intros m [Hm| ->%list_elem_of_singleton]%elem_of_app; [specialize (Hlt m Hm)|]; lia.
    + unfold record_ids in *. rewrite !fmap_app, Hids. reflexivity.
Qed.

(** X23: starting from the empty collection, the identifiers of the stored
    records are pairwise distinct, provided the generator never repeats. *)
Theorem stored_ids_are_distinct reqs :
  Inj (=) (=) uuid4_at ->
  NoDup (record_ids (user_settings (run reqs (empty_world (F:=F))))).
Proof.
  intros Hinj.
  assert (forall w,
    (exists ms, NoDup ms /\ (forall m, m ∈ ms -> m < step w)
       /\ record_ids (user_settings w) = (fun m => Some (VStr (uuid4_at m))) <$> ms) ->
    exists ms, NoDup ms /\ (forall m, m ∈ ms -> m < step (run reqs w))
       /\ record_ids (user_settings (run reqs w))
          = (fun m => Some (VStr (uuid4_at m))) <$> ms) as Hrun.
  { induction reqs as [|[d0 p0] reqs IH]; intros w Hinv; [done|].
    rewrite run_upserts_cons. by apply IH, upsert_ids_from_draws. }
  destruct (Hrun empty_world) as (ms & Hnd & _ & ->).
  { exists []. split; [apply NoDup_nil_2|]. split; [|done].
    intros m Hm. by apply elem_of_nil in Hm. }
  apply NoDup_fmap_2; [|done].
  intros m n Heq. injection Heq as Heq. by apply Hinj.
Qed.

Lemma upsert_timestamps w d p :
  Forall (timestamps_in_order clock w) (user_settings w) ->
  Forall (timestamps_in_order clock (upsert d p w).2) (user_settings (upsert d p w).2).
Proof.
  intros Hinv. rewrite Forall_forall in Hinv. apply Forall_forall. intros doc.
  destruct (upsert_outcome w d p) as
    [[-> Hle] | [(doc0 & Hf & -> & Hle) | (Hnone & o & -> & Hst)]].
  - intros Hin. destruct (Hinv doc Hin) as (mc & mu & ? & ? & ? & ?).
    exists mc, mu. repeat split; [lia | lia | done | done].
  - intros [Hin|(doc1 & Hin & ->)]%elem_of_update_one.
    + destruct (Hinv doc Hin) as (mc & mu & ? & ? & ? & ?).
      exists mc, mu. repeat split; [lia | lia | done | done].
    + destruct (Hinv doc1 Hin) as (mc & mu & ? & ? & Hc & Hu).
      exists mc, (S (step w)). split; [lia|]. split; [lia|]. split.
      * rewrite lookup_union_r; [done|].
        apply merge_data_other; [discriminate | apply not_patched_key; compute_done].
      * rewrite lookup_union_l'; unfold merge_data; rewrite lookup_insert_eq; eauto.
  - intros [Hin| ->%list_elem_of_singleton]%elem_of_app.
    + destruct (Hinv doc Hin) as (mc & mu & ? & ? & ? & ?).
      exists mc, mu. repeat split; [lia | lia | done | done].
    + exists (S (step w) + 1), (S (step w) + 2).
      split; [lia|]. split; [lia|]. split; reflexivity.
Qed.

(** X24: starting from the empty collection and with a clock that never
    runs backwards, every stored record has created_at not after
    updated_at. *)
Theorem created_not_after_updated reqs doc :
  (forall m n, m <= n -> (clock m <= clock n)%Z) ->
  doc ∈ user_settings (run reqs empty_world) ->
  exists c u,
    doc !! "created_at" = Some (VDatetime c)
    /\ doc !! "updated_at" = Some (VDatetime u)
    /\ (c <= u)%Z.
Proof.
  intros Hmono.
  assert (forall w, Forall (timestamps_in_order clock w) (user_settings w) ->
            Forall (timestamps_in_order clock (run reqs w)) (user_settings (run reqs w)))
    as Hrun.
  { induction reqs as [|[d0 p0] reqs IH]; intros w Hinv; [done|].
    rewrite run_upserts_cons. by apply IH, upsert_timestamps. }
  intros Hin. specialize (Hrun empty_world (Forall_nil_2 _)).
  rewrite Forall_forall in Hrun.
  destruct (Hrun doc Hin) as (mc & mu & Hle & _ & Hc & Hu).
  exists (clock mc), (clock mu). split; [done|]. split; [done|]. by apply Hmono.
Qed.

(** ** Two writes at once *)

Lemma upsert_is_lookup_then_rest d p :
  upsert d p =
  try_except (bind (db_find_one db_fault d)
                (upsert_after_lookup clock uuid4_at ObjectId_at db_fault d p))
    (fun e => raise (HTTPException 500 (str_exn e))).
Proof. reflexivity. Qed.

(** X25: the lookup and the insertion are not one step: when a second first
    write for the same device runs between them, both insert, and the
    collection holds two records for the device. *)
Theorem interleaved_first_writes_insert_twice w d pa pb :
  find_one d (user_settings w) = None ->
  no_fault_between db_fault (step w) (step w + 10) ->
  count_device d
    (user_settings
       (interleaved_first_writes clock uuid4_at ObjectId_at db_fault d pa pb w)) = 2.
Proof.
  intros Hf Hok. unfold interleaved_first_writes, db_find_one at 1.
  rewrite (Hok (step w)) by lia. rewrite Hf.
  set (w1 := emit (EvFindOne d) w).
  assert (step w1 = step w + 1) as Hs1 by (subst w1; rewrite step_emit; lia).
  pose proof (upsert_created clock uuid4_at ObjectId_at db_fault w1 d pb Hf) as Hb.
  cbv zeta in Hb. rewrite Hb by (apply Hok; lia). clear Hb.
  cbn [snd]. unfold upsert_after_lookup. cbn [truthy].
  unfold try_except, bind at 1. rewrite UserSettings_new_run.
  unfold bind, db_insert_one.
  match goal with |- context [db_fault ?n] =>
    replace (db_fault n) with (@None string)
      by (symmetry; apply Hok; unfold step in *; cbn [trace user_settings];
          rewrite ?length_app; cbn [length]; lia) end.
  cbn [snd ret user_settings]. unfold insert_one.
  rewrite created_record_no_object_id.
  change (user_settings w1) with (user_settings w).
  rewrite !count_device_app, (count_device_0 _ _ Hf).
  unfold count_device. rewrite !filter_cons, !filter_nil, !matches_created.
  cbn [device_id created_record]. rewrite !decide_True by by apply bool_decide_eq_true.
  reflexivity.
Qed.
End Facts.

(** ** The theorems at sample data *)

Import Sample Sample2.

Lemma upsert_leaves_other_devices_witness :
  "device-2" ≠ "device-1"
  /\ find_one "device-2"
       (user_settings
          (create_or_update_settings sample_clock sample_uuid4 sample_ObjectId no_faults
             "device-1" english_patch sample_world).2)
     = find_one "device-2" (user_settings sample_world).
Proof.
  split; [discriminate|].
  apply (upsert_leaves_other_devices sample_clock sample_uuid4 sample_ObjectId no_faults
           sample_world "device-1" english_patch "device-2").
  discriminate.
Defined.

Lemma upsert_lookup_fault_witness :
  fault_at 5 "store down" (step sample_world) = Some "store down"
  /\ exists w',
       serve (create_or_update_settings sample_clock sample_uuid4 sample_ObjectId
                (fault_at 5 "store down") "device-1" english_patch) sample_world
       = (ResponseError 500 "store down", w')
       /\ user_settings w' = user_settings sample_world.
Proof.
  split; [reflexivity|].
  apply (upsert_lookup_fault sample_clock sample_uuid4 sample_ObjectId
           (fault_at 5 "store down") sample_world "device-1" english_patch "store down").
  reflexivity.
Defined.

Lemma upsert_fault_after_update_witness :
  find_one "device-1" (user_settings sample_world) = Some sample_record
  /\ exists w',
       serve (create_or_update_settings sample_clock sample_uuid4 sample_ObjectId
                (fault_at 8 "store down") "device-1" english_patch) sample_world
       = (ResponseError 500 "store down", w')
       /\ find_one "device-1" (user_settings w')
          = Some (merge_data (sample_clock 6) english_patch ∪ sample_record).
Proof.
  split; [reflexivity|].
  apply (upsert_fault_after_update sample_clock sample_uuid4 sample_ObjectId
           (fault_at 8 "store down") sample_world "device-1" english_patch sample_record
           "store down"); reflexivity.
Defined.


Lemma sample_run_reaches_sample_world :
  run_upserts sample_clock sample_uuid4 sample_ObjectId no_faults
    [("device-1", no_patch)] empty_world = sample_world.
Proof. vm_compute. reflexivity. Defined.

Lemma stored_documents_are_records_witness :
  sample_record ∈ user_settings
    (run_upserts sample_clock sample_uuid4 sample_ObjectId no_faults
       [("device-1", no_patch)] empty_world)
  /\ exists (s : UserSettings (F:=R)) (o : Z),
       sample_record = <["_id" := VObjectId o]> (UserSettings_dict s)
       /\ forall p now,
            merge_data now p ∪ sample_record
            = <["_id" := VObjectId o]> (UserSettings_dict (apply_patch s p now)).
Proof.
  assert (sample_record ∈ user_settings
            (run_upserts sample_clock sample_uuid4 sample_ObjectId no_faults
               [("device-1", no_patch)] empty_world)) as Hin.
  { rewrite sample_run_reaches_sample_world. apply list_elem_of_singleton. reflexivity. }
  split; [exact Hin|].
  exact (stored_documents_are_records sample_clock sample_uuid4 sample_ObjectId no_faults
           [("device-1", no_patch)] sample_record Hin).
Defined.

Lemma stored_ids_are_distinct_witness :
  NoDup (record_ids (user_settings
    (run_upserts sample_clock sample_uuid4 sample_ObjectId no_faults
       [("device-1", no_patch); ("device-2", english_patch); ("device-1", english_patch)]
       (empty_world (F := R))))).
Proof.
  apply (stored_ids_are_distinct sample_clock sample_uuid4 sample_ObjectId no_faults).
  unfold sample_uuid4. apply pretty_nat_inj.
Defined.

Lemma created_not_after_updated_witness :
  exists c u,
    sample_record !! "created_at" = Some (VDatetime c)
    /\ sample_record !! "updated_at" = Some (VDatetime u)
    /\ (c <= u)%Z.
Proof.
  apply (created_not_after_updated sample_clock sample_uuid4 sample_ObjectId no_faults
           [("device-1", no_patch)] sample_record).
  - intros m n Hmn. unfold sample_clock. lia.
  - rewrite sample_run_reaches_sample_world. apply list_elem_of_singleton. reflexivity.
Defined.

Lemma interleaved_first_writes_insert_twice_witness :
  find_one "device-1" (user_settings (empty_world (F := R))) = None
  /\ count_device "device-1"
       (user_settings
          (interleaved_first_writes sample_clock sample_uuid4 sample_ObjectId no_faults
             "device-1" no_patch english_patch empty_world)) = 2.
Proof.
  split; [reflexivity|].
  apply (interleaved_first_writes_insert_twice sample_clock sample_uuid4 sample_ObjectId
           no_faults empty_world "device-1" no_patch english_patch).
  - reflexivity.
  - apply no_faults_between.
Defined.
End SettingsMore.

(** * The settings endpoints through the two encodings *)

Module MongoFacts.
Import Backend SettingsModel SettingsFacts SettingsMore.

Section Facts.
Context {F : Type}.
Implicit Types (p : UserSettingsUpdate (F:=F)) (doc upd : gmap string (value (F:=F)))
  (coll : list (gmap string (value (F:=F)))) (d k : string) (w : world (F:=F)).

Variable clock : nat -> Z.
Variable uuid4_at : nat -> string.
Variable ObjectId_at : nat -> Z.
Variable db_fault : nat -> option string.
Variable isfinite : F -> bool.

Local Abbreviation upsert := (Mongo.create_or_update_settings clock uuid4_at ObjectId_at db_fault).
Local Abbreviation post :=
  (Mongo.route_post_settings clock uuid4_at ObjectId_at db_fault isfinite).
Local Abbreviation get := (Mongo.route_get_settings db_fault isfinite).

(** ** The store's encoding of what the handler writes *)

Local Ltac patch_entries H :=
  unfold UserSettingsUpdate_dict in H; apply elem_of_list_to_map_2 in H;
  repeat (apply elem_of_cons in H as [H|H]; [injection H as -> ->|]);
  [..|by apply elem_of_nil in H].

Local Ltac record_entries H :=
  unfold UserSettings_dict in H; apply elem_of_list_to_map_2 in H;
  repeat (apply elem_of_cons in H as [H|H]; [injection H as -> ->|]);
  [..|by apply elem_of_nil in H].

Lemma bson_patch p :
  Mongo.bson_document (drop_None (UserSettingsUpdate_dict p))
  = drop_None (UserSettingsUpdate_dict p).
Proof.
  apply map_eq. intros k. unfold Mongo.bson_document. rewrite lookup_fmap, drop_None_lookup.
  destruct (UserSettingsUpdate_dict p !! k) as [v|] eqn:Hv; [|done].
  destruct (is_not_None v); [|done]. cbn [fmap option_fmap option_map]. f_equal.
  destruct p as [pl pt pe ps pm pla plo pci pco].
  patch_entries Hv; cbn;
    match goal with |- context [optional _ ?o] => destruct o end; reflexivity.
Qed.

Lemma bson_merge_data now p :
  Mongo.bson_document (merge_data now p) = merge_data (Mongo.milliseconds now) p.
Proof.
  unfold merge_data, Mongo.bson_document. rewrite fmap_insert.
  fold (Mongo.bson_document (drop_None (UserSettingsUpdate_dict p))).
  by rewrite bson_patch.
Qed.

Lemma bson_created_record new_id d p t1 t2 :
  Mongo.bson_document (UserSettings_dict (created_record new_id d p t1 t2))
  = UserSettings_dict
      (created_record new_id d p (Mongo.milliseconds t1) (Mongo.milliseconds t2)).
Proof.
  unfold Mongo.bson_document, UserSettings_dict. rewrite <- list_to_map_fmap.
  cbn [fmap list_fmap prod_map fst snd id created_record latitude longitude city country
       created_at updated_at Backend.id device_id language theme notification_enabled
       notification_sound calculation_method Mongo.bson_value].
  destruct p as [pl pt pe ps pm pla plo pci pco];
    cbn [u_latitude u_longitude u_city u_country].
  by destruct pla, plo, pci, pco.
Qed.

Lemma merge_data_encodable now p :
  Mongo.patch_fits p -> Mongo.bson_encodable (merge_data now p) = true.
Proof.
  intros Hfit. apply bool_decide_eq_true. unfold merge_data.
  apply map_Forall_insert_2; [reflexivity|].
  intros k v Hv. rewrite drop_None_lookup in Hv.
  destruct (UserSettingsUpdate_dict p !! k) as [v'|] eqn:Hd; [|done].
  destruct (is_not_None v'); [|done]. injection Hv as <-.
  unfold Mongo.patch_fits in Hfit.
  destruct p as [pl pt pe ps pm pla plo pci pco]. cbn in Hfit.
  patch_entries Hd; cbn;
    match goal with |- context [optional _ ?o] => destruct o end; done.
Qed.

Lemma created_record_encodable new_id d p t1 t2 :
  Mongo.patch_fits p ->
  Mongo.bson_encodable (UserSettings_dict (created_record new_id d p t1 t2)) = true.
Proof.
  intros Hfit. apply bool_decide_eq_true. intros k v Hv.
  unfold Mongo.patch_fits in Hfit.
  destruct p as [pl pt pe ps pm pla plo pci pco]. cbn in Hfit.
  record_entries Hv; cbn; try reflexivity;
    try (match goal with |- context [optional _ ?o] => destruct o end; reflexivity).
  destruct pm; [done | reflexivity].
Qed.

(** ** The two branches of the handler *)

Lemma bson_upsert_found w d p doc :
  find_one d (user_settings w) = Some doc ->
  db_fault (step w) = None ->
  db_fault (step w + 2) = None ->
  db_fault (step w + 3) = None ->
  Mongo.patch_fits p ->
  let now := clock (step w + 1) in
  let upd := merge_data (Mongo.milliseconds now) p in
  upsert d p w =
    (inr {| success := true; data := PDoc (upd ∪ doc) |},
     {| user_settings := update_one d upd (user_settings w);
        trace := trace w ++ [EvFindOne d; EvUtcnow; EvUpdateOne d (merge_data now p);
                             EvFindOne d] |}).
Proof.
  intros Hf H0 H2 H3 Hfit now upd.
  unfold Mongo.create_or_update_settings, try_except, bind, db_find_one at 1.
  rewrite H0, Hf, (truthy_found _ _ _ Hf).
  unfold datetime_utcnow, Mongo.db_update_one.
  rewrite !step_emit.
  replace (S (S (step w))) with (step w + 2) by lia.
  rewrite H2.
  replace (S (step w)) with (step w + 1) by lia.
  fold (merge_data (clock (step w + 1)) p). fold now.
  rewrite merge_data_encodable by done. rewrite bson_merge_data. fold upd.
  unfold db_find_one, step at 1. cbn [trace emit user_settings].
  rewrite !length_app. cbn [length].
  replace (length (trace w) + 1 + 1 + 1) with (step w + 3) by (unfold step; lia).
  rewrite H3.
  rewrite find_one_update_one by apply merge_data_device_id.
  rewrite Hf. cbn [fmap option_fmap option_map payload_of]. unfold ret, emit.
  cbn [trace user_settings]. by rewrite <- !app_assoc.
Qed.

Lemma bson_upsert_created w d p :
  find_one d (user_settings w) = None ->
  db_fault (step w) = None ->
  db_fault (step w + 4) = None ->
  Mongo.patch_fits p ->
  let new_id := uuid4_at (step w + 1) in
  let t1 := clock (step w + 2) in
  let t2 := clock (step w + 3) in
  let new_settings := created_record new_id d p t1 t2 in
  let stored :=
    <["_id" := VObjectId (ObjectId_at (step w + 4))]>
      (UserSettings_dict
         (created_record new_id d p (Mongo.milliseconds t1) (Mongo.milliseconds t2))) in
  upsert d p w =
    (inr {| success := true; data := PDoc (UserSettings_dict new_settings) |},
     {| user_settings := user_settings w ++ [stored];
        trace := trace w ++ [EvFindOne d; EvUuid4; EvUtcnow; EvUtcnow;
                             EvInsertOne (UserSettings_dict new_settings)] |}).
Proof.
  intros Hf H0 H4 Hfit new_id t1 t2 new_settings stored.
  unfold Mongo.create_or_update_settings, try_except, bind at 1, db_find_one.
  rewrite H0, Hf. cbn [truthy].
  unfold bind at 1. rewrite UserSettings_new_run, step_emit.
  replace (S (step w) + 1) with (step w + 2) by lia.
  replace (S (step w) + 2) with (step w + 3) by lia.
  replace (S (step w)) with (step w + 1) by lia.
  fold new_id t1 t2 new_settings.
  unfold bind, Mongo.db_insert_one, step in *. cbn [trace user_settings emit].
  rewrite !length_app. cbn [length].
  replace (length (trace w) + 1 + 3) with (length (trace w) + 4) by lia.
  rewrite H4. subst new_settings.
  rewrite created_record_encodable by done. rewrite bson_created_record.
  unfold ret, insert_one. rewrite created_record_no_object_id.
  fold stored. by rewrite <- !app_assoc.
Qed.

(** ** The response's encoding *)

Lemma respond_return (h : M (F:=F) envelope) w body w' :
  h w = (inr body, w') ->
  Mongo.respond isfinite h w =
    if Mongo.jsonable isfinite body then (Response200 body, w')
    else (ResponseError 500 "Internal Server Error", w').
Proof. intros Hh. unfold Mongo.respond, serve. by rewrite Hh. Qed.

Lemma object_id_not_jsonable doc o :
  doc !! "_id" = Some (VObjectId o) ->
  Mongo.jsonable isfinite {| success := true; data := PDoc doc |} = false.
Proof.
  intros Hid. apply bool_decide_eq_false. intros Hall.
  specialize (Hall _ _ Hid). discriminate.
Qed.

Lemma created_record_jsonable new_id d p t1 t2 :
  Mongo.patch_finite isfinite p ->
  Mongo.jsonable isfinite
    {| success := true; data := PDoc (UserSettings_dict (created_record new_id d p t1 t2)) |}
  = true.
Proof.
  intros [Hla Hlo]. apply bool_decide_eq_true. intros k v Hv.
  destruct p as [pl pt pe ps pm pla plo pci pco]. cbn in Hla, Hlo.
  record_entries Hv; cbn; try reflexivity;
    try (match goal with |- context [optional _ ?o] => destruct o end; done).
Qed.

Lemma created_record_stamps new_id d p t1 t2 t1' t2' k :
  k ≠ "created_at" -> k ≠ "updated_at" ->
  UserSettings_dict (F:=F) (created_record new_id d p t1 t2) !! k
  = UserSettings_dict (created_record new_id d p t1' t2') !! k.
Proof.
  intros Hc Hu.
  destruct (decide (k ∈ Mongo.record_fields)) as [Hin|Hout].
  - unfold Mongo.record_fields in Hin.
    repeat (apply elem_of_cons in Hin as [->|Hin]); try done.
    by apply elem_of_nil in Hin.
  - by rewrite !UserSettings_dict_other.
Qed.

(** ** The update branch *)

(** C4: on a found record the merge is done and stored: each field of the
    patch overwrites the stored one, each field it leaves out keeps the
    stored value, [updated_at] takes the clock reading of the call (to the
    millisecond), every other key is untouched. The handler then returns
    the stored document as it re-read it, with the driver's [_id]; that
    value has no JSON encoding, and the route answers 500 instead of the
    record. *)
Theorem update_is_stored_but_answered_500 w d p doc o :
  find_one d (user_settings w) = Some doc ->
  doc !! "_id" = Some (VObjectId o) ->
  no_fault_between db_fault (step w) (step w + 4) ->
  Mongo.patch_fits p ->
  ∃ merged w',
    upsert d p w = (inr {| success := true; data := PDoc merged |}, w')
    ∧ post d p w = (ResponseError 500 "Internal Server Error", w')
    ∧ merged !! "_id" = Some (VObjectId o)
    ∧ find_one d (user_settings w') = Some merged
    ∧ merged !! "language" = merge_field VStr (u_language p) (doc !! "language")
    ∧ merged !! "theme" = merge_field VStr (u_theme p) (doc !! "theme")
    ∧ merged !! "notification_enabled" =
        merge_field VBool (u_notification_enabled p) (doc !! "notification_enabled")
    ∧ merged !! "notification_sound" =
        merge_field VStr (u_notification_sound p) (doc !! "notification_sound")
    ∧ merged !! "calculation_method" =
        merge_field VInt (u_calculation_method p) (doc !! "calculation_method")
    ∧ merged !! "latitude" = merge_field VFloat (u_latitude p) (doc !! "latitude")
    ∧ merged !! "longitude" = merge_field VFloat (u_longitude p) (doc !! "longitude")
    ∧ merged !! "city" = merge_field VStr (u_city p) (doc !! "city")
    ∧ merged !! "country" = merge_field VStr (u_country p) (doc !! "country")
    ∧ merged !! "updated_at"
      = Some (VDatetime (Mongo.milliseconds (clock (step w + 1))))
    ∧ ∀ k, k ∉ settings_fields -> k ≠ "updated_at" -> merged !! k = doc !! k.
Proof.
  intros Hf Hid Hok Hfit.
  pose proof (bson_upsert_found w d p doc Hf) as Hrun. cbv zeta in Hrun.
  specialize (Hrun (Hok (step w) ltac:(lia)) (Hok (step w + 2) ltac:(lia))
               (Hok (step w + 3) ltac:(lia)) Hfit).
  assert (∀ k, k ∉ settings_fields -> k ≠ "updated_at" ->
            (merge_data (Mongo.milliseconds (clock (step w + 1))) p ∪ doc) !! k = doc !! k)
    as Hkeep.
  { intros k Hk Hu. rewrite lookup_union_r; [done|].
    apply merge_data_other; [done|]. by apply not_patched_key. }
  eexists _, _. split; [exact Hrun|]. split.
  { unfold Mongo.route_post_settings. rewrite (respond_return _ _ _ _ Hrun).
    rewrite (object_id_not_jsonable _ o); [reflexivity|].
    rewrite Hkeep; [done | compute_done | done]. }
  split; [rewrite Hkeep; [done | compute_done | done]|].
  cbn [user_settings]. split.
  { rewrite find_one_update_one by apply merge_data_device_id. by rewrite Hf. }
  repeat (split; [by apply merged_field|]).
  split; [|exact Hkeep].
  rewrite lookup_union_l'; unfold merge_data; rewrite lookup_insert_eq; eauto.
Qed.

(** X19: an empty patch on a found record changes nothing in the store but
    [updated_at], which takes the clock reading of the call to the
    millisecond; as on every update the route answers 500. *)
Theorem empty_patch_refreshes_updated_at w d doc o :
  find_one d (user_settings w) = Some doc ->
  doc !! "_id" = Some (VObjectId o) ->
  no_fault_between db_fault (step w) (step w + 4) ->
  ∃ w',
    post d empty_patch w = (ResponseError 500 "Internal Server Error", w')
    ∧ find_one d (user_settings w')
      = Some (<["updated_at" := VDatetime (Mongo.milliseconds (clock (step w + 1)))]> doc).
Proof.
  intros Hf Hid Hok.
  set (now := Mongo.milliseconds (clock (step w + 1))).
  assert (merge_data now empty_patch ∪ doc = <["updated_at" := VDatetime now]> doc) as Hm.
  { apply map_eq. intros k. rewrite lookup_union. unfold merge_data.
    destruct (decide (k = "updated_at")) as [->|Hk].
    - rewrite !lookup_insert_eq. by destruct (doc !! "updated_at").
    - rewrite !lookup_insert_ne by done.
      assert (drop_None (UserSettingsUpdate_dict (F:=F) empty_patch) !! k = None) as ->.
      { rewrite drop_None_lookup.
        destruct (UserSettingsUpdate_dict (F:=F) empty_patch !! k) as [v|] eqn:Hv; [|done].
        assert (v = VNone) as ->; [|done].
        unfold UserSettingsUpdate_dict in Hv. cbn [empty_patch] in Hv.
        apply elem_of_list_to_map_2 in Hv.
        repeat (apply elem_of_cons in Hv as [Hv|Hv]; [by injection Hv as _ <-|]).
        by apply elem_of_nil in Hv. }
      by destruct (doc !! k). }
  pose proof (bson_upsert_found w d empty_patch doc Hf) as Hrun. cbv zeta in Hrun.
  specialize (Hrun (Hok (step w) ltac:(lia)) (Hok (step w + 2) ltac:(lia))
               (Hok (step w + 3) ltac:(lia)) I).
  fold now in Hrun. rewrite Hm in Hrun.
  eexists. split.
  - unfold Mongo.route_post_settings. rewrite (respond_return _ _ _ _ Hrun).
    rewrite (object_id_not_jsonable _ o); [reflexivity|].
    by rewrite lookup_insert_ne.
  - cbn [user_settings]. rewrite find_one_update_one by apply merge_data_device_id.
    by rewrite Hf, <- Hm.
Qed.

(** ** The create branch *)

(** C5, amended: for a device without a record, and a patch whose
    calculation_method fits the store's 8-byte integers, the write inserts
    one record and returns it. The record's id is the one drawn from the
    generator during the call, its device is the input, created_at and
    updated_at are clock readings of the call, each field of the patch is
    applied and each other field takes its default: language "tr", theme
    "dark", notifications on, sound "default", method 13, no latitude,
    longitude, city or country. The stored copy has the driver's [_id] and
    the two timestamps to the millisecond, and is the device's only record.
    With finite coordinates the route answers 200 with the record. When
    the generator never repeats, the id differs from every id in the
    collection. *)
Theorem first_write_creates_record w d p :
  find_one d (user_settings w) = None ->
  no_fault_between db_fault (step w) (step w + 5) ->
  Mongo.patch_fits p ->
  ∃ returned stored w',
    upsert d p w = (inr {| success := true; data := PDoc returned |}, w')
    ∧ user_settings w' = user_settings w ++ [stored]
    ∧ find_one d (user_settings w') = Some stored
    ∧ count_device d (user_settings w') = 1
    ∧ returned !! "id" = Some (VStr (uuid4_at (step w + 1)))
    ∧ returned !! "device_id" = Some (VStr d)
    ∧ returned !! "language" = Some (VStr (default "tr" (u_language p)))
    ∧ returned !! "theme" = Some (VStr (default "dark" (u_theme p)))
    ∧ returned !! "notification_enabled"
      = Some (VBool (default true (u_notification_enabled p)))
    ∧ returned !! "notification_sound"
      = Some (VStr (default "default" (u_notification_sound p)))
    ∧ returned !! "calculation_method"
      = Some (VInt (default 13%Z (u_calculation_method p)))
    ∧ returned !! "latitude" = Some (optional VFloat (u_latitude p))
    ∧ returned !! "longitude" = Some (optional VFloat (u_longitude p))
    ∧ returned !! "city" = Some (optional VStr (u_city p))
    ∧ returned !! "country" = Some (optional VStr (u_country p))
    ∧ returned !! "created_at" = Some (VDatetime (clock (step w + 2)))
    ∧ returned !! "updated_at" = Some (VDatetime (clock (step w + 3)))
    ∧ (∀ k, k ∉ Mongo.record_fields -> returned !! k = None)
    ∧ stored !! "_id" = Some (VObjectId (ObjectId_at (step w + 4)))
    ∧ stored !! "created_at"
      = Some (VDatetime (Mongo.milliseconds (clock (step w + 2))))
    ∧ stored !! "updated_at"
      = Some (VDatetime (Mongo.milliseconds (clock (step w + 3))))
    ∧ (∀ k, k ∉ ["_id"; "created_at"; "updated_at"] -> stored !! k = returned !! k)
    ∧ (Mongo.patch_finite isfinite p ->
       post d p w = (Response200 {| success := true; data := PDoc returned |}, w'))
    ∧ (Inj (=) (=) uuid4_at -> ids_drawn_before uuid4_at w ->
       ∀ doc, doc ∈ user_settings w -> doc !! "id" ≠ returned !! "id").
Proof.
  intros Hf Hok Hfit.
  pose proof (bson_upsert_created w d p Hf (Hok (step w) ltac:(lia))
                (Hok (step w + 4) ltac:(lia)) Hfit) as Hrun.
  cbv zeta in Hrun.
  eexists _, _, _. split; [exact Hrun|]. cbn [user_settings].
  split; [reflexivity|]. split.
  { rewrite find_one_app, Hf. cbn [find_one]. rewrite matches_created.
    cbn [device_id created_record]. by rewrite bool_decide_eq_true_2. }
  split.
  { rewrite count_device_app, (count_device_0 _ _ Hf). unfold count_device.
    rewrite filter_cons, filter_nil, matches_created.
    cbn [device_id created_record]. by rewrite decide_True by by apply bool_decide_eq_true. }
  do 13 (split; [reflexivity|]).
  split; [intros k Hk; by apply UserSettings_dict_other|].
  do 3 (split; [reflexivity|]).
  split.
  { intros k Hk.
    assert (k ≠ "_id") as Hid by (intros ->; apply Hk; compute_done).
    assert (k ≠ "created_at") as Hc by (intros ->; apply Hk; compute_done).
    assert (k ≠ "updated_at") as Hu by (intros ->; apply Hk; compute_done).
    rewrite lookup_insert_ne by done. by apply created_record_stamps. }
  split.
  { intros Hfin. unfold Mongo.route_post_settings.
    rewrite (respond_return _ _ _ _ Hrun).
    by rewrite created_record_jsonable. }
  intros Hinj Hinv doc Hin Hid.
  destruct (Hinv doc _ Hin Hid) as (m & Hm & Heq).
  apply Hinj in Heq. lia.
Qed.

(** X21: a first write followed by a read of the same device: the read
    answers 200 with the record the write returned, except that created_at
    and updated_at come back cut to the millisecond. *)
Theorem first_write_then_read w d p :
  find_one d (user_settings w) = None ->
  no_fault_between db_fault (step w) (step w + 6) ->
  Mongo.patch_fits p ->
  Mongo.patch_finite isfinite p ->
  ∃ returned read w1 w2,
    post d p w = (Response200 {| success := true; data := PDoc returned |}, w1)
    ∧ get d w1 = (Response200 {| success := true; data := PDoc read |}, w2)
    ∧ returned !! "created_at" = Some (VDatetime (clock (step w + 2)))
    ∧ returned !! "updated_at" = Some (VDatetime (clock (step w + 3)))
    ∧ read !! "created_at" = Some (VDatetime (Mongo.milliseconds (clock (step w + 2))))
    ∧ read !! "updated_at" = Some (VDatetime (Mongo.milliseconds (clock (step w + 3))))
    ∧ ∀ k, k ≠ "created_at" -> k ≠ "updated_at" -> read !! k = returned !! k.
Proof.
  intros Hf Hok Hfit Hfin.
  pose proof (bson_upsert_created w d p Hf (Hok (step w) ltac:(lia))
                (Hok (step w + 4) ltac:(lia)) Hfit) as Hrun.
  cbv zeta in Hrun.
  eexists _, _, _, _. split.
  { unfold Mongo.route_post_settings. rewrite (respond_return _ _ _ _ Hrun).
    by rewrite created_record_jsonable. }
  split.
  { unfold Mongo.route_get_settings.
    erewrite respond_return.
    2:{ rewrite get_settings_run.
        - cbn [user_settings]. rewrite find_one_app, Hf. cbn [find_one].
          rewrite matches_created. cbn [device_id created_record].
          rewrite bool_decide_eq_true_2 by done.
          cbn [fmap option_fmap option_map payload_of].
          rewrite delete_insert_eq.
          rewrite delete_id by apply created_record_no_object_id. reflexivity.
        - apply Hok. unfold step. cbn [trace]. rewrite length_app. cbn [length]. lia. }
    by rewrite created_record_jsonable. }
  do 4 (split; [reflexivity|]).
  intros k Hc Hu. by apply created_record_stamps.
Qed.
End Facts.

(** ** The theorems at sample data *)

Import Sample Sample2 Sample3.


Lemma first_write_world_reached :
  (Mongo.create_or_update_settings sample_clock sample_uuid4 sample_ObjectId no_faults
     "device-1" no_patch empty_world).2 = first_write_world.
Proof. vm_compute. reflexivity. Qed.

Lemma first_write_world_ids_drawn : ids_drawn_before sample_uuid4 first_write_world.
Proof.
  intros doc s Hin Hid. apply list_elem_of_singleton in Hin. subst doc.
  exists 1. split; [cbn; lia|].
  change (stored_sample_record !! "id") with (Some (VStr (F := R) "1")) in Hid.
  injection Hid as <-. reflexivity.
Defined.

Lemma update_is_stored_but_answered_500_witness :
  find_one "device-1" (user_settings first_write_world) = Some stored_sample_record
  /\ stored_sample_record !! "_id" = Some (VObjectId 4)
  /\ exists merged w',
       Mongo.route_post_settings sample_clock sample_uuid4 sample_ObjectId no_faults
         always_finite "device-1" english_patch first_write_world
       = (ResponseError 500 "Internal Server Error", w')
       /\ find_one "device-1" (user_settings w') = Some merged
       /\ merged !! "language" = Some (VStr "en")
       /\ merged !! "theme" = Some (VStr "dark")
       /\ merged !! "updated_at" = Some (VDatetime 1700000000).
Proof.
  split; [reflexivity|]. split; [reflexivity|].
  destruct (update_is_stored_but_answered_500 sample_clock sample_uuid4 sample_ObjectId
              no_faults always_finite first_write_world "device-1" english_patch
              stored_sample_record 4)
    as (merged & w' & _ & Hpost & _ & Hfind & Hl & Ht & _ & _ & _ & _ & _ & _ & _ & Hu & _).
  - reflexivity.
  - reflexivity.
  - apply no_faults_between.
  - exact I.
  - exists merged, w'. split; [exact Hpost|]. split; [exact Hfind|].
    split; [exact Hl|]. split; [rewrite Ht; reflexivity | rewrite Hu; reflexivity].
Defined.

Lemma empty_patch_refreshes_updated_at_witness :
  find_one "device-1" (user_settings first_write_world) = Some stored_sample_record
  /\ stored_sample_record !! "_id" = Some (VObjectId 4)
  /\ exists w',
       Mongo.route_post_settings sample_clock sample_uuid4 sample_ObjectId no_faults
         always_finite "device-1" empty_patch first_write_world
       = (ResponseError 500 "Internal Server Error", w')
       /\ find_one "device-1" (user_settings w')
          = Some (<["updated_at" := VDatetime 1700000000]> stored_sample_record).
Proof.
  split; [reflexivity|]. split; [reflexivity|].
  apply (empty_patch_refreshes_updated_at sample_clock sample_uuid4 sample_ObjectId
           no_faults always_finite first_write_world "device-1" stored_sample_record 4).
  - reflexivity.
  - reflexivity.
  - apply no_faults_between.
Defined.

Lemma first_write_creates_record_witness :
  find_one "device-2" (user_settings first_write_world) = None
  /\ exists returned stored w',
       Mongo.create_or_update_settings sample_clock sample_uuid4 sample_ObjectId no_faults
         "device-2" english_patch first_write_world
       = (inr {| success := true; data := PDoc returned |}, w')
       /\ user_settings w' = [stored_sample_record; stored]
       /\ returned !! "id" = Some (VStr "6")
       /\ returned !! "device_id" = Some (VStr "device-2")
       /\ returned !! "language" = Some (VStr "en")
       /\ returned !! "theme" = Some (VStr "dark")
       /\ returned !! "calculation_method" = Some (VInt 13)
       /\ returned !! "latitude" = Some VNone
       /\ returned !! "created_at" = Some (VDatetime 1700000007)
       /\ stored !! "created_at" = Some (VDatetime 1700000000)
       /\ stored !! "language" = Some (VStr "en")
       /\ stored_sample_record !! "id" <> returned !! "id".
Proof.
  split; [reflexivity|].
  destruct (first_write_creates_record sample_clock sample_uuid4 sample_ObjectId
              no_faults always_finite first_write_world "device-2" english_patch)
    as (returned & stored & w' & Hrun & Hcoll & _ & _ & Hid & Hdev & Hlang & Htheme & _ & _
        & Hcm & Hlat & _ & _ & _ & Hcr & _ & _ & _ & Hscr & _ & Hsame & _ & Hfresh).
  - reflexivity.
  - apply no_faults_between.
  - exact I.
  - exists returned, stored, w'. split; [exact Hrun|]. split; [exact Hcoll|].
    split; [exact Hid|]. split; [exact Hdev|]. split; [exact Hlang|].
    split; [exact Htheme|]. split; [exact Hcm|]. split; [exact Hlat|].
    split; [exact Hcr|]. split; [exact Hscr|].
    split; [rewrite Hsame; [exact Hlang | compute_done]|].
    apply Hfresh.
    + unfold sample_uuid4. apply pretty_nat_inj.
    + apply first_write_world_ids_drawn.
    + apply list_elem_of_singleton. reflexivity.
Defined.

(** C5 as stated fails: a first write whose calculation_method is 2^63 is
    refused by the store's encoding; the route answers 500 and no record is
    created. *)
Lemma first_write_with_wide_integer_creates_nothing :
  find_one "device-1" (user_settings (empty_world (F := R))) = None
  /\ (Mongo.route_post_settings sample_clock sample_uuid4 sample_ObjectId no_faults
        always_finite "device-1" wide_patch empty_world).1
     = ResponseError 500 "MongoDB can only handle up to 8-byte ints"
  /\ user_settings
       (Mongo.route_post_settings sample_clock sample_uuid4 sample_ObjectId no_faults
          always_finite "device-1" wide_patch empty_world).2 = []
  /\ find_one "device-1"
       (user_settings
          (Mongo.route_post_settings sample_clock sample_uuid4 sample_ObjectId no_faults
             always_finite "device-1" wide_patch empty_world).2) = None.
Proof. vm_compute. repeat split; reflexivity. Qed.

Lemma first_write_then_read_witness :
  find_one "device-2" (user_settings first_write_world) = None
  /\ exists returned read w1 w2,
       Mongo.route_post_settings sample_clock sample_uuid4 sample_ObjectId no_faults
         always_finite "device-2" english_patch first_write_world
       = (Response200 {| success := true; data := PDoc returned |}, w1)
       /\ Mongo.route_get_settings no_faults always_finite "device-2" w1
          = (Response200 {| success := true; data := PDoc read |}, w2)
       /\ returned !! "created_at" = Some (VDatetime 1700000007)
       /\ read !! "created_at" = Some (VDatetime 1700000000)
       /\ read !! "language" = returned !! "language".
Proof.
  split; [reflexivity|].
  destruct (first_write_then_read sample_clock sample_uuid4 sample_ObjectId
              no_faults always_finite first_write_world "device-2" english_patch)
    as (returned & read & w1 & w2 & Hpost & Hget & Hc & _ & Hrc & _ & Hsame).
  - reflexivity.
  - apply no_faults_between.
  - exact I.
  - split; exact I.
  - exists returned, read, w1, w2. split; [exact Hpost|]. split; [exact Hget|].
    split; [exact Hc|]. split; [exact Hrc|]. apply Hsame; discriminate.
Defined.
End MongoFacts.

(** * Two writes at once, at sample data *)

Module RaceFacts.
Import Backend SettingsModel Sample Sample3.

(** C6: two first writes for "device-1" that meet at the lookup: the
    first request looks the device up and finds nothing, the second runs
    from start to end and inserts, the first resumes with its answer and
    inserts too. The collection then holds two records for the device,
    with the ids "2" and "6". *)
Theorem interleaved_first_writes_leave_two_records :
  let coll :=
    user_settings
      (interleaved_first_writes sample_clock sample_uuid4 sample_ObjectId no_faults
         "device-1" no_patch english_patch (empty_world (F := R))) in
  find_one "device-1" (user_settings (empty_world (F := R))) = None
  /\ count_device "device-1" coll = 2
  /\ (fun doc => doc !! "device_id") <$> coll
     = [Some (VStr "device-1"); Some (VStr "device-1")]
  /\ record_ids coll = [Some (VStr "2"); Some (VStr "6")].
Proof. vm_compute. repeat split; reflexivity. Qed.
End RaceFacts.

(** * Requests that lack a required parameter *)

Module ValidationFacts.
Import Backend Validation.

Section Facts.
Context {F : Type} `{PyFloat F}.
Implicit Types (w : world (F:=F)) (query : gmap string string).

Variable clock : nat -> Z.
Variable aladhan : nat -> string -> F -> F -> Z -> exn + json.
Variable strftime_dmY : Z -> string.
Variable format_value : json -> string.
Variable float_of_str : string -> option F.
Variable int_of_str : string -> option Z.
Variable isfinite : F -> bool.

Local Abbreviation validate := (Validation.validate float_of_str int_of_str).
Local Abbreviation endpoint := (Validation.endpoint float_of_str int_of_str).
Local Abbreviation prayer_times :=
  (prayer_times_endpoint clock aladhan strftime_dmY format_value float_of_str int_of_str).
Local Abbreviation monthly :=
  (monthly_endpoint aladhan format_value float_of_str int_of_str).
Local Abbreviation qibla := (qibla_endpoint float_of_str int_of_str isfinite).

(** A required parameter that the query lacks is among the errors. *)
Lemma validate_missing (params : list Query) query (q : Query) :
  q ∈ params -> q_default q = None -> query !! q_name q = None ->
  missing (q_name q) ∈ (validate params query).1.
Proof.
  intros Hin Hd Hq. induction params as [|q0 params IH].
  - by apply elem_of_nil in Hin.
  - cbn [Validation.validate].
    destruct (validate params query) as [errors args] eqn:E.
    apply elem_of_cons in Hin as [<-|Hin].
    + unfold validate_one. rewrite Hq, Hd. cbn [fst]. apply elem_of_cons. by left.
    + specialize (IH Hin). cbn [fst] in IH.
      destruct (validate_one float_of_str int_of_str q0 query); cbn [fst]; [|done].
      apply elem_of_cons. by right.
Qed.

(** With an error the handler is not called and the world stays as it
    is. *)
Lemma endpoint_rejects (params : list Query) call query w e :
  e ∈ (validate params query).1 ->
  endpoint params call query w
  = (RequestValidationError (validate params query).1, w).
Proof.
  intros He. unfold Validation.endpoint.
  destruct (validate params query) as [[|e' errors] args]; [|reflexivity].
  by apply elem_of_nil in He.
Qed.

Lemma endpoint_missing (params : list Query) call query w name :
  {| q_name := name; q_annotation := Tfloat; q_default := None |} ∈ params
  ∨ {| q_name := name; q_annotation := Tint; q_default := None |} ∈ params ->
  query !! name = None ->
  rejected name w (endpoint params call query w).
Proof.
  intros Hin Hq.
  assert (missing name ∈ (validate params query).1) as He.
  { destruct Hin as [Hin|Hin];
      apply (validate_missing params query _ Hin); done. }
  unfold rejected. rewrite (endpoint_rejects _ _ _ _ _ He).
  eexists. split; [reflexivity|]. split; [exact He|]. cbn. lia.
Qed.

Local Ltac declared :=
  repeat first [apply list_elem_of_here | apply list_elem_of_further].

(** C8, amended: a request that lacks a required query parameter
    (latitude or longitude on the three routes, month or year on the
    monthly route) is answered 422, with an error entry that names the
    missing parameter, and the world is as before: the handler is not
    called, so there is no upstream call and no store access. *)
Theorem missing_required_parameter_is_rejected query w name :
  query !! name = None ->
  (name ∈ ["latitude"; "longitude"] -> rejected name w (prayer_times query w))
  ∧ (name ∈ ["latitude"; "longitude"; "month"; "year"] ->
     rejected name w (monthly query w))
  ∧ (name ∈ ["latitude"; "longitude"] -> rejected name w (qibla query w)).
Proof.
  intros Hq.
  unfold prayer_times_endpoint, monthly_endpoint, qibla_endpoint.
  split; [|split]; intros Hin;
    repeat (apply elem_of_cons in Hin as [->|Hin]);
    try (by apply elem_of_nil in Hin);
    (apply endpoint_missing; [|done]);
    first [left; solve [declared] | right; solve [declared]].
Qed.
End Facts.

(** ** The theorem at sample data *)

Import Sample Sample2 Sample3 RealMath.


Lemma missing_required_parameter_is_rejected_witness :
  ({["latitude" := "41.0082"]} : gmap string string) !! "longitude" = None
  /\ rejected "longitude" empty_world
       (qibla_endpoint sample_float_of_str sample_int_of_str always_finite
          {["latitude" := "41.0082"]} empty_world)
  /\ rejected "longitude" empty_world
       (monthly_endpoint upstream_down sample_format sample_float_of_str sample_int_of_str
          {["latitude" := "41.0082"]} empty_world).
Proof.
  split; [reflexivity|].
  destruct (missing_required_parameter_is_rejected sample_clock upstream_down
              sample_strftime sample_format sample_float_of_str sample_int_of_str
              always_finite {["latitude" := "41.0082"]} empty_world "longitude")
    as (_ & Hm & Hq).
  - reflexivity.
  - split; [apply Hq | apply Hm]; compute_done.
Defined.
End ValidationFacts.

(** * The city tables *)

Module CityFacts.
Import Backend Cities RealMath.
Local Open Scope R_scope.

Local Ltac table_bounds :=
  repeat (apply Forall_cons; split;
          [cbn [tc_latitude tc_longitude wc_latitude wc_longitude dec real_float];
           change (10 ^ Z.of_nat 4)%Z with 10000%Z; lra|]);
  apply Forall_nil_2.

(** X26: the Turkish table has 30 cities with distinct names, İstanbul among
    them, all inside the box 36..42 north, 26..45 east, and the route
    returns it with the world untouched. *)
Theorem turkish_cities_table (w : world (F := R)) :
  exists cities,
    get_turkish_cities w = (inr {| l_success := true; l_data := cities |}, w)
    /\ length cities = 30%nat
    /\ NoDup (tc_name <$> cities)
    /\ ("İstanbul" ∈ tc_name <$> cities)
    /\ Forall (fun c => 36 <= tc_latitude c <= 42 /\ 26 <= tc_longitude c <= 45) cities.
Proof.
  eexists. split; [reflexivity|].
  split; [reflexivity|]. split; [compute_done|]. split; [compute_done|].
  unfold TURKISH_CITIES. table_bounds.
Qed.

(** X27: the world table has 20 cities with distinct names and valid
    coordinates; its first entry is Mecca, at exactly the Kaaba coordinates
    the bearing calculation uses. *)
Theorem world_cities_table (w : world (F := R)) :
  exists cities,
    get_world_cities w = (inr {| l_success := true; l_data := cities |}, w)
    /\ length cities = 20%nat
    /\ NoDup (wc_name <$> cities)
    /\ Forall (fun c => -90 <= wc_latitude c <= 90 /\ -180 <= wc_longitude c <= 180) cities
    /\ exists mecca,
         cities !! 0%nat = Some mecca
         /\ wc_name mecca = "Mecca"
         /\ wc_latitude mecca = Qibla.KAABA_LAT
         /\ wc_longitude mecca = Qibla.KAABA_LNG.
Proof.
  eexists. split; [reflexivity|].
  split; [reflexivity|]. split; [compute_done|]. split.
  - unfold WORLD_CITIES. table_bounds.
  - eexists. split; [reflexivity|]. split; [reflexivity|]. split; reflexivity.
Qed.
End CityFacts.
